(** * Sentiment scoring, classification and aggregation

    A shallow embedding of [src/sentiment_analyzer.py] (class
    [SentimentAnalyzer]) together with the fragment of pandas that its
    methods [analyze_dataframe] and [get_sentiment_summary] go through,
    of [src/text_preprocessor.py] (class [TextPreprocessor]) and of the
    two steps of [main.py] that pass a frame from one to the other.

    Conventions of the embedding:
    - a Python [str] is the list of its code points;
    - a Python [float] that is a number is an exact rational ([Q]); the
      not-a-number float is the separate object [PyNaN]; infinities do not
      occur in the code and are not modelled.  Comparisons, [min] and
      [max] of floats are exact in the code as in the model; a sum or a
      difference is exact in the model only, the code rounds it, so what
      is stated of a sum is what holds of it rounded or not (an order, a
      bound met with a margin), never a value to the last digit;
    - a Python [int] is an integer of [Z];
    - an exception is a value of [pyexc] returned through [result];
    - objects that the code allocates (data frames) live in a [heap] and
      are referred to by location. *)

From Stdlib Require Import ZArith QArith Qminmax Qreduction Qround Lqa String Ascii.
From stdpp Require Import base option list gmap fin_maps fin_sets.

Close Scope Q_scope.
Local Open Scope Z_scope.

(** ** Python strings *)

(** A string is the sequence of its code points. *)
Definition pystr := list N.

(** Decoding of the UTF-8 bytes of a literal of this file into code
    points, so that the lexicon can be written as it is in the source. *)
Fixpoint utf8_decode (bs : list N) : pystr :=
  match bs with
  | [] => []
  | b0 :: r =>
      if (b0 <? 128)%N then b0 :: utf8_decode r
      else match r with
        | [] => []
        | b1 :: r1 =>
            if (b0 <? 224)%N then
              ((b0 - 192) * 64 + (b1 - 128))%N :: utf8_decode r1
            else match r1 with
              | [] => []
              | b2 :: r2 =>
                  if (b0 <? 240)%N then
                    ((b0 - 224) * 4096 + (b1 - 128) * 64 + (b2 - 128))%N
                      :: utf8_decode r2
                  else match r2 with
                    | [] => []
                    | b3 :: r3 =>
                        ((b0 - 240) * 262144 + (b1 - 128) * 4096
                         + (b2 - 128) * 64 + (b3 - 128))%N :: utf8_decode r3
                    end
              end
        end
  end.

Definition py (s : string) : pystr :=
  utf8_decode (map N_of_ascii (list_ascii_of_string s)).

(** [str.isspace] on one code point: the white space of CPython's
    [_PyUnicode_IsWhitespace]. *)
Definition isspace (c : N) : bool :=
  ((9 <=? c) && (c <=? 13) || (28 <=? c) && (c <=? 32)
   || (c =? 133) || (c =? 160) || (c =? 5760)
   || (8192 <=? c) && (c <=? 8202)
   || (c =? 8232) || (c =? 8233) || (c =? 8239) || (c =? 8287)
   || (c =? 12288))%N.

(** [str.split()] without arguments: the maximal runs of characters that
    are not white space, in order.  [cur] is the run being read, reversed. *)
Fixpoint split_from (cur : pystr) (s : pystr) : list pystr :=
  match s with
  | [] => match cur with [] => [] | _ => [rev cur] end
  | c :: r =>
      if isspace c then
        match cur with
        | [] => split_from [] r
        | _ => rev cur :: split_from [] r
        end
      else split_from (c :: cur) r
  end.

Definition split (s : pystr) : list pystr := split_from [] s.

(** ** Python objects and exceptions *)

Inductive pyobj : Type :=
| PyNone
| PyStr (s : pystr)
| PyFloat (x : Q)
| PyNaN
| PyInt (n : Z).

Inductive pyexc : Type :=
| TypeError
| KeyError
| ValueError
| InvalidIndexError
| AttributeError.

Inductive result (A : Type) : Type :=
| Ok (a : A)
| Raise (e : pyexc).
Arguments Ok {A} a.
Arguments Raise {A} e.

(** Comparison of two floats that are numbers: [x < y]. *)
Definition py_lt (x y : Q) : bool :=
  match Qcompare x y with Lt => true | _ => false end.

(** The builtins [min(a, b)] and [max(a, b)]: the first argument is kept
    unless the second is strictly smaller (larger). *)
Definition py_min (a b : Q) : Q := if py_lt b a then b else a.
Definition py_max (a b : Q) : Q := if py_lt a b then b else a.

(** [sum] of a sequence of integers. *)
Definition py_sum (xs : list Z) : Z := fold_left Z.add xs 0.

(** Truth value of an object ([not text] is its negation). *)
Definition truthy (o : pyobj) : bool :=
  match o with
  | PyNone => false
  | PyStr s => match s with [] => false | _ => true end
  | PyFloat x => negb (Qeq_bool x 0)
  | PyNaN => true
  | PyInt n => negb (n =? 0)
  end.

(** [pd.isna] on a scalar. *)
Definition isna (o : pyobj) : bool :=
  match o with
  | PyNone | PyNaN => true
  | _ => false
  end.

(** ** The lexicon of [SentimentAnalyzer.__init__] *)

Definition positive_words : gset pystr :=
  list_to_set (map py [
    "bom"; "boa"; "ótimo"; "ótima"; "excelente"; "fantástico"; "fantástica";
    "incrível"; "maravilhoso"; "maravilhosa"; "perfeito"; "perfeita";
    "adoro"; "amo"; "gosto"; "recomendo"; "satisfeito"; "satisfeita";
    "feliz"; "alegre"; "contente"; "impressionado"; "impressionada";
    "surpreendente"; "genial"; "brilhante"; "espetacular"; "magnífico";
    "delicioso"; "deliciosa"; "saboroso"; "saborosa"; "gostoso"; "gostosa"
  ]%string).

Definition negative_words : gset pystr :=
  list_to_set (map py [
    "ruim"; "péssimo"; "péssima"; "horrível"; "terrível"; "odioso";
    "detesto"; "odeio"; "desgosto"; "desapontado"; "desapontada";
    "frustrado"; "frustrada"; "irritado"; "irritada"; "bravo"; "brava";
    "furioso"; "furiosa"; "chateado"; "chateada"; "triste"; "deprimido";
    "deprimida"; "angustiado"; "angustiada"; "preocupado"; "preocupada";
    "nervoso"; "nervosa"; "ansioso"; "ansiosa"; "medo"; "assustado";
    "assustada"; "decepcionado"; "decepcionada"; "chocado"; "chocada"
  ]%string).

(** ** Raising computations *)

#[global] Instance result_ret : MRet result := λ A a, Ok a.
#[global] Instance result_bind : MBind result := λ A B f m,
  match m with
  | Ok a => f a
  | Raise e => Raise e
  end.

(** ** The fragment of pandas that the analyzer uses

    A data frame is its row labels and its columns, each column being a
    label and one cell per row.  Row labels are integers, as in every
    frame the pipeline builds.  A column is selected by its label, the
    first one when a label is repeated (pandas then returns a sub-frame;
    the statements below assume distinct column labels). *)

Record DataFrame : Type := MkDataFrame {
  index : list Z;
  columns : list (string * list pyobj)
}.

Definition column_names (df : DataFrame) : list string := (columns df).*1.

(** [len(df)] *)
Definition len (df : DataFrame) : Z := Z.of_nat (length (index df)).

(** Every column has one cell per row label. *)
Definition well_formed (df : DataFrame) : Prop :=
  Forall (λ c, length c.2 = length (index df)) (columns df).

Fixpoint lookup_item {A} (k : string) (items : list (string * A)) : option A :=
  match items with
  | [] => None
  | (k', v) :: r => if bool_decide (k' = k) then Some v else lookup_item k r
  end.

(** [df[col]]: the cells of the column, [KeyError] when it is missing. *)
Definition getitem (df : DataFrame) (col : string) : result (list pyobj) :=
  match lookup_item col (columns df) with
  | Some cells => Ok cells
  | None => Raise KeyError
  end.

(** [RangeIndex(n)] *)
Definition range_index (n : nat) : list Z := Z.of_nat <$> seq 0 n.

(** The keys of a list of dictionaries in the order they are first seen. *)
Definition keys_in_order (ds : list (list (string * pyobj))) : list string :=
  foldl (λ acc k, if bool_decide (k ∈ acc) then acc else acc ++ [k])
        [] (concat (map (λ d, d.*1) ds)).

(** [pd.DataFrame(records)] on a list of dictionaries: a fresh
    [RangeIndex], one column per key, [NaN] where a record lacks a key. *)
Definition DataFrame_of_records (ds : list (list (string * pyobj))) : DataFrame :=
  {| index := range_index (length ds);
     columns := map (λ k, (k, map (λ d, default PyNaN (lookup_item k d)) ds))
                    (keys_in_order ds) |}.

(** [df.drop(label, axis=1)]: [KeyError] when no column has the label. *)
Definition drop_column (df : DataFrame) (label : string) : result DataFrame :=
  if bool_decide (label ∈ column_names df) then
    Ok {| index := index df;
          columns := filter (λ c, c.1 ≠ label) (columns df) |}
  else Raise KeyError.

(** Position of the first occurrence of a row label. *)
Fixpoint position (label : Z) (labels : list Z) : option nat :=
  match labels with
  | [] => None
  | l :: r => if bool_decide (l = label) then Some 0%nat
              else S <$> position label r
  end.

(** The cells of a column moved to a new index: the cell of the row with
    the same label, [NaN] for a label the column does not have. *)
Definition reindex (old_index : list Z) (cells : list pyobj)
    (new_index : list Z) : list pyobj :=
  map (λ label,
         match position label old_index with
         | Some i => default PyNaN (cells !! i)
         | None => PyNaN
         end) new_index.

(** Union of two indexes without sorting: the labels of the first, then
    the labels that only the second has. *)
Definition index_union (a b : list Z) : list Z :=
  a ++ filter (λ label, label ∉ a) b.

(** [pd.concat([a, b], axis=1)].  The frames are aligned on their row
    labels (an outer join): when the two indexes are equal the columns are
    put side by side; otherwise both frames are moved to the union of the
    indexes, which pandas refuses when an index repeats a label. *)
Definition concat_axis1 (a b : DataFrame) : result DataFrame :=
  if bool_decide (index a = index b) then
    Ok {| index := index a; columns := columns a ++ columns b |}
  else if bool_decide (NoDup (index a)) && bool_decide (NoDup (index b)) then
    let new_index := index_union (index a) (index b) in
    Ok {| index := new_index;
          columns :=
            map (λ c, (c.1, reindex (index a) c.2 new_index)) (columns a)
            ++ map (λ c, (c.1, reindex (index b) c.2 new_index)) (columns b) |}
  else Raise InvalidIndexError.

(** ** The heap of data frames *)

Definition loc := nat.
Definition heap := list DataFrame.

(** A computation reads and extends the heap and returns or raises; the
    heap is kept when it raises. *)
Definition M (A : Type) : Type := heap → result A * heap.

#[global] Instance M_ret : MRet M := λ A a h, (Ok a, h).
#[global] Instance M_bind : MBind M := λ A B f m h,
  match m h with
  | (Ok a, h') => f a h'
  | (Raise e, h') => (Raise e, h')
  end.

Definition lift {A} (r : result A) : M A := λ h, (r, h).

(** A new object, at a location that was not in use. *)
Definition alloc (df : DataFrame) : M loc := λ h, (Ok (length h), h ++ [df]).

(** The object at a location.  Locations come from [alloc], so the
    location is always in the heap; the other branch is never taken. *)
Definition load (l : loc) : M DataFrame := λ h,
  match h !! l with
  | Some df => (Ok df, h)
  | None => (Raise ValueError, h)
  end.

(** [df.copy()]: a new frame with the same labels and cells. *)
Definition copy (df : loc) : M loc := d ← load df; alloc d.

Definition getitem_at (df : loc) (col : string) : M (list pyobj) :=
  d ← load df; lift (getitem d col).

Definition pd_DataFrame (records : list (list (string * pyobj))) : M loc :=
  alloc (DataFrame_of_records records).

Definition drop (df : loc) (label : string) : M loc :=
  d ← load df; d' ← lift (drop_column d label); alloc d'.

Definition pd_concat_axis1 (a b : loc) : M loc :=
  da ← load a; db ← load b; d ← lift (concat_axis1 da db); alloc d.

(** ** Series statistics *)

#[global] Instance Q_eq_dec : EqDecision Q.
Proof. solve_decision. Defined.

#[global] Instance Q_countable : Countable Q :=
  inj_countable' (λ q, (Qnum q, Qden q)) (λ p, Qmake p.1 p.2)
                 (λ q, match q with Qmake _ _ => eq_refl end).

#[global] Instance pyobj_eq_dec : EqDecision pyobj.
Proof. solve_decision. Defined.

#[global] Instance pyobj_countable : Countable pyobj :=
  inj_countable'
    (λ o, match o with
          | PyNone => inl (inl ())
          | PyNaN => inl (inr ())
          | PyStr s => inr (inl s)
          | PyFloat x => inr (inr (inl x))
          | PyInt n => inr (inr (inr n))
          end)
    (λ c, match c with
          | inl (inl _) => PyNone
          | inl (inr _) => PyNaN
          | inr (inl s) => PyStr s
          | inr (inr (inl x)) => PyFloat x
          | inr (inr (inr n)) => PyInt n
          end)
    (λ o, match o with
          | PyNone | PyNaN | PyStr _ | PyFloat _ | PyInt _ => eq_refl
          end).

(** The key under which a cell is counted: a number that is a float is
    taken in lowest terms, so that equal floats are one key. *)
Definition hash_key (o : pyobj) : pyobj :=
  match o with
  | PyFloat x => PyFloat (Qred x)
  | _ => o
  end.

(** [Series.value_counts()]: the number of cells per value, missing cells
    left out.  The result is a mapping; the order in which pandas lists it
    (by decreasing count) is not part of it. *)
Definition value_counts (cells : list pyobj) : gmap pyobj Z :=
  foldr (λ cell counts,
           if isna cell then counts
           else <[hash_key cell := default 0 (counts !! hash_key cell) + 1]> counts)
        ∅ cells.

(** Sum of the values of a mapping. *)
Definition sum_counts (counts : gmap pyobj Z) : Z :=
  map_fold (λ _ n acc, n + acc) 0 counts.

Definition sum_values (m : gmap pyobj Q) : Q :=
  map_fold (λ _ x acc, (x + acc)%Q) 0%Q m.

(** [Series.value_counts(normalize=True)]: each count divided by the sum
    of the counts. *)
Definition value_counts_normalized (cells : list pyobj) : gmap pyobj Q :=
  let counts := value_counts cells in
  let total := sum_counts counts in
  (λ n, (inject_Z n / inject_Z total)%Q) <$> counts.

(** The number in a cell of a numeric column; [NaN] and [None] are
    missing.  (A numeric column holds nothing else.) *)
Definition to_number (o : pyobj) : option Q :=
  match o with
  | PyFloat x => Some x
  | PyInt n => Some (inject_Z n)
  | _ => None
  end.

Definition of_number (x : option Q) : pyobj :=
  match x with
  | Some q => PyFloat q
  | None => PyNaN
  end.

Fixpoint insert_sorted (x : Q) (l : list Q) : list Q :=
  match l with
  | [] => [x]
  | y :: r => if Qle_bool x y then x :: l else y :: insert_sorted x r
  end.

Definition sort_values (l : list Q) : list Q := foldr insert_sorted [] l.

Definition sum_list_Q (l : list Q) : Q := foldr Qplus 0%Q l.

(** The quantile [q] of a sorted list by linear interpolation. *)
Definition quantile (sorted : list Q) (q : Q) : option Q :=
  match sorted with
  | [] => None
  | x0 :: _ =>
      let n := length sorted in
      let h := (q * inject_Z (Z.of_nat n - 1))%Q in
      let lo := Z.to_nat (Qfloor h) in
      let a := default x0 (sorted !! lo) in
      let b := default a (sorted !! S lo) in
      Some (a + (b - a) * (h - inject_Z (Qfloor h)))%Q
  end.

(** The keys of [Series.describe().to_dict()] for a numeric column. *)
Record describe_stats : Type := DescribeStats {
  stat_count : Z;
  stat_mean : pyobj;
  stat_std : pyobj;
  stat_min : pyobj;
  stat_25 : pyobj;
  stat_50 : pyobj;
  stat_75 : pyobj;
  stat_max : pyobj
}.

Section Describe.

(** The square root of numpy is a parameter. *)
Variable np_sqrt : Q → Q.

Definition mean (xs : list Q) : option Q :=
  match xs with
  | [] => None
  | _ => Some (sum_list_Q xs / inject_Z (Z.of_nat (length xs)))%Q
  end.

(** The sample standard deviation, undefined below two values. *)
Definition std (xs : list Q) : option Q :=
  match xs with
  | [] | [_] => None
  | _ =>
      m ← mean xs;
      Some (np_sqrt (sum_list_Q (map (λ x, (x - m) * (x - m))%Q xs)
                     / inject_Z (Z.of_nat (length xs) - 1))%Q)
  end.

(** [Series.describe()] of a numeric column: missing cells are skipped
    and a statistic of no value is [NaN].  A column of another type has
    other statistics (a count, the number of distinct values, the most
    frequent one and its frequency); a column has no type in the model,
    so [describe] is the right reading only of columns that hold numbers
    or, when they have no cell, come from a column that held numbers. *)
Definition describe (cells : list pyobj) : describe_stats :=
  let xs := omap to_number cells in
  let sorted := sort_values xs in
  {| stat_count := Z.of_nat (length xs);
     stat_mean := of_number (mean xs);
     stat_std := of_number (std xs);
     stat_min := of_number (head sorted);
     stat_25 := of_number (quantile sorted 0.25%Q);
     stat_50 := of_number (quantile sorted 0.5%Q);
     stat_75 := of_number (quantile sorted 0.75%Q);
     stat_max := of_number (last sorted) |}.

End Describe.

(** [Series.idxmax()] and [Series.idxmin()]: the row label of the first
    cell holding the largest (smallest) number, missing cells skipped;
    [best] is the label and the number found so far.  This is their
    reading on a numeric column: on a column that holds a string pandas
    raises [TypeError], and nothing is stated below of such a column. *)
Fixpoint idx_scan (better : Q → Q → bool) (best : option (Z * Q))
    (labels : list Z) (cells : list pyobj) : option (Z * Q) :=
  match labels, cells with
  | label :: labels', cell :: cells' =>
      let best' :=
        match to_number cell, best with
        | Some x, Some (_, y) => if better x y then Some (label, x) else best
        | Some x, None => Some (label, x)
        | None, _ => best
        end in
      idx_scan better best' labels' cells'
  | _, _ => best
  end.

Definition idxmax (labels : list Z) (cells : list pyobj) : option Z :=
  fst <$> idx_scan (λ x y, py_lt y x) None labels cells.

Definition idxmin (labels : list Z) (cells : list pyobj) : option Z :=
  fst <$> idx_scan (λ x y, py_lt x y) None labels cells.

(** What [df.loc[label, col]] gives: the cell when one row has the label,
    a series of cells when several rows have it. *)
Inductive loc_value : Type :=
| Scalar (cell : pyobj)
| Cells (cells : list pyobj).

Fixpoint cells_at (label : Z) (labels : list Z) (cells : list pyobj) : list pyobj :=
  match labels, cells with
  | l :: labels', c :: cells' =>
      if bool_decide (l = label) then c :: cells_at label labels' cells'
      else cells_at label labels' cells'
  | _, _ => []
  end.

(** [df.loc[label, col]], where [label] is what [idxmax] or [idxmin]
    returned.  Of a column without any number [idxmax] has no label to
    return: it raises [ValueError], before the column [col] is looked up
    (so pandas from version 3 on; earlier versions return [NaN] with a
    warning, and [loc] then raises [KeyError]).  Otherwise [KeyError] when
    the column or the label is missing. *)
Definition loc_getitem (df : DataFrame) (label : option Z) (col : string)
    : result loc_value :=
  match label with
  | None => Raise ValueError
  | Some l =>
      cells ← getitem df col;
      match cells_at l (index df) cells with
      | [] => Raise KeyError
      | [c] => Ok (Scalar c)
      | cs => Ok (Cells cs)
      end
  end.

(** ** The scorers and the classifier *)

(** What [analyze_with_textblob] returns: the keys ['polarity'] and
    ['subjectivity']. *)
Record textblob_scores : Type := TextblobScores {
  tb_polarity : Q;
  tb_subjectivity : Q
}.

(** What [analyze_with_vader] returns: the keys ['compound'], ['pos'],
    ['neu'] and ['neg'] of VADER's [polarity_scores]. *)
Record vader_scores : Type := VaderScores {
  compound : Q;
  pos : Q;
  neu : Q;
  neg : Q
}.

(** The dictionary that [analyze_text] returns, key by key. *)
Record analysis : Type := Analysis {
  text : pyobj;
  sentiment_class : pystr;
  polarity : Q;
  subjectivity : Q;
  vader_compound : Q;
  vader_pos : Q;
  vader_neu : Q;
  vader_neg : Q
}.

Definition vader_fallback : vader_scores :=
  {| compound := 0; pos := 0; neu := 1; neg := 0 |}.

Definition default_threshold : Q := 0.1%Q.

Definition classify_sentiment (polarity threshold : Q) : pystr :=
  if py_lt threshold polarity then py "positivo"
  else if py_lt polarity (- threshold)%Q then py "negativo"
  else py "neutro".

(** The items of the dictionary of [analyze_text], in insertion order. *)
Definition analysis_items (a : analysis) : list (string * pyobj) :=
  [ ("text"%string, text a);
    ("sentiment_class"%string, PyStr (sentiment_class a));
    ("polarity"%string, PyFloat (polarity a));
    ("subjectivity"%string, PyFloat (subjectivity a));
    ("vader_compound"%string, PyFloat (vader_compound a));
    ("vader_pos"%string, PyFloat (vader_pos a));
    ("vader_neu"%string, PyFloat (vader_neu a));
    ("vader_neg"%string, PyFloat (vader_neg a)) ].

Section Analyzer.

(** The libraries the analyzer calls are parameters: [str.lower] (the
    case mapping of the Unicode database), the polarity and the
    subjectivity of [TextBlob(text)], and [self.vader_analyzer], which is
    [None] when the VADER lexicon could not be loaded and otherwise
    gives [polarity_scores]. *)
Variable str_lower : pystr → pystr.
Variable blob_polarity : pystr → Q.
Variable blob_subjectivity : pystr → Q.
Variable vader_analyzer : option (pystr → vader_scores).

Definition positive_count (words : list pystr) : Z :=
  py_sum (flat_map
    (λ word, if bool_decide (word ∈ positive_words) then [1] else []) words).

Definition negative_count (words : list pystr) : Z :=
  py_sum (flat_map
    (λ word, if bool_decide (word ∈ negative_words) then [1] else []) words).

Definition analyze_with_textblob (text : pyobj) : result textblob_scores :=
  if negb (truthy text) || isna text then
    Ok {| tb_polarity := 0; tb_subjectivity := 0 |}
  else
    match text with
    | PyStr s =>
        let words := split (str_lower s) in
        let positive_count := positive_count words in
        let negative_count := negative_count words in
        let polarity :=
          if positive_count >? negative_count then
            py_min 1 (blob_polarity s + 0.3)%Q
          else if negative_count >? positive_count then
            py_max (-1) (blob_polarity s - 0.3)%Q
          else blob_polarity s in
        Ok {| tb_polarity := polarity;
              tb_subjectivity := blob_subjectivity s |}
    | _ => Raise TypeError (* TextBlob accepts strings only *)
    end.

Definition analyze_with_vader (text : pyobj) : result vader_scores :=
  if negb (truthy text) || isna text then Ok vader_fallback
  else
    match vader_analyzer with
    | None => Ok vader_fallback
    | Some polarity_scores =>
        match text with
        | PyStr s => Ok (polarity_scores s)
        | _ => Raise AttributeError (* VADER calls a method of [str] *)
        end
    end.

Definition analyze_text (text : pyobj) : result analysis :=
  textblob_result ← analyze_with_textblob text;
  vader_result ← analyze_with_vader text;
  let sentiment_class :=
    classify_sentiment (tb_polarity textblob_result) default_threshold in
  Ok {| text := text;
        sentiment_class := sentiment_class;
        polarity := tb_polarity textblob_result;
        subjectivity := tb_subjectivity textblob_result;
        vader_compound := compound vader_result;
        vader_pos := pos vader_result;
        vader_neu := neu vader_result;
        vader_neg := neg vader_result |}.

(** The loop [for text in df_analyzed[text_column]]: the results in
    order; the first call that raises ends it. *)
Fixpoint analyze_each (texts : list pyobj) : result (list analysis) :=
  match texts with
  | [] => Ok []
  | text :: rest =>
      res ← analyze_text text;
      sentiment_results ← analyze_each rest;
      Ok (res :: sentiment_results)
  end.

Definition analyze_dataframe (df : loc) (text_column : string) : M loc :=
  df_analyzed ← copy df;
  texts ← getitem_at df_analyzed text_column;
  sentiment_results ← lift (analyze_each texts);
  sentiment_df ← pd_DataFrame (map analysis_items sentiment_results);
  without_text ← drop sentiment_df "text";
  df_analyzed ← pd_concat_axis1 df_analyzed without_text;
  mret df_analyzed.

(** The dictionary that [get_sentiment_summary] returns, key by key. *)
Record summary : Type := Summary {
  total_texts : Z;
  sentiment_counts : gmap pyobj Z;
  sentiment_percentages : gmap pyobj Q;
  polarity_stats : describe_stats;
  subjectivity_stats : describe_stats;
  most_positive_text : loc_value;
  most_negative_text : loc_value
}.

Variable np_sqrt : Q → Q.

Definition get_sentiment_summary (df : DataFrame) : result summary :=
  if bool_decide ("sentiment_class"%string ∈ column_names df) then
    classes ← getitem df "sentiment_class";
    let sentiment_counts := value_counts classes in
    let sentiment_percentages :=
      (λ x, x * 100)%Q <$> value_counts_normalized classes in
    polarities ← getitem df "polarity";
    let polarity_stats := describe np_sqrt polarities in
    subjectivities ← getitem df "subjectivity";
    let subjectivity_stats := describe np_sqrt subjectivities in
    most_positive_text ←
      (if len df >? 0 then
         loc_getitem df (idxmax (index df) polarities) "text"
       else Ok (Scalar PyNone));
    most_negative_text ←
      (if len df >? 0 then
         loc_getitem df (idxmin (index df) polarities) "text"
       else Ok (Scalar PyNone));
    Ok {| total_texts := len df;
          sentiment_counts := sentiment_counts;
          sentiment_percentages := sentiment_percentages;
          polarity_stats := polarity_stats;
          subjectivity_stats := subjectivity_stats;
          most_positive_text := most_positive_text;
          most_negative_text := most_negative_text |}
  else Raise ValueError.

End Analyzer.

(** ** The text preprocessor of [src/text_preprocessor.py] *)

(** [str.strip()] without arguments: the white space at both ends goes. *)
Fixpoint lstrip (s : pystr) : pystr :=
  match s with
  | [] => []
  | c :: r => if isspace c then lstrip r else s
  end.

Definition strip (s : pystr) : pystr := rev (lstrip (rev (lstrip s))).

(** [sep.join(parts)] *)
Fixpoint join (sep : pystr) (parts : list pystr) : pystr :=
  match parts with
  | [] => []
  | [part] => part
  | part :: rest => part ++ sep ++ join sep rest
  end.

Fixpoint starts_with (prefix s : pystr) : bool :=
  match prefix, s with
  | [], _ => true
  | p :: prefix', c :: s' => (p =? c)%N && starts_with prefix' s'
  | _ :: _, [] => false
  end.

Definition ascii_lower (c : N) : bool := ((97 <=? c) && (c <=? 122))%N.
Definition ascii_upper (c : N) : bool := ((65 <=? c) && (c <=? 90))%N.
Definition ascii_digit (c : N) : bool := ((48 <=? c) && (c <=? 57))%N.

(** One character of the body of a link, alternative by alternative:
    [[a-zA-Z]], [[0-9]], [[$-_@.&+]] (the range from [$] to [_], then four
    characters) and [[!*\\(\\),]].  The last alternative of the pattern,
    a percent sign and two hexadecimal digits, only matches characters
    that the earlier alternatives match one by one. *)
Definition url_char (c : N) : bool :=
  (ascii_lower c || ascii_upper c)
  || ascii_digit c
  || ((36 <=? c) && (c <=? 95) || (c =? 64) || (c =? 46) || (c =? 38)
      || (c =? 43))%N
  || ((c =? 33) || (c =? 42) || (c =? 92) || (c =? 40) || (c =? 41)
      || (c =? 44))%N.

(** The length of [http://] or [https://] at the start of the string
    when a character of a link follows it. *)
Definition match_url (s : pystr) : option nat :=
  let prefix :=
    if starts_with (py "https://") s then Some 8%nat
    else if starts_with (py "http://") s then Some 7%nat
    else None in
  n ← prefix;
  match skipn n s with
  | c :: _ => if url_char c then Some n else None
  | [] => None
  end.

(** [re.sub(r'http[s]?://(?:...)+', '', text)]: the matches are found
    from left to right and left out.  [skip] is what is left of the prefix
    of the current match and [run] tells that its body is being read. *)
Fixpoint sub_urls (skip : nat) (run : bool) (s : pystr) : pystr :=
  match s with
  | [] => []
  | c :: r =>
      match skip with
      | S k => sub_urls k run r
      | O =>
          if run && url_char c then sub_urls 0 true r
          else
            match match_url s with
            | Some n => sub_urls (n - 1) true r
            | None => c :: sub_urls 0 false r
            end
      end
  end.

(** The characters that [[^a-zA-ZÀ-ÿ0-9\s]] does not match. *)
Definition keep_char (c : N) : bool :=
  ascii_lower c || ascii_upper c || ((192 <=? c) && (c <=? 255))%N
  || ascii_digit c || isspace c.

(** [re.sub(r'\s+', ' ', text)]: one space for each run of white space;
    [run] tells that the previous character was white space. *)
Fixpoint sub_spaces (run : bool) (s : pystr) : pystr :=
  match s with
  | [] => []
  | c :: r =>
      if isspace c then
        if run then sub_spaces true r else 32%N :: sub_spaces true r
      else c :: sub_spaces false r
  end.

(** The rows of a column or of an index that a boolean mask selects. *)
Fixpoint select {A} (mask : list bool) (l : list A) : list A :=
  match mask, l with
  | b :: mask', x :: l' => if b then x :: select mask' l' else select mask' l'
  | _, _ => []
  end.

(** [df[mask]]: a new frame with the selected rows under their labels. *)
Definition select_rows (d : DataFrame) (mask : list bool) : DataFrame :=
  {| index := select mask (index d);
     columns := map (λ c, (c.1, select mask c.2)) (columns d) |}.

(** [df[label] = cells], the cells being aligned with the rows: the
    column is replaced where it is, or added after the others. *)
Definition set_column (d : DataFrame) (label : string) (cells : list pyobj)
    : DataFrame :=
  {| index := index d;
     columns :=
       if bool_decide (label ∈ column_names d) then
         map (λ c, if bool_decide (c.1 = label) then (c.1, cells) else c)
             (columns d)
       else columns d ++ [(label, cells)] |}.

(** The assignment changes the frame at the location. *)
Definition setitem (df : loc) (label : string) (cells : list pyobj) : M () :=
  λ h,
    match h !! df with
    | Some d => (Ok (), <[df := set_column d label cells]> h)
    | None => (Raise ValueError, h)
    end.

Definition getitem_mask (df : loc) (mask : list bool) : M loc :=
  d ← load df; alloc (select_rows d mask).

(** [.str.len() > 0] on one cell.  The accessor [.str] needs a column
    of objects, which is what [apply] returns for a frame with rows; for a
    frame without rows [apply] returns a column of the type of its input,
    which the model does not hold.  What is stated below on the frame that
    [preprocess_dataframe] returns is stated for frames with rows. *)
Definition str_len_positive (cell : pyobj) : bool :=
  match cell with
  | PyStr s => 0 <? Z.of_nat (length s)
  | _ => false
  end.

Section Preprocessor.

(** Parameters: [str.lower]; the word characters [\w] and the decimal
    digits [\d] of the Unicode database; of NLTK, [word_tokenize] for the
    language of the preprocessor, the stop words that [__init__] loaded
    and the [stem] method of the stemmer. *)
Variable str_lower : pystr → pystr.
Variable is_word : N → bool.
Variable is_digit : N → bool.
Variable word_tokenize : pystr → list pystr.
Variable stop_words : gset pystr.
Variable stem : pystr → pystr.

(** [re.sub] of a marker followed by [\w+] (the patterns [@\w+] and
    [#\w+]); [run] tells that the word of a match is being read. *)
Fixpoint sub_tags (marker : N) (run : bool) (s : pystr) : pystr :=
  match s with
  | [] => []
  | c :: r =>
      if run && is_word c then sub_tags marker true r
      else if (c =? marker)%N
              && match r with c' :: _ => is_word c' | [] => false end
      then sub_tags marker true r
      else c :: sub_tags marker false r
  end.

(** [\b] between two characters, the ends of the string counting as a
    character that is not a word character. *)
Definition boundary (before after : option N) : bool :=
  xorb (from_option is_word false before) (from_option is_word false after).

(** The number of further digits that [\d+\b] takes after the digit
    [last]: as many as it can for the match to end at a boundary. *)
Fixpoint digits_end (last : N) (rest : pystr) : option nat :=
  match rest with
  | [] => if boundary (Some last) None then Some O else None
  | c :: r =>
      if is_digit c then
        match digits_end c r with
        | Some k => Some (S k)
        | None => if boundary (Some last) (Some c) then Some O else None
        end
      else if boundary (Some last) (Some c) then Some O else None
  end.

(** The length of the match of [\b\d+\b] at the start of [s], the
    character before it being [prev]. *)
Definition match_number (prev : option N) (s : pystr) : option nat :=
  match s with
  | c :: r =>
      if boundary prev (Some c) && is_digit c then S <$> digits_end c r
      else None
  | [] => None
  end.

(** [re.sub(r'\b\d+\b', '', text)] *)
Fixpoint sub_numbers (prev : option N) (skip : nat) (s : pystr) : pystr :=
  match s with
  | [] => []
  | c :: r =>
      match skip with
      | S k => sub_numbers (Some c) k r
      | O =>
          match match_number prev s with
          | Some n => sub_numbers (Some c) (n - 1) r
          | None => c :: sub_numbers (Some c) 0 r
          end
      end
  end.

Definition clean_text (text : pyobj) : pystr :=
  match text with
  | PyStr s =>
      let text := str_lower s in
      let text := sub_urls 0 false text in
      let text := sub_tags 64 false text in
      let text := sub_tags 35 false text in
      let text := List.filter keep_char text in
      let text := sub_numbers None 0 text in
      strip (sub_spaces false text)
  | _ => []
  end.

Definition remove_stopwords (text : pystr) : pystr :=
  match text with
  | [] => []
  | _ =>
      let tokens := word_tokenize text in
      let filtered_tokens :=
        List.filter (λ word, negb (bool_decide (word ∈ stop_words))) tokens in
      join [32%N] filtered_tokens
  end.

Definition stem_text (text : pystr) : pystr :=
  match text with
  | [] => []
  | _ =>
      let tokens := word_tokenize text in
      let stemmed_tokens := map stem tokens in
      join [32%N] stemmed_tokens
  end.

Definition preprocess_text (text : pyobj)
    (remove_stopwords_flag apply_stemming : bool) : pystr :=
  let cleaned_text := clean_text text in
  let cleaned_text :=
    if remove_stopwords_flag then remove_stopwords cleaned_text
    else cleaned_text in
  let cleaned_text :=
    if apply_stemming then stem_text cleaned_text else cleaned_text in
  cleaned_text.

Definition preprocess_dataframe (df : loc) (text_column : string)
    (remove_stopwords_flag apply_stemming : bool) : M loc :=
  df_processed ← copy df;
  texts ← getitem_at df_processed text_column;
  _ ← setitem df_processed "processed_text"
        (map (λ x, PyStr (preprocess_text x remove_stopwords_flag
                            apply_stemming)) texts);
  processed ← getitem_at df_processed "processed_text";
  df_processed ← getitem_mask df_processed (map str_len_positive processed);
  mret df_processed.

End Preprocessor.

(** ** The two steps of [main.py] that hand a frame on *)

Section Pipeline.

Variable str_lower : pystr → pystr.
Variable is_word : N → bool.
Variable is_digit : N → bool.
Variable word_tokenize : pystr → list pystr.
Variable stop_words : gset pystr.
Variable stem : pystr → pystr.
Variable blob_polarity : pystr → Q.
Variable blob_subjectivity : pystr → Q.
Variable vader_analyzer : option (pystr → vader_scores).

(** [preprocess_data] and [analyze_sentiment], the messages they print
    and the files they write left out. *)
Definition preprocess_data (df : loc) : M loc :=
  preprocess_dataframe str_lower is_word is_digit word_tokenize stop_words
    stem df "text" true false.

Definition analyze_sentiment (df : loc) : M loc :=
  analyze_dataframe str_lower blob_polarity blob_subjectivity vader_analyzer
    df "processed_text".

(** The second and third steps of [run_complete_analysis]. *)
Definition preprocess_and_analyze (df_raw : loc) : M loc :=
  df_processed ← preprocess_data df_raw;
  analyze_sentiment df_processed.

End Pipeline.

(** ** The claims in the words of the specification *)

(** A text is a string or is missing ([None], or the [NaN] that pandas
    puts in an empty cell). *)
Inductive is_text : pyobj → Prop :=
| text_str (s : pystr) : is_text (PyStr s)
| text_none : is_text PyNone
| text_nan : is_text PyNaN.

Definition empty_or_missing (o : pyobj) : Prop :=
  o = PyStr [] ∨ o = PyNone ∨ o = PyNaN.

(** The number of tokens that are in a lexicon. *)
Definition lexicon_hits (lexicon : gset pystr) (tokens : list pystr) : nat :=
  length (filter (λ token, token ∈ lexicon) tokens).

(** The adjustment rule of the primary scorer. *)
Definition adjusted_polarity (base_polarity : Q) (pos_hits neg_hits : nat) : Q :=
  if decide (neg_hits < pos_hits)%nat then Qmin 1 (base_polarity + 0.3)
  else if decide (pos_hits < neg_hits)%nat then Qmax (-1) (base_polarity - 0.3)
  else base_polarity.

(** The labels of the seven columns that [analyze_dataframe] appends. *)
Definition sentiment_columns : list string :=
  [ "sentiment_class"; "polarity"; "subjectivity"; "vader_compound";
    "vader_pos"; "vader_neu"; "vader_neg" ]%string.

(** The frame of the records of [analyze_text] once its ['text'] column
    is dropped. *)
Definition sentiment_frame (records : list analysis) : DataFrame :=
  {| index := range_index (length records);
     columns :=
       [ ("sentiment_class"%string, map (λ r, PyStr (sentiment_class r)) records);
         ("polarity"%string, map (λ r, PyFloat (polarity r)) records);
         ("subjectivity"%string, map (λ r, PyFloat (subjectivity r)) records);
         ("vader_compound"%string, map (λ r, PyFloat (vader_compound r)) records);
         ("vader_pos"%string, map (λ r, PyFloat (vader_pos r)) records);
         ("vader_neu"%string, map (λ r, PyFloat (vader_neu r)) records);
         ("vader_neg"%string, map (λ r, PyFloat (vader_neg r)) records) ] |}.

Section FrameOfAnalysis.

Variable str_lower : pystr → pystr.
Variable blob_polarity : pystr → Q.
Variable blob_subjectivity : pystr → Q.
Variable vader_analyzer : option (pystr → vader_scores).

(** What [analyze_dataframe] computes from the frame it is given, the
    heap left aside. *)
Definition analyze_frame (d : DataFrame) (text_column : string)
    : result DataFrame :=
  texts ← getitem d text_column;
  sentiment_results ←
    analyze_each str_lower blob_polarity blob_subjectivity vader_analyzer texts;
  without_text ←
    drop_column (DataFrame_of_records (map analysis_items sentiment_results))
                "text";
  concat_axis1 d without_text.

End FrameOfAnalysis.

(** The number of cells that are counted under a key. *)
Definition occurrences (key : pyobj) (cells : list pyobj) : nat :=
  length (filter (λ c, isna c = false ∧ hash_key c = key) cells).

(** The number of records of a class. *)
Definition tally (name : pystr) (classes : list pyobj) : nat :=
  length (filter (λ c, c = PyStr name) classes).

Definition is_str (c : pyobj) : Prop := ∃ name, c = PyStr name.
Definition is_number (c : pyobj) : Prop := ∃ x, c = PyFloat x.

(** The number in the cell at a position, when there is one. *)
Definition number_at (cells : list pyobj) (j : nat) : option Q :=
  cells !! j ≫= to_number.

(** A frame of scored records: distinct row labels and distinct column
    labels; the columns ['text'], ['sentiment_class'], ['polarity'] and
    ['subjectivity'] with one cell per row; every class is a string and
    every polarity and subjectivity is a number. *)
Definition scored_frame (d : DataFrame)
    (texts classes polarities subjectivities : list pyobj) : Prop :=
  NoDup (index d) ∧ NoDup (column_names d)
  ∧ getitem d "text" = Ok texts
  ∧ getitem d "sentiment_class" = Ok classes
  ∧ getitem d "polarity" = Ok polarities
  ∧ getitem d "subjectivity" = Ok subjectivities
  ∧ length texts = length (index d)
  ∧ length classes = length (index d)
  ∧ length polarities = length (index d)
  ∧ length subjectivities = length (index d)
  ∧ Forall is_str classes
  ∧ Forall is_number polarities
  ∧ Forall is_number subjectivities.

(** Position [i] holds the largest polarity, and is the first to. *)
Definition first_maximum (polarities : list pyobj) (i : nat) : Prop :=
  ∃ x, polarities !! i = Some (PyFloat x)
    ∧ (∀ j y, polarities !! j = Some (PyFloat y) → (y <= x)%Q)
    ∧ (∀ j y, (j < i)%nat → polarities !! j = Some (PyFloat y) → (y < x)%Q).

(** Position [i] holds the smallest polarity, and is the first to. *)
Definition first_minimum (polarities : list pyobj) (i : nat) : Prop :=
  ∃ x, polarities !! i = Some (PyFloat x)
    ∧ (∀ j y, polarities !! j = Some (PyFloat y) → (x <= y)%Q)
    ∧ (∀ j y, (j < i)%nat → polarities !! j = Some (PyFloat y) → (x < y)%Q).

(** The statistics of a column without values. *)
Definition undefined_stats : describe_stats :=
  {| stat_count := 0; stat_mean := PyNaN; stat_std := PyNaN;
     stat_min := PyNaN; stat_25 := PyNaN; stat_50 := PyNaN;
     stat_75 := PyNaN; stat_max := PyNaN |}.

(** The class on the other side of neutral. *)
Definition mirrored (class : pystr) : pystr :=
  if bool_decide (class = py "positivo") then py "negativo"
  else if bool_decide (class = py "negativo") then py "positivo"
  else class.

(** The classes in their order: negative, neutral, positive. *)
Definition class_rank (class : pystr) : Z :=
  if bool_decide (class = py "negativo") then -1
  else if bool_decide (class = py "positivo") then 1
  else 0.

(** A number other than zero. *)
Definition nonzero_number (o : pyobj) : Prop :=
  (∃ n, o = PyInt n ∧ n ≠ 0) ∨ (∃ x, o = PyFloat x ∧ ¬ (x == 0)%Q).

(** The class that the row labelled [label] gets from
    [analyze_dataframe]: that of the record whose position is the label,
    [NaN] when no record is at that position. *)
Definition class_at_label (records : list analysis) (label : Z) : pyobj :=
  if decide (0 <= label) then
    match records !! Z.to_nat label with
    | Some r => PyStr (sentiment_class r)
    | None => PyNaN
    end
  else PyNaN.

(** What [clean_text] leaves: a letter of [a-z], [A-Z] or of the range
    from U+00C0 to U+00FF, a digit of [0-9], or the space. *)
Definition clean_char (c : N) : bool :=
  ascii_lower c || ascii_upper c || ((192 <=? c) && (c <=? 255))%N
  || ascii_digit c || (c =? 32)%N.

(** ** Fixtures for the examples *)

(** Lower case on ASCII and Latin-1 letters, the letters of the lexicon. *)
Definition lower_latin1 (s : pystr) : pystr :=
  map (λ c, if ((65 <=? c) && (c <=? 90)
                || (192 <=? c) && (c <=? 222) && negb (c =? 215))%N
            then (c + 32)%N else c) s.

Definition baseline_polarity (s : pystr) : Q := 0%Q.
Definition baseline_subjectivity (s : pystr) : Q := 0.5%Q.
Definition sample_vader (s : pystr) : vader_scores :=
  {| compound := 0.6; pos := 0.5; neu := 0.5; neg := 0 |}.
Definition sqrt_stub (x : Q) : Q := x.

(** Word characters and decimal digits among ASCII and Latin-1. *)
Definition word_latin1 (c : N) : bool :=
  ascii_digit c || ascii_upper c || ascii_lower c || (c =? 95)%N
  || ((192 <=? c) && (c <=? 255) && negb (c =? 215) && negb (c =? 247))%N.

(** A tokenizer at white space, three stop words and no stemming. *)
Definition sample_tokenize (s : pystr) : list pystr := split s.
Definition sample_stop_words : gset pystr :=
  list_to_set (map py ["o"; "a"; "de"]%string).
Definition sample_stem (s : pystr) : pystr := s.

(** Three collected texts after [preprocess_dataframe]: fresh row labels. *)
Definition sample_frame : DataFrame :=
  {| index := [0; 1; 2];
     columns :=
       [ ("text"%string,
          [PyStr (py "Produto bom!"); PyStr (py "Chegou no prazo.");
           PyStr (py "Produto ruim!")]);
         ("processed_text"%string,
          [PyStr (py "produto bom"); PyStr (py "chegou prazo");
           PyStr (py "produto ruim")]) ] |}.

(** Three collected texts, the second a bare link. *)
Definition raw_frame : DataFrame :=
  {| index := [0; 1; 2];
     columns :=
       [ ("text"%string,
          [PyStr (py "Produto bom!"); PyStr (py "https://t.co/abc");
           PyStr (py "Produto ruim!")]) ] |}.

(** Two collected texts, a mention and a number: nothing is left of
    either. *)
Definition noise_frame : DataFrame :=
  {| index := [0; 1];
     columns := [ ("text"%string, [PyStr (py "@loja"); PyStr (py "2024")]) ] |}.

(** The same when the second text was a bare link: its cleaned text is
    empty and [preprocess_dataframe] removes the row, the other rows keep
    their labels 0 and 2. *)
Definition filtered_frame : DataFrame :=
  {| index := [0; 2];
     columns :=
       [ ("text"%string,
          [PyStr (py "Produto bom!"); PyStr (py "Produto ruim!")]);
         ("processed_text"%string,
          [PyStr (py "produto bom"); PyStr (py "produto ruim")]) ] |}.

(** The same when every cleaned text is empty: no row is left. *)
Definition emptied_frame : DataFrame :=
  {| index := [];
     columns := [ ("text"%string, []); ("processed_text"%string, []) ] |}.

(** Two texts whose rows were put in another order: labels 1 and 0. *)
Definition reordered_frame : DataFrame :=
  {| index := [1; 0];
     columns :=
       [ ("text"%string,
          [PyStr (py "Produto bom!"); PyStr (py "Produto ruim!")]);
         ("processed_text"%string,
          [PyStr (py "produto bom"); PyStr (py "produto ruim")]) ] |}.

(** Two texts under one row label. *)
Definition repeated_frame : DataFrame :=
  {| index := [0; 0];
     columns :=
       [ ("text"%string,
          [PyStr (py "Produto bom!"); PyStr (py "Produto ruim!")]);
         ("processed_text"%string,
          [PyStr (py "produto bom"); PyStr (py "produto ruim")]) ] |}.

(** What [analyze_dataframe] returns for [filtered_frame]. *)
Definition misaligned_frame : DataFrame :=
  {| index := [0; 2; 1];
     columns :=
       [ ("text"%string,
          [PyStr (py "Produto bom!"); PyStr (py "Produto ruim!"); PyNaN]);
         ("processed_text"%string,
          [PyStr (py "produto bom"); PyStr (py "produto ruim"); PyNaN]);
         ("sentiment_class"%string,
          [PyStr (py "positivo"); PyNaN; PyStr (py "negativo")]);
         ("polarity"%string, [PyFloat 0.3; PyNaN; PyFloat (-0.3)]);
         ("subjectivity"%string, [PyFloat 0.5; PyNaN; PyFloat 0.5]);
         ("vader_compound"%string, [PyFloat 0; PyNaN; PyFloat 0]);
         ("vader_pos"%string, [PyFloat 0; PyNaN; PyFloat 0]);
         ("vader_neu"%string, [PyFloat 1; PyNaN; PyFloat 1]);
         ("vader_neg"%string, [PyFloat 0; PyNaN; PyFloat 0]) ] |}.

(** Three scored records, the first two with the same, largest polarity. *)
Definition scored_sample : DataFrame :=
  {| index := [0; 1; 2];
     columns :=
       [ ("text"%string,
          [PyStr (py "Produto bom!"); PyStr (py "Produto ótimo!");
           PyStr (py "Produto ruim!")]);
         ("sentiment_class"%string,
          [PyStr (py "positivo"); PyStr (py "positivo");
           PyStr (py "negativo")]);
         ("polarity"%string, [PyFloat 0.3; PyFloat 0.3; PyFloat (-0.3)]);
         ("subjectivity"%string, [PyFloat 0.5; PyFloat 0.5; PyFloat 0.5]) ] |}.

(** The rows of [scored_sample] of a class that no record has. *)
Definition scored_empty : DataFrame :=
  {| index := [];
     columns :=
       [ ("text"%string, []); ("sentiment_class"%string, []);
         ("polarity"%string, []); ("subjectivity"%string, []) ] |}.

(** ** Arithmetic of the model *)

Example py_otimo : py "ótimo" = [243; 116; 105; 109; 111]%N.
Proof. reflexivity. Qed.

Example split_example :
  split (py "  muito  bom	produto ") = [py "muito"; py "bom"; py "produto"].
Proof. reflexivity. Qed.

Example lexicon_example :
  bool_decide (py "ótimo" ∈ positive_words) = true
  ∧ bool_decide (py "ótimo" ∈ negative_words) = false.
Proof. split; vm_compute; reflexivity. Qed.

Lemma py_lt_true (x y : Q) : py_lt x y = true ↔ (x < y)%Q.
Proof.
  unfold py_lt. rewrite Qlt_alt.
  destruct (x ?= y)%Q; split; intros H; congruence.
Qed.

Lemma py_lt_false (x y : Q) : py_lt x y = false ↔ (y <= x)%Q.
Proof.
  rewrite <- not_true_iff_false, py_lt_true. split.
  - apply Qnot_lt_le.
  - apply Qle_not_lt.
Qed.

Lemma py_min_Qmin (a b : Q) : py_min a b = Qmin a b.
Proof.
  unfold py_min, py_lt, Qmin, GenericMinMax.gmin.
  rewrite <- (Qcompare_antisym a b).
  destruct (a ?= b)%Q; reflexivity.
Qed.

Lemma py_max_Qmax (a b : Q) : py_max a b = Qmax a b.
Proof.
  unfold py_max, py_lt, Qmax, GenericMinMax.gmax.
  destruct (a ?= b)%Q; reflexivity.
Qed.

Lemma class_names_distinct :
  py "positivo" ≠ py "negativo" ∧ py "positivo" ≠ py "neutro"
  ∧ py "negativo" ≠ py "neutro".
Proof. repeat split; vm_compute; discriminate. Qed.

Lemma fold_left_add_shift (xs : list Z) (a : Z) :
  fold_left Z.add xs a = a + fold_left Z.add xs 0.
Proof.
  revert a. induction xs as [|x xs IH]; intros a; simpl; [lia|].
  rewrite (IH (a + x)), (IH (0 + x)). lia.
Qed.

Lemma py_sum_cons (x : Z) (xs : list Z) : py_sum (x :: xs) = x + py_sum xs.
Proof. unfold py_sum. simpl. apply fold_left_add_shift. Qed.

(** The generator [sum(1 for word in words if word in lexicon)] counts
    the tokens that are in the lexicon. *)
Lemma count_is_lexicon_hits (lexicon : gset pystr) (words : list pystr) :
  py_sum (flat_map
    (λ word, if bool_decide (word ∈ lexicon) then [1] else []) words)
  = Z.of_nat (lexicon_hits lexicon words).
Proof.
  unfold lexicon_hits.
  induction words as [|w words IH]; [reflexivity|].
  cbn [flat_map]. rewrite filter_cons.
  destruct (decide (w ∈ lexicon)) as [Hin|Hout].
  - rewrite bool_decide_eq_true_2 by done.
    cbn [app length]. rewrite py_sum_cons, IH. lia.
  - rewrite bool_decide_eq_false_2 by done. cbn [app]. exact IH.
Qed.

(** The three branches of [classify_sentiment]. *)
Lemma classify_sentiment_cases (p t : Q) :
  ((t < p)%Q ∧ classify_sentiment p t = py "positivo")
  ∨ ((p <= t)%Q ∧ (p < - t)%Q ∧ classify_sentiment p t = py "negativo")
  ∨ ((p <= t)%Q ∧ (- t <= p)%Q ∧ classify_sentiment p t = py "neutro").
Proof.
  unfold classify_sentiment.
  destruct (py_lt t p) eqn:Hhi.
  - left. apply py_lt_true in Hhi. done.
  - apply py_lt_false in Hhi. right.
    destruct (py_lt p (- t)%Q) eqn:Hlo.
    + left. apply py_lt_true in Hlo. done.
    + right. apply py_lt_false in Hlo. done.
Qed.

Ltac settle_class :=
  split; intros;
  first [ assumption | reflexivity | lra | exfalso; lra | exfalso; congruence ].

(** ** Theorems about the scorers and the classifier *)

(** C1. With the default threshold 0.1, for every polarity [p] that is a
    number, [classify_sentiment] answers ['positivo'] exactly when
    [p > 0.1], ['negativo'] exactly when [p < -0.1] and ['neutro'] in the
    remaining case [-0.1 <= p <= 0.1]; the two boundary values 0.1 and
    -0.1 are classified ['neutro']. *)
Theorem classify_sentiment_default_threshold (p : Q) :
  (classify_sentiment p 0.1 = py "positivo" ↔ (0.1 < p)%Q)
  ∧ (classify_sentiment p 0.1 = py "negativo" ↔ (p < -0.1)%Q)
  ∧ (classify_sentiment p 0.1 = py "neutro" ↔ (-0.1 <= p <= 0.1)%Q)
  ∧ classify_sentiment 0.1 0.1 = py "neutro"
  ∧ classify_sentiment (-0.1) 0.1 = py "neutro".
Proof.
  destruct class_names_distinct as (Hpn & Hpz & Hnz).
  split; [|split; [|split; [|split; reflexivity]]];
    destruct (classify_sentiment_cases p 0.1)
      as [[H1 ->]|[(H1 & H2 & ->)|(H1 & H2 & ->)]];
    settle_class.
Qed.

Section ScorerFacts.

Variable str_lower : pystr → pystr.
Variable blob_polarity : pystr → Q.
Variable blob_subjectivity : pystr → Q.

Local Abbreviation score :=
  (analyze_with_textblob str_lower blob_polarity blob_subjectivity).
Local Abbreviation analyze :=
  (analyze_text str_lower blob_polarity blob_subjectivity).

(** The primary scorer on a string that is not empty, as the code
    computes it. *)
Lemma analyze_with_textblob_on_str (c : N) (s : pystr) :
  score (PyStr (c :: s))
  = Ok {| tb_polarity :=
            (let words := split (str_lower (c :: s)) in
             if positive_count words >? negative_count words then
               py_min 1 (blob_polarity (c :: s) + 0.3)%Q
             else if negative_count words >? positive_count words then
               py_max (-1) (blob_polarity (c :: s) - 0.3)%Q
             else blob_polarity (c :: s));
          tb_subjectivity := blob_subjectivity (c :: s) |}.
Proof. reflexivity. Qed.

(** The clamps keep an adjusted polarity in range. *)
Lemma adjustment_in_range (base : Q) (positive negative : Z) :
  (-1 <= base <= 1)%Q →
  (-1 <= (if positive >? negative then py_min 1 (base + 0.3)
          else if negative >? positive then py_max (-1) (base - 0.3)
          else base) <= 1)%Q.
Proof.
  intros Hbase. rewrite py_min_Qmin, py_max_Qmax.
  destruct (positive >? negative); [|destruct (negative >? positive)].
  - split; [apply Q.min_glb; lra | apply Q.le_min_l].
  - split; [apply Q.le_max_l | apply Q.max_lub; lra].
  - exact Hbase.
Qed.

(** C2. For a text that is not empty, the primary scorer splits the
    lower-cased text at white space, counts the tokens of each lexicon,
    and returns the baseline polarity raised by 0.3 and capped at 1.0
    when the positive hits are strictly more, lowered by 0.3 and capped
    at -1.0 when the negative hits are strictly more, and unchanged when
    the counts are equal; the subjectivity is that of the baseline. *)
Theorem analyze_with_textblob_lexicon_rule (s : pystr) :
  s ≠ [] →
  score (PyStr s)
  = Ok {| tb_polarity :=
            adjusted_polarity (blob_polarity s)
              (lexicon_hits positive_words (split (str_lower s)))
              (lexicon_hits negative_words (split (str_lower s)));
          tb_subjectivity := blob_subjectivity s |}.
Proof.
  intros Hs. destruct s as [|c s]; [done|].
  rewrite analyze_with_textblob_on_str. cbv zeta.
  unfold positive_count, negative_count, adjusted_polarity.
  rewrite !count_is_lexicon_hits, py_min_Qmin, py_max_Qmax.
  set (np := lexicon_hits positive_words _).
  set (nn := lexicon_hits negative_words _).
  do 2 f_equal.
  destruct (Z.gtb_spec (Z.of_nat np) (Z.of_nat nn));
    destruct (decide (nn < np)%nat); try lia; [reflexivity|].
  destruct (Z.gtb_spec (Z.of_nat nn) (Z.of_nat np));
    destruct (decide (np < nn)%nat); try lia; reflexivity.
Qed.

Lemma analyze_with_textblob_missing (text : pyobj) :
  empty_or_missing text →
  score text = Ok {| tb_polarity := 0; tb_subjectivity := 0 |}.
Proof. intros [->|[->| ->]]; reflexivity. Qed.

Lemma analyze_with_textblob_returns (text : pyobj) :
  is_text text → ∃ scores, score text = Ok scores.
Proof.
  intros [[|c s]| |].
  - eexists. apply analyze_with_textblob_missing. left. reflexivity.
  - eexists. apply analyze_with_textblob_on_str.
  - eexists. apply analyze_with_textblob_missing. right. left. reflexivity.
  - eexists. apply analyze_with_textblob_missing. right. right. reflexivity.
Qed.

Lemma analyze_with_vader_returns
    (vader : option (pystr → vader_scores)) (text : pyobj) :
  is_text text → ∃ scores, analyze_with_vader vader text = Ok scores.
Proof.
  intros [[|c s]| |]; unfold analyze_with_vader; cbn [truthy isna negb orb];
    try (eexists; reflexivity).
  destruct vader; eexists; reflexivity.
Qed.

(** The record of [analyze_text], given what the two scorers return. *)
Lemma analyze_text_record
    (vader : option (pystr → vader_scores)) (text : pyobj)
    (primary : textblob_scores) (secondary : vader_scores) :
  score text = Ok primary →
  analyze_with_vader vader text = Ok secondary →
  analyze vader text
  = Ok {| text := text;
          sentiment_class :=
            classify_sentiment (tb_polarity primary) default_threshold;
          polarity := tb_polarity primary;
          subjectivity := tb_subjectivity primary;
          vader_compound := compound secondary;
          vader_pos := pos secondary;
          vader_neu := neu secondary;
          vader_neg := neg secondary |}.
Proof.
  intros Hp Hv. unfold analyze_text. rewrite Hp, Hv. reflexivity.
Qed.

(** C4. When the baseline estimator stays within its ranges, the primary
    scorer returns, for every text, a polarity in [-1, 1] and a
    subjectivity in [0, 1], and it returns exactly polarity 0.0 and
    subjectivity 0.0, without raising, for a text that is empty or
    missing. *)
Theorem analyze_with_textblob_ranges (text : pyobj) :
  (∀ s, (-1 <= blob_polarity s <= 1)%Q) →
  (∀ s, (0 <= blob_subjectivity s <= 1)%Q) →
  is_text text →
  ∃ scores,
    score text = Ok scores
    ∧ (-1 <= tb_polarity scores <= 1)%Q
    ∧ (0 <= tb_subjectivity scores <= 1)%Q
    ∧ (empty_or_missing text →
       scores = {| tb_polarity := 0; tb_subjectivity := 0 |}).
Proof.
  intros Hp Hs Ht.
  assert (Hzero : ∀ t, empty_or_missing t →
    ∃ scores, score t = Ok scores
      ∧ (-1 <= tb_polarity scores <= 1)%Q
      ∧ (0 <= tb_subjectivity scores <= 1)%Q
      ∧ (empty_or_missing t →
         scores = {| tb_polarity := 0; tb_subjectivity := 0 |})).
  { intros t Ht'. eexists. split; [by apply analyze_with_textblob_missing|].
    cbn [tb_polarity tb_subjectivity]. repeat split; try lra. }
  destruct Ht as [[|c s]| |].
  - apply Hzero. left. reflexivity.
  - eexists. split; [apply analyze_with_textblob_on_str|].
    cbn [tb_polarity tb_subjectivity].
    split; [apply adjustment_in_range, Hp|].
    split; [apply Hs|].
    intros [H|[H|H]]; discriminate.
  - apply Hzero. right. left. reflexivity.
  - apply Hzero. right. right. reflexivity.
Qed.

(** C3. For every text, the ['sentiment_class'] of the record of
    [analyze_text] is [classify_sentiment] of the record's polarity with
    the default threshold, and it is the same whether the VADER analyzer
    is missing or present and whatever scores it gives. *)
Theorem analyze_text_class_ignores_vader
    (vader1 vader2 : option (pystr → vader_scores)) (text : pyobj) :
  is_text text →
  ∃ r1 r2,
    analyze vader1 text = Ok r1
    ∧ analyze vader2 text = Ok r2
    ∧ sentiment_class r1 = classify_sentiment (polarity r1) default_threshold
    ∧ sentiment_class r2 = classify_sentiment (polarity r2) default_threshold
    ∧ polarity r1 = polarity r2
    ∧ sentiment_class r1 = sentiment_class r2.
Proof.
  intros Ht.
  destruct (analyze_with_textblob_returns text Ht) as [primary Hp].
  destruct (analyze_with_vader_returns vader1 text Ht) as [w1 Hw1].
  destruct (analyze_with_vader_returns vader2 text Ht) as [w2 Hw2].
  eexists _, _.
  split; [exact (analyze_text_record vader1 text primary w1 Hp Hw1)|].
  split; [exact (analyze_text_record vader2 text primary w2 Hp Hw2)|].
  cbn [sentiment_class polarity]. done.
Qed.

End ScorerFacts.

(** C5. [analyze_with_vader] returns the fixed scores compound 0.0,
    positive 0.0, neutral 1.0 and negative 0.0, without raising, whenever
    the VADER analyzer is missing, whatever the input, and whenever the
    text is empty or missing; for any other text it returns the four
    scores of the VADER analyzer as they are. *)
Theorem analyze_with_vader_fallback :
  (∀ text, analyze_with_vader None text = Ok vader_fallback)
  ∧ (∀ polarity_scores text,
       empty_or_missing text →
       analyze_with_vader (Some polarity_scores) text = Ok vader_fallback)
  ∧ (∀ polarity_scores s,
       s ≠ [] →
       analyze_with_vader (Some polarity_scores) (PyStr s)
       = Ok (polarity_scores s))
  ∧ vader_fallback = {| compound := 0; pos := 0; neu := 1; neg := 0 |}.
Proof.
  repeat split.
  - intros text. unfold analyze_with_vader.
    destruct (negb (truthy text) || isna text); reflexivity.
  - intros f text [->|[->| ->]]; reflexivity.
  - intros f [|c s] Hs; [done|reflexivity].
Qed.

(** *** Concrete runs of the scorers *)

Lemma analyze_with_textblob_lexicon_rule_witness :
  analyze_with_textblob lower_latin1 baseline_polarity baseline_subjectivity
    (PyStr (py "Produto ÓTIMO e bom mas ruim"))
  = Ok {| tb_polarity := 0.3; tb_subjectivity := 0.5 |}.
Proof.
  rewrite analyze_with_textblob_lexicon_rule.
  - vm_compute. reflexivity.
  - vm_compute. discriminate.
Defined.

Lemma analyze_with_textblob_ranges_witness :
  ∃ scores,
    analyze_with_textblob lower_latin1 baseline_polarity baseline_subjectivity
      (PyStr (py "péssimo")) = Ok scores
    ∧ (-1 <= tb_polarity scores <= 1)%Q
    ∧ (0 <= tb_subjectivity scores <= 1)%Q
    ∧ (empty_or_missing (PyStr (py "péssimo")) →
       scores = {| tb_polarity := 0; tb_subjectivity := 0 |}).
Proof.
  apply (analyze_with_textblob_ranges lower_latin1 baseline_polarity
           baseline_subjectivity (PyStr (py "péssimo"))).
  - intros s. split; vm_compute; discriminate.
  - intros s. split; vm_compute; discriminate.
  - apply text_str.
Defined.

Lemma analyze_text_class_ignores_vader_witness :
  ∃ r1 r2,
    analyze_text lower_latin1 baseline_polarity baseline_subjectivity
      None (PyStr (py "ruim")) = Ok r1
    ∧ analyze_text lower_latin1 baseline_polarity baseline_subjectivity
        (Some sample_vader) (PyStr (py "ruim")) = Ok r2
    ∧ sentiment_class r1 = classify_sentiment (polarity r1) default_threshold
    ∧ sentiment_class r2 = classify_sentiment (polarity r2) default_threshold
    ∧ polarity r1 = polarity r2
    ∧ sentiment_class r1 = sentiment_class r2.
Proof.
  apply (analyze_text_class_ignores_vader lower_latin1 baseline_polarity
           baseline_subjectivity None (Some sample_vader) (PyStr (py "ruim"))).
  apply text_str.
Defined.

Lemma analyze_with_vader_fallback_witness :
  analyze_with_vader (Some sample_vader) PyNaN = Ok vader_fallback
  ∧ analyze_with_vader (Some sample_vader) (PyStr (py "bom"))
    = Ok (sample_vader (py "bom")).
Proof.
  destruct analyze_with_vader_fallback as (_ & Hmissing & Hscores & _).
  split.
  - apply Hmissing. right. right. reflexivity.
  - apply Hscores. vm_compute. discriminate.
Defined.

(** ** The heap and the frames of [analyze_dataframe] *)

Lemma load_at (h : heap) (l : loc) (d : DataFrame) :
  h !! l = Some d → load l h = (Ok d, h).
Proof. intros H. unfold load. rewrite H. reflexivity. Qed.

Lemma load_last (h : heap) (d : DataFrame) :
  load (length h) (h ++ [d]) = (Ok d, h ++ [d]).
Proof. apply load_at. by apply list_lookup_middle. Qed.

Lemma bind_ok {A B} (m : M A) (f : A → M B) (h h' : heap) (a : A) :
  m h = (Ok a, h') → (m ≫= f) h = f a h'.
Proof. intros H. unfold mbind, M_bind. rewrite H. reflexivity. Qed.

Lemma bind_raise {A B} (m : M A) (f : A → M B) (h h' : heap) (e : pyexc) :
  m h = (Raise e, h') → (m ≫= f) h = (Raise e, h').
Proof. intros H. unfold mbind, M_bind. rewrite H. reflexivity. Qed.

Lemma keys_absorbed (acc l : list string) :
  (∀ k, k ∈ l → k ∈ acc) →
  foldl (λ acc k, if bool_decide (k ∈ acc) then acc else acc ++ [k]) acc l = acc.
Proof.
  induction l as [|k l IH]; intros H; [reflexivity|].
  cbn [foldl]. rewrite bool_decide_eq_true_2 by (apply H; left).
  apply IH. intros k' Hk'. apply H. by right.
Qed.

Lemma keys_of_analyses (records : list analysis) :
  records ≠ [] →
  keys_in_order (map analysis_items records)
  = ("text"%string :: sentiment_columns).
Proof.
  destruct records as [|r records]; [done|intros _].
  unfold keys_in_order. cbn [map concat].
  rewrite foldl_app.
  change (foldl _ [] (analysis_items r).*1)
    with ("text"%string :: sentiment_columns).
  apply keys_absorbed. intros k Hk.
  apply list_elem_of_In, in_concat in Hk as (ks & Hks & Hk).
  apply in_map_iff in Hks as (d & <- & Hd).
  apply in_map_iff in Hd as (r' & <- & _).
  apply list_elem_of_In. exact Hk.
Qed.

Lemma drop_text_of_analyses (records : list analysis) :
  records ≠ [] →
  drop_column (DataFrame_of_records (map analysis_items records)) "text"
  = Ok (sentiment_frame records).
Proof.
  intros Hne. unfold DataFrame_of_records.
  rewrite keys_of_analyses by done.
  unfold drop_column, column_names, sentiment_frame.
  cbn [map fmap list_fmap sentiment_columns columns index fst].
  rewrite length_map, !map_map.
  reflexivity.
Qed.

Lemma column_names_concat_axis1 (a b d : DataFrame) :
  concat_axis1 a b = Ok d → column_names d = column_names a ++ column_names b.
Proof.
  unfold concat_axis1, column_names.
  repeat case_match; intros [= <-]; cbn [columns].
  - apply fmap_app.
  - rewrite fmap_app. f_equal; rewrite <- list_fmap_compose; reflexivity.
Qed.

Lemma NoDup_range_index (n : nat) : NoDup (range_index n).
Proof.
  unfold range_index. apply NoDup_fmap_2; [|apply NoDup_seq].
  intros i j H. lia.
Qed.

(** The row labels of a frame that [pd.concat] returns are distinct when
    those of its second argument are. *)
Lemma concat_axis1_distinct_labels (a b d : DataFrame) :
  concat_axis1 a b = Ok d → NoDup (index b) → NoDup (index d).
Proof.
  unfold concat_axis1. case_bool_decide as Heq.
  - intros [= <-] Hb. cbn [index]. by rewrite Heq.
  - case_bool_decide as Ha; [|discriminate].
    case_bool_decide; [|discriminate].
    intros [= <-] Hb. cbn [index]. unfold index_union.
    apply NoDup_app. split; [exact Ha|]. split.
    + intros label Hin Hin'. apply list_elem_of_filter in Hin' as [Hout _].
      by apply Hout.
    + by apply NoDup_filter.
Qed.

Section FrameFacts.

Variable str_lower : pystr → pystr.
Variable blob_polarity : pystr → Q.
Variable blob_subjectivity : pystr → Q.
Variable vader_analyzer : option (pystr → vader_scores).

Local Abbreviation analyze :=
  (analyze_text str_lower blob_polarity blob_subjectivity vader_analyzer).
Local Abbreviation each :=
  (analyze_each str_lower blob_polarity blob_subjectivity vader_analyzer).
Local Abbreviation frame :=
  (analyze_frame str_lower blob_polarity blob_subjectivity vader_analyzer).
Local Abbreviation run :=
  (analyze_dataframe str_lower blob_polarity blob_subjectivity vader_analyzer).

(** The loop returns one record per text, in order, when every call
    returns. *)
Lemma analyze_each_returns (texts : list pyobj) (records : list analysis) :
  each texts = Ok records ↔ Forall2 (λ t r, analyze t = Ok r) texts records.
Proof.
  revert records. induction texts as [|t texts IH]; intros records.
  - cbn. split.
    + intros [= <-]. constructor.
    + intros H. inversion H. reflexivity.
  - cbn [analyze_each]. split.
    + destruct (analyze t) as [r|e] eqn:Hr; [|discriminate].
      cbn [mbind result_bind].
      destruct (each texts) as [rs|e] eqn:Hrs; [|discriminate].
      intros [= <-]. constructor; [exact Hr|]. by apply IH.
    + intros H. inversion H as [|? r ? rs Hr Hrs]; subst.
      rewrite Hr. cbn [mbind result_bind].
      apply IH in Hrs. rewrite Hrs. reflexivity.
Qed.

Lemma analyze_each_texts (texts : list pyobj) :
  Forall is_text texts → ∃ records, each texts = Ok records.
Proof.
  induction 1 as [|t texts Ht _ [rs IH]].
  - by exists [].
  - destruct (analyze_with_textblob_returns str_lower blob_polarity
                blob_subjectivity t Ht) as [p Hp].
    destruct (analyze_with_vader_returns vader_analyzer t Ht) as [w Hw].
    eexists. cbn [analyze_each].
    rewrite (analyze_text_record _ _ _ _ _ _ _ Hp Hw), IH. reflexivity.
Qed.

(** The frame that [analyze_dataframe] returns has the columns of its
    input followed by the seven sentiment columns. *)
Lemma analyze_frame_columns (d d' : DataFrame) (text_column : string) :
  frame d text_column = Ok d' →
  column_names d' = column_names d ++ sentiment_columns.
Proof.
  unfold analyze_frame.
  destruct (getitem d text_column) as [texts|e]; [|discriminate].
  cbn [mbind result_bind].
  destruct (each texts) as [[|r rs]|e]; [discriminate| |discriminate].
  cbn [mbind result_bind].
  rewrite drop_text_of_analyses by done. cbn [mbind result_bind].
  intros H. apply column_names_concat_axis1 in H. exact H.
Qed.

(** The row labels of the frame that [analyze_dataframe] returns are
    distinct. *)
Lemma analyze_frame_distinct_labels (d d' : DataFrame) (text_column : string) :
  frame d text_column = Ok d' → NoDup (index d').
Proof.
  unfold analyze_frame.
  destruct (getitem d text_column) as [texts|e]; [|discriminate].
  cbn [mbind result_bind].
  destruct (each texts) as [[|r rs]|e]; [discriminate| |discriminate].
  cbn [mbind result_bind].
  rewrite drop_text_of_analyses by done. cbn [mbind result_bind].
  intros H. apply concat_axis1_distinct_labels in H; [exact H|].
  apply NoDup_range_index.
Qed.

(** One run of [analyze_dataframe]: the heap grows by the copy and, when
    they are reached, the frame of the records, that frame without its
    text column and the frame that is returned. *)
Lemma analyze_dataframe_run (h : heap) (df : loc) (d : DataFrame)
    (text_column : string) :
  h !! df = Some d →
  match frame d text_column with
  | Ok d' =>
      ∃ sentiment_df without_text,
        run df text_column h
        = (Ok (length h + 3)%nat, h ++ [d; sentiment_df; without_text; d'])
  | Raise e =>
      ∃ objects, run df text_column h = (Raise e, h ++ d :: objects)
  end.
Proof.
  intros Hd. unfold analyze_dataframe, analyze_frame.
  assert (Hcopy : copy df h = (Ok (length h), h ++ [d])).
  { unfold copy. rewrite (bind_ok _ _ _ _ _ (load_at _ _ _ Hd)). reflexivity. }
  rewrite (bind_ok _ _ _ _ _ Hcopy). cbv beta.
  assert (Hlast : (h ++ [d]) !! length h = Some d)
    by (by apply list_lookup_middle).
  assert (Htexts : getitem_at (length h) text_column (h ++ [d])
                   = (getitem d text_column, h ++ [d])).
  { unfold getitem_at. rewrite (bind_ok _ _ _ _ _ (load_at _ _ _ Hlast)).
    reflexivity. }
  destruct (getitem d text_column) as [texts|e];
    [|exists []; by rewrite (bind_raise _ _ _ _ _ Htexts)].
  rewrite (bind_ok _ _ _ _ _ Htexts). cbv beta.
  cbn [mbind result_bind].
  destruct (each texts) as [records|e];
    [|exists []; by rewrite (bind_raise _ _ (h ++ [d]) (h ++ [d]) e)].
  rewrite (bind_ok _ _ (h ++ [d]) (h ++ [d]) records) by reflexivity.
  cbv beta. cbn [mbind result_bind].
  set (sdf := DataFrame_of_records (map analysis_items records)).
  rewrite (bind_ok _ _ (h ++ [d]) ((h ++ [d]) ++ [sdf]) (length (h ++ [d])))
    by reflexivity.
  cbv beta.
  assert (Hsdf : ((h ++ [d]) ++ [sdf]) !! length (h ++ [d]) = Some sdf)
    by (by apply list_lookup_middle).
  assert (Hdrop : drop (length (h ++ [d])) "text" ((h ++ [d]) ++ [sdf])
    = match drop_column sdf "text" with
      | Ok wt => (Ok (length ((h ++ [d]) ++ [sdf])),
                  ((h ++ [d]) ++ [sdf]) ++ [wt])
      | Raise e => (Raise e, (h ++ [d]) ++ [sdf])
      end).
  { unfold drop. rewrite (bind_ok _ _ _ _ _ (load_at _ _ _ Hsdf)).
    destruct (drop_column sdf "text"); reflexivity. }
  destruct (drop_column sdf "text") as [wt|e].
  2:{ exists [sdf]. rewrite (bind_raise _ _ _ _ _ Hdrop).
      by rewrite <- app_assoc. }
  rewrite (bind_ok _ _ _ _ _ Hdrop). cbv beta. cbn [mbind result_bind].
  assert (Hd2 : (((h ++ [d]) ++ [sdf]) ++ [wt]) !! length h = Some d).
  { rewrite <- !app_assoc. by apply list_lookup_middle. }
  assert (Hwt : (((h ++ [d]) ++ [sdf]) ++ [wt])
                  !! length ((h ++ [d]) ++ [sdf]) = Some wt)
    by (by apply list_lookup_middle).
  assert (Hcat : pd_concat_axis1 (length h) (length ((h ++ [d]) ++ [sdf]))
                   (((h ++ [d]) ++ [sdf]) ++ [wt])
    = match concat_axis1 d wt with
      | Ok d' => (Ok (length (((h ++ [d]) ++ [sdf]) ++ [wt])),
                  (((h ++ [d]) ++ [sdf]) ++ [wt]) ++ [d'])
      | Raise e => (Raise e, ((h ++ [d]) ++ [sdf]) ++ [wt])
      end).
  { unfold pd_concat_axis1.
    rewrite (bind_ok _ _ _ _ _ (load_at _ _ _ Hd2)).
    rewrite (bind_ok _ _ _ _ _ (load_at _ _ _ Hwt)).
    destruct (concat_axis1 d wt); reflexivity. }
  destruct (concat_axis1 d wt) as [d'|e].
  - rewrite (bind_ok _ _ _ _ _ Hcat). cbv beta.
    exists sdf, wt. unfold mret, M_ret. f_equal.
    + f_equal. rewrite !length_app. cbn [length]. lia.
    + rewrite <- !app_assoc. reflexivity.
  - exists [sdf; wt]. rewrite (bind_raise _ _ _ _ _ Hcat).
    by rewrite <- !app_assoc.
Qed.

(** C10. [analyze_dataframe] leaves every frame of the heap as it was,
    its input among them: the heap only grows, first by a copy of the
    input.  When it returns, the frame it returns is a new object, at a
    location that was free, and its columns are the columns of the input
    followed by the sentiment columns. *)
Theorem analyze_dataframe_keeps_input (h : heap) (df : loc) (d : DataFrame)
    (text_column : string) :
  h !! df = Some d →
  ∃ objects,
    (run df text_column h).2 = h ++ d :: objects
    ∧ (∀ l d0, h !! l = Some d0 → (run df text_column h).2 !! l = Some d0)
    ∧ (run df text_column h).2 !! df = Some d
    ∧ ∀ out, (run df text_column h).1 = Ok out →
        out ≠ df ∧ h !! out = None
        ∧ ∃ d', (run df text_column h).2 !! out = Some d'
                ∧ column_names d' = column_names d ++ sentiment_columns.
Proof.
  intros Hd.
  pose proof (analyze_dataframe_run h df d text_column Hd) as Hrun.
  pose proof (lookup_lt_Some _ _ _ Hd) as Hlt.
  assert (Hkeep : ∀ objects l d0,
    h !! l = Some d0 → (h ++ objects) !! l = Some d0).
  { intros objects l d0 H. by apply lookup_app_l_Some. }
  destruct (frame d text_column) as [d'|e] eqn:Hframe.
  - destruct Hrun as (sdf & wt & ->). cbn [fst snd].
    exists [sdf; wt; d']. split; [reflexivity|].
    split; [intros l d0; apply Hkeep|]. split; [by apply Hkeep|].
    intros out [= <-]. split; [lia|]. split.
    + apply lookup_ge_None. lia.
    + exists d'. split.
      * change (h ++ [d; sdf; wt; d']) with (h ++ [d; sdf; wt] ++ [d']).
        rewrite app_assoc. apply list_lookup_middle.
        rewrite length_app. cbn [length]. lia.
      * by apply analyze_frame_columns in Hframe.
  - destruct Hrun as (objects & ->). cbn [fst snd].
    exists objects. split; [reflexivity|].
    split; [intros l d0; apply Hkeep|]. split; [by apply Hkeep|].
    intros out [=].
Qed.

(** On a frame with the fresh labels 0, 1, ... and at least one row,
    [analyze_dataframe] puts the analysis of each text in the row of that
    text. *)
Lemma analyze_frame_range_index (d : DataFrame) (text_column : string)
    (texts : list pyobj) :
  getitem d text_column = Ok texts →
  index d = range_index (length texts) →
  texts ≠ [] →
  Forall is_text texts →
  ∃ records,
    Forall2 (λ t r, analyze t = Ok r) texts records
    ∧ frame d text_column
      = Ok {| index := index d;
              columns := columns d ++ columns (sentiment_frame records) |}.
Proof.
  intros Hget Hidx Hne Htexts.
  destruct (analyze_each_texts texts Htexts) as [records Hrecords].
  exists records.
  pose proof (proj1 (analyze_each_returns _ _) Hrecords) as Hall.
  split; [exact Hall|].
  unfold analyze_frame. rewrite Hget. cbn [mbind result_bind].
  rewrite Hrecords. cbn [mbind result_bind].
  apply Forall2_length in Hall.
  rewrite drop_text_of_analyses
    by (intros ->; destruct texts; [done|discriminate]).
  cbn [mbind result_bind]. unfold concat_axis1.
  rewrite bool_decide_eq_true_2;
    [reflexivity | cbn [sentiment_frame index]; congruence].
Qed.

(** On a frame without rows [analyze_dataframe] raises: the frame of no
    record has no ['text'] column to drop. *)
Lemma analyze_frame_no_rows (d : DataFrame) (text_column : string) :
  getitem d text_column = Ok [] → frame d text_column = Raise KeyError.
Proof. intros Hget. unfold analyze_frame. rewrite Hget. reflexivity. Qed.

End FrameFacts.

(** C6. On the frame that [preprocess_dataframe] hands over once it has
    removed a row, [analyze_dataframe] returns three rows for two texts:
    the class of the second text is in a row without text, and the row of
    the second text has no class. *)
Theorem analyze_dataframe_misaligns_filtered_rows :
  let r := analyze_dataframe lower_latin1 baseline_polarity
             baseline_subjectivity None 0%nat "processed_text"
             [filtered_frame] in
  r.1 = Ok 4%nat
  ∧ r.2 !! 4%nat = Some misaligned_frame
  ∧ len filtered_frame = 2
  ∧ len misaligned_frame = 3
  ∧ getitem misaligned_frame "processed_text"
    = Ok [PyStr (py "produto bom"); PyStr (py "produto ruim"); PyNaN]
  ∧ getitem misaligned_frame "sentiment_class"
    = Ok [PyStr (py "positivo"); PyNaN; PyStr (py "negativo")].
Proof. repeat split; vm_compute; reflexivity. Qed.

(** The summary of that frame counts three texts and has no most
    negative text: the row of the smallest polarity has no text. *)
Example summary_of_misaligned_frame :
  match get_sentiment_summary sqrt_stub misaligned_frame with
  | Ok s =>
      total_texts s = 3
      ∧ most_positive_text s = Scalar (PyStr (py "Produto bom!"))
      ∧ most_negative_text s = Scalar PyNaN
  | Raise _ => False
  end.
Proof. vm_compute. repeat split. Qed.

(** On a frame without rows the analysis raises. *)
Example analyze_dataframe_of_emptied_frame :
  (analyze_dataframe lower_latin1 baseline_polarity baseline_subjectivity
     None 0%nat "processed_text" [emptied_frame]).1 = Raise KeyError.
Proof. reflexivity. Qed.

Lemma analyze_dataframe_keeps_input_witness :
  let r := analyze_dataframe lower_latin1 baseline_polarity
             baseline_subjectivity (Some sample_vader) 0%nat "processed_text"
             [sample_frame] in
  r.1 = Ok 4%nat
  ∧ r.2 !! 0%nat = Some sample_frame
  ∧ ∃ d', r.2 !! 4%nat = Some d'
          ∧ column_names d' = column_names sample_frame ++ sentiment_columns.
Proof.
  intros r.
  destruct (analyze_dataframe_keeps_input lower_latin1 baseline_polarity
              baseline_subjectivity (Some sample_vader) [sample_frame] 0%nat
              sample_frame "processed_text" eq_refl)
    as (objects & _ & _ & Hin & Hout).
  assert (Hr : r.1 = Ok 4%nat) by (vm_compute; reflexivity).
  split; [exact Hr|]. split; [exact Hin|].
  destruct (Hout 4%nat Hr) as (_ & _ & Hd'). exact Hd'.
Defined.

(** ** Counting the classes *)

Lemma value_counts_cons (c : pyobj) (cells : list pyobj) :
  value_counts (c :: cells)
  = if isna c then value_counts cells
    else <[hash_key c :=
             default 0 (value_counts cells !! hash_key c) + 1]>
           (value_counts cells).
Proof. reflexivity. Qed.

Lemma value_counts_lookup (cells : list pyobj) (key : pyobj) :
  value_counts cells !! key
  = match occurrences key cells with
    | O => None
    | n => Some (Z.of_nat n)
    end.
Proof.
  unfold occurrences.
  induction cells as [|c cells IH]; [reflexivity|].
  rewrite value_counts_cons, filter_cons.
  destruct (isna c) eqn:Hna.
  - rewrite decide_False by (intros [? _]; congruence). exact IH.
  - destruct (decide (hash_key c = key)) as [<-|Hne].
    + rewrite decide_True by done. rewrite lookup_insert_eq, IH.
      cbn [length].
      destruct (length _); unfold default; cbn [from_option id]; f_equal; lia.
    + rewrite decide_False by (intros [_ ?]; congruence).
      rewrite lookup_insert_ne by done. exact IH.
Qed.

Lemma occurrences_of_class (classes : list pyobj) (name : pystr) :
  Forall is_str classes → occurrences (PyStr name) classes = tally name classes.
Proof.
  unfold occurrences, tally. induction 1 as [|c classes [s ->] _ IH];
    [reflexivity|].
  rewrite !filter_cons. cbn [isna hash_key].
  destruct (decide (PyStr s = PyStr name)) as [Heq|Hne].
  - rewrite decide_True by done. cbn [length]. by rewrite IH.
  - rewrite decide_False by (intros [_ ?]; done). exact IH.
Qed.

Lemma occurrences_not_class (classes : list pyobj) (key : pyobj) :
  Forall is_str classes → ¬ is_str key → occurrences key classes = O.
Proof.
  unfold occurrences. induction 1 as [|c classes [s ->] _ IH]; intros Hkey;
    [reflexivity|].
  rewrite filter_cons, decide_False; [by apply IH|].
  cbn [hash_key]. intros [_ <-]. apply Hkey. by exists s.
Qed.

Lemma sum_counts_insert (counts : gmap pyobj Z) (key : pyobj) (n : Z) :
  sum_counts (<[key := n]> counts)
  = n + sum_counts counts - default 0 (counts !! key).
Proof.
  unfold sum_counts. destruct (counts !! key) as [n0|] eqn:Hkey.
  - rewrite <- insert_delete_eq.
    rewrite map_fold_insert_L;
      [|intros; cbv beta; lia|apply lookup_delete_eq].
    rewrite (map_fold_delete_L _ _ key n0 counts);
      [|intros; cbv beta; lia|done].
    unfold default; cbn [from_option id]. lia.
  - rewrite map_fold_insert_L; [|intros; cbv beta; lia|done].
    unfold default; cbn [from_option id]. lia.
Qed.

(** The counts add up to the number of cells that are not missing. *)
Lemma sum_counts_value_counts (cells : list pyobj) :
  sum_counts (value_counts cells)
  = Z.of_nat (length (filter (λ c, isna c = false) cells)).
Proof.
  induction cells as [|c cells IH]; [reflexivity|].
  rewrite value_counts_cons, filter_cons.
  destruct (isna c) eqn:Hna.
  - rewrite decide_False by congruence. exact IH.
  - rewrite decide_True by done. rewrite sum_counts_insert, IH.
    cbn [length]. lia.
Qed.

Lemma sum_counts_classes (classes : list pyobj) :
  Forall is_str classes →
  sum_counts (value_counts classes) = Z.of_nat (length classes).
Proof.
  intros H. rewrite sum_counts_value_counts. do 2 f_equal.
  induction H as [|c classes [s ->] _ IH]; [reflexivity|].
  rewrite filter_cons, decide_True by done. by rewrite IH.
Qed.

Lemma sum_values_insert (m : gmap pyobj Q) (key : pyobj) (x : Q) :
  m !! key = None →
  (sum_values (<[key := x]> m) == x + sum_values m)%Q.
Proof.
  intros Hkey. unfold sum_values.
  apply (map_fold_insert Qeq); [|intros; cbv beta; ring|exact Hkey].
  intros j z a b Hab. cbv beta. rewrite Hab. reflexivity.
Qed.

(** The percentages add up to a hundred times the counts over the total. *)
Lemma sum_values_percentages (counts : gmap pyobj Z) (total : Z) :
  (sum_values ((λ x, x * 100)%Q
               <$> ((λ n, inject_Z n / inject_Z total)%Q <$> counts))
   == inject_Z (sum_counts counts) / inject_Z total * 100)%Q.
Proof.
  induction counts as [|key n counts Hkey IH] using map_ind.
  - rewrite !fmap_empty. unfold sum_values, sum_counts.
    rewrite !map_fold_empty. unfold Qdiv. ring.
  - rewrite !fmap_insert.
    rewrite sum_values_insert by (by rewrite !lookup_fmap, Hkey).
    rewrite IH, sum_counts_insert, Hkey.
    unfold default; cbn [from_option id].
    rewrite Z.sub_0_r, inject_Z_plus. unfold Qdiv. ring.
Qed.

(** ** Scanning a column for its best cell *)

Section Scan.

Variable better : Q → Q → bool.
Hypothesis better_asym : ∀ x y, better x y = true → better y x = false.
Hypothesis not_better_trans :
  ∀ x y z, better x y = false → better y z = false → better x z = false.

Lemma better_irrefl (x : Q) : better x x = false.
Proof.
  destruct (better x x) eqn:H; [|reflexivity].
  apply better_asym in H as H'. congruence.
Qed.

Lemma better_trans (x y z : Q) :
  better x y = true → better y z = true → better x z = true.
Proof.
  intros Hxy Hyz. destruct (better x z) eqn:Hxz; [reflexivity|].
  apply better_asym in Hyz.
  rewrite (not_better_trans x z y Hxz Hyz) in Hxy. discriminate.
Qed.

Lemma better_not_better (x y z : Q) :
  better x y = true → better z y = false → better x z = true.
Proof.
  intros Hxy Hzy. destruct (better x z) eqn:Hxz; [reflexivity|].
  rewrite (not_better_trans x z y Hxz Hzy) in Hxy. discriminate.
Qed.

(** [idx_scan] keeps the best so far when no cell beats it, and otherwise
    returns the first of the cells that no other cell beats. *)
Lemma idx_scan_first_best (labels : list Z) (cells : list pyobj)
    (best : option (Z * Q)) :
  length labels = length cells →
  (idx_scan better best labels cells = best
   ∧ ∀ j y, number_at cells j = Some y →
       ∃ b, best = Some b ∧ better y b.2 = false)
  ∨ (∃ i l x,
       idx_scan better best labels cells = Some (l, x)
       ∧ labels !! i = Some l
       ∧ number_at cells i = Some x
       ∧ (∀ b, best = Some b → better x b.2 = true)
       ∧ (∀ j y, number_at cells j = Some y → better y x = false)
       ∧ (∀ j y, (j < i)%nat → number_at cells j = Some y → better x y = true)).
Proof.
  revert cells best.
  induction labels as [|l labels IH]; intros [|c cells] best Hlen;
    try discriminate.
  { left. split; [reflexivity|]. intros j y Hj. discriminate. }
  injection Hlen as Hlen. cbn [idx_scan].
  destruct (to_number c) as [x0|] eqn:Hc.
  - destruct best as [[lb b]|].
    + destruct (better x0 b) eqn:Hx0.
      * destruct (IH cells (Some (l, x0)) Hlen)
          as [[Hres Hall]|(i & l' & x' & Hres & Hl & Hx & Hb & Hall & Hfirst)].
        -- right. exists O, l, x0. split; [exact Hres|].
           split; [reflexivity|]. split; [unfold number_at; cbn; exact Hc|].
           split; [intros b' [= <-]; exact Hx0|].
           split; [|intros j y Hj; lia].
           intros [|j] y Hj.
           ++ unfold number_at in Hj. cbn in Hj. rewrite Hc in Hj.
              injection Hj as <-. apply better_irrefl.
           ++ destruct (Hall j y Hj) as (b' & [= <-] & Hy). exact Hy.
        -- right. exists (S i), l', x'. split; [exact Hres|].
           split; [exact Hl|]. split; [exact Hx|].
           specialize (Hb _ eq_refl). cbn in Hb.
           split; [intros b' [= <-]; by apply (better_trans x' x0 b)|].
           split.
           ++ intros [|j] y Hj; [|by apply (Hall j)].
              unfold number_at in Hj. cbn in Hj. rewrite Hc in Hj.
              injection Hj as <-. by apply better_asym.
           ++ intros [|j] y Hlt Hj; [|apply (Hfirst j); [lia|exact Hj]].
              unfold number_at in Hj. cbn in Hj. rewrite Hc in Hj.
              injection Hj as <-. exact Hb.
      * destruct (IH cells (Some (lb, b)) Hlen)
          as [[Hres Hall]|(i & l' & x' & Hres & Hl & Hx & Hb & Hall & Hfirst)].
        -- left. split; [exact Hres|].
           intros [|j] y Hj; [|by apply (Hall j)].
           unfold number_at in Hj. cbn in Hj. rewrite Hc in Hj.
           injection Hj as <-. by exists (lb, b).
        -- right. exists (S i), l', x'. split; [exact Hres|].
           split; [exact Hl|]. split; [exact Hx|].
           split; [exact Hb|].
           specialize (Hb _ eq_refl). cbn in Hb.
           split.
           ++ intros [|j] y Hj; [|by apply (Hall j)].
              unfold number_at in Hj. cbn in Hj. rewrite Hc in Hj.
              injection Hj as <-.
              apply (not_better_trans x0 b x' Hx0). by apply better_asym.
           ++ intros [|j] y Hlt Hj; [|apply (Hfirst j); [lia|exact Hj]].
              unfold number_at in Hj. cbn in Hj. rewrite Hc in Hj.
              injection Hj as <-. by apply (better_not_better x' b x0).
    + destruct (IH cells (Some (l, x0)) Hlen)
        as [[Hres Hall]|(i & l' & x' & Hres & Hl & Hx & Hb & Hall & Hfirst)].
      * right. exists O, l, x0. split; [exact Hres|].
        split; [reflexivity|]. split; [unfold number_at; cbn; exact Hc|].
        split; [intros b' [=]|].
        split; [|intros j y Hj; lia].
        intros [|j] y Hj.
        -- unfold number_at in Hj. cbn in Hj. rewrite Hc in Hj.
           injection Hj as <-. apply better_irrefl.
        -- destruct (Hall j y Hj) as (b' & [= <-] & Hy). exact Hy.
      * right. exists (S i), l', x'. split; [exact Hres|].
        split; [exact Hl|]. split; [exact Hx|].
        specialize (Hb _ eq_refl). cbn in Hb.
        split; [intros b' [=]|].
        split.
        -- intros [|j] y Hj; [|by apply (Hall j)].
           unfold number_at in Hj. cbn in Hj. rewrite Hc in Hj.
           injection Hj as <-. by apply better_asym.
        -- intros [|j] y Hlt Hj; [|apply (Hfirst j); [lia|exact Hj]].
           unfold number_at in Hj. cbn in Hj. rewrite Hc in Hj.
           injection Hj as <-. exact Hb.
  - destruct (IH cells best Hlen)
      as [[Hres Hall]|(i & l' & x' & Hres & Hl & Hx & Hb & Hall & Hfirst)].
    + left. split; [exact Hres|].
      intros [|j] y Hj; [|by apply (Hall j)].
      unfold number_at in Hj. cbn in Hj. rewrite Hc in Hj. discriminate.
    + right. exists (S i), l', x'. split; [exact Hres|].
      split; [exact Hl|]. split; [exact Hx|]. split; [exact Hb|].
      split.
      * intros [|j] y Hj; [|by apply (Hall j)].
        unfold number_at in Hj. cbn in Hj. rewrite Hc in Hj. discriminate.
      * intros [|j] y Hlt Hj; [|apply (Hfirst j); [lia|exact Hj]].
        unfold number_at in Hj. cbn in Hj. rewrite Hc in Hj. discriminate.
Qed.

End Scan.

(** ** The summary of a frame of scored records *)

Lemma getitem_in_columns (d : DataFrame) (col : string) (cells : list pyobj) :
  getitem d col = Ok cells → (col, cells) ∈ columns d.
Proof.
  unfold getitem. destruct (lookup_item col (columns d)) as [cells'|] eqn:H;
    [|discriminate].
  intros [= <-]. induction (columns d) as [|[k v] cols IH]; [discriminate|].
  cbn [lookup_item] in H. case_bool_decide as Hk.
  - injection H as <-. subst k. left.
  - right. by apply IH.
Qed.

Lemma getitem_column_names (d : DataFrame) (col : string) :
  col ∈ column_names d ↔ ∃ cells, getitem d col = Ok cells.
Proof.
  unfold getitem, column_names. split.
  - induction (columns d) as [|[k v] cols IH]; cbn.
    + intros H. by apply elem_of_nil in H.
    + intros H. case_bool_decide as Hk; [by eexists|].
      apply elem_of_cons in H as [->|H]; [done|]. by apply IH.
  - intros [cells H]. apply (getitem_in_columns d col cells) in H.
    apply list_elem_of_fmap. by exists (col, cells).
Qed.

Lemma cells_at_absent (label : Z) (labels : list Z) (cells : list pyobj) :
  label ∉ labels → cells_at label labels cells = [].
Proof.
  revert cells. induction labels as [|l labels IH]; intros cells Hout;
    [reflexivity|].
  destruct cells as [|c cells]; [reflexivity|]. cbn [cells_at].
  rewrite bool_decide_eq_false_2 by (intros ->; apply Hout; left).
  apply IH. intros H. apply Hout. by right.
Qed.

(** With distinct row labels, [df.loc] finds the one cell of the row. *)
Lemma cells_at_unique (labels : list Z) (cells : list pyobj)
    (i : nat) (label : Z) (c : pyobj) :
  NoDup labels → labels !! i = Some label → cells !! i = Some c →
  cells_at label labels cells = [c].
Proof.
  revert cells i. induction labels as [|l labels IH];
    intros cells i Hnd Hl Hc; [discriminate|].
  destruct cells as [|c0 cells]; [discriminate|].
  apply NoDup_cons in Hnd as [Hout Hnd]. cbn [cells_at].
  destruct i as [|i].
  - injection Hl as ->. injection Hc as ->.
    rewrite bool_decide_eq_true_2 by done. f_equal.
    by apply cells_at_absent.
  - cbn in Hl, Hc.
    rewrite bool_decide_eq_false_2.
    + by apply (IH cells i).
    + intros ->. apply Hout. by apply list_elem_of_lookup_2 in Hl.
Qed.

Lemma number_at_number (cells : list pyobj) (j : nat) (y : Q) :
  cells !! j = Some (PyFloat y) → number_at cells j = Some y.
Proof. intros H. unfold number_at. rewrite H. reflexivity. Qed.

Lemma number_at_inv (cells : list pyobj) (j : nat) (y : Q) :
  Forall is_number cells → number_at cells j = Some y →
  cells !! j = Some (PyFloat y).
Proof.
  intros Hall. unfold number_at. destruct (cells !! j) as [c|] eqn:Hj;
    [|discriminate].
  destruct (proj1 (Forall_lookup _ _) Hall j c Hj) as [x ->].
  cbn. by intros [= ->].
Qed.

(** [idxmax] on a column of numbers: the label of the first largest. *)
Lemma idxmax_first_maximum (labels : list Z) (cells : list pyobj) :
  length labels = length cells → cells ≠ [] → Forall is_number cells →
  ∃ i label, idxmax labels cells = Some label
    ∧ labels !! i = Some label ∧ first_maximum cells i.
Proof.
  intros Hlen Hne Hall. unfold idxmax.
  destruct (idx_scan_first_best (λ x y, py_lt y x)) with
    (labels := labels) (cells := cells) (best := @None (Z * Q))
    as [[_ Hnone]|(i & l & x & -> & Hl & Hx & _ & Hmax & Hfirst)];
    try exact Hlen.
  - intros x y H. apply py_lt_true in H. apply py_lt_false. lra.
  - intros x y z H1 H2. apply py_lt_false in H1, H2. apply py_lt_false. lra.
  - destruct cells as [|c cells]; [done|].
    apply Forall_cons in Hall as [[x ->] _].
    destruct (Hnone O x eq_refl) as (b & [=] & _).
  - exists i, l. split; [reflexivity|]. split; [exact Hl|].
    exists x. split; [by apply number_at_inv|]. split.
    + intros j y Hj. apply number_at_number in Hj.
      apply Hmax in Hj. by apply py_lt_false in Hj.
    + intros j y Hlt Hj. apply number_at_number in Hj.
      apply (Hfirst _ _ Hlt) in Hj. by apply py_lt_true in Hj.
Qed.

(** [idxmin] on a column of numbers: the label of the first smallest. *)
Lemma idxmin_first_minimum (labels : list Z) (cells : list pyobj) :
  length labels = length cells → cells ≠ [] → Forall is_number cells →
  ∃ i label, idxmin labels cells = Some label
    ∧ labels !! i = Some label ∧ first_minimum cells i.
Proof.
  intros Hlen Hne Hall. unfold idxmin.
  destruct (idx_scan_first_best (λ x y, py_lt x y)) with
    (labels := labels) (cells := cells) (best := @None (Z * Q))
    as [[_ Hnone]|(i & l & x & -> & Hl & Hx & _ & Hmin & Hfirst)];
    try exact Hlen.
  - intros x y H. apply py_lt_true in H. apply py_lt_false. lra.
  - intros x y z H1 H2. apply py_lt_false in H1, H2. apply py_lt_false. lra.
  - destruct cells as [|c cells]; [done|].
    apply Forall_cons in Hall as [[x ->] _].
    destruct (Hnone O x eq_refl) as (b & [=] & _).
  - exists i, l. split; [reflexivity|]. split; [exact Hl|].
    exists x. split; [by apply number_at_inv|]. split.
    + intros j y Hj. apply number_at_number in Hj.
      apply Hmin in Hj. by apply py_lt_false in Hj.
    + intros j y Hlt Hj. apply number_at_number in Hj.
      apply (Hfirst _ _ Hlt) in Hj. by apply py_lt_true in Hj.
Qed.

Lemma select_nothing {A} (mask : list bool) (l : list A) :
  Forall (λ b, b = false) mask → select mask l = [].
Proof.
  intros Hmask. revert l.
  induction Hmask as [|b mask -> _ IH]; intros [|x l]; try reflexivity.
  cbn [select]. apply IH.
Qed.

(** A column of the frame of no row. *)
Lemma getitem_no_rows (d : DataFrame) (mask : list bool) (col : string)
    (cells : list pyobj) :
  Forall (λ b, b = false) mask →
  getitem d col = Ok cells → getitem (select_rows d mask) col = Ok [].
Proof.
  intros Hmask. unfold getitem, select_rows. cbn [columns].
  induction (columns d) as [|[k v] cols IH]; [discriminate|].
  cbn [map lookup_item fst snd]. case_bool_decide; [|exact IH].
  intros _. by rewrite select_nothing.
Qed.

Section SummaryFacts.

Variable np_sqrt : Q → Q.

Local Abbreviation summarize := (get_sentiment_summary np_sqrt).

(** What [get_sentiment_summary] returns on a frame of scored records
    with at least one row. *)
Lemma summary_of_scored_frame (d : DataFrame)
    (texts classes polarities subjectivities : list pyobj) :
  scored_frame d texts classes polarities subjectivities →
  index d ≠ [] →
  ∃ i k ti tk,
    first_maximum polarities i ∧ texts !! i = Some ti
    ∧ first_minimum polarities k ∧ texts !! k = Some tk
    ∧ summarize d
      = Ok {| total_texts := len d;
              sentiment_counts := value_counts classes;
              sentiment_percentages :=
                (λ x, x * 100)%Q <$> value_counts_normalized classes;
              polarity_stats := describe np_sqrt polarities;
              subjectivity_stats := describe np_sqrt subjectivities;
              most_positive_text := Scalar ti;
              most_negative_text := Scalar tk |}.
Proof.
  intros (Hnd & _ & Htext & Hclass & Hpol & Hsub
          & Hlt & Hlc & Hlp & Hls & _ & Hnum & _) Hne.
  assert (Hpne : polarities ≠ []).
  { intros ->. destruct (index d); [done|discriminate]. }
  destruct (idxmax_first_maximum (index d) polarities)
    as (i & li & Himax & Hli & Hmax); [congruence|done|done|].
  destruct (idxmin_first_minimum (index d) polarities)
    as (k & lk & Himin & Hlk & Hmin); [congruence|done|done|].
  destruct (lookup_lt_is_Some_2 texts i) as [ti Hti].
  { rewrite Hlt. by apply lookup_lt_Some in Hli. }
  destruct (lookup_lt_is_Some_2 texts k) as [tk Htk].
  { rewrite Hlt. by apply lookup_lt_Some in Hlk. }
  exists i, k, ti, tk. do 4 (split; [done|]).
  unfold get_sentiment_summary.
  rewrite bool_decide_eq_true_2
    by (apply getitem_column_names; by exists classes).
  rewrite Hclass, Hpol, Hsub. cbn [mbind result_bind].
  assert (Hlen : (len d >? 0) = true).
  { unfold len. destruct (index d); [done|]. cbn [length].
    rewrite Z.gtb_ltb. apply Z.ltb_lt. lia. }
  rewrite Hlen, Himax, Himin. unfold loc_getitem.
  rewrite Htext. cbn [mbind result_bind].
  rewrite (cells_at_unique _ _ i li ti Hnd Hli Hti).
  rewrite (cells_at_unique _ _ k lk tk Hnd Hlk Htk).
  reflexivity.
Qed.

(** C7. The rows of a frame of scored records that a selection leaves
    when it leaves none: a frame without rows that has the columns of the
    records, those of the polarity and of the subjectivity being numeric.
    On such a frame [get_sentiment_summary] does not raise: the total is
    0, the counts and the percentages are empty mappings, every statistic
    of the polarity and of the subjectivity is [NaN] (over a count of 0),
    and the most positive and the most negative text are [None]. *)
Theorem get_sentiment_summary_empty (d : DataFrame)
    (texts classes polarities subjectivities : list pyobj)
    (mask : list bool) :
  scored_frame d texts classes polarities subjectivities →
  index d ≠ [] →
  length mask = length (index d) →
  Forall (λ b, b = false) mask →
  summarize (select_rows d mask)
  = Ok {| total_texts := 0;
          sentiment_counts := ∅;
          sentiment_percentages := ∅;
          polarity_stats := undefined_stats;
          subjectivity_stats := undefined_stats;
          most_positive_text := Scalar PyNone;
          most_negative_text := Scalar PyNone |}.
Proof.
  intros (_ & _ & _ & Hclass & Hpol & Hsub & _) _ _ Hmask.
  apply (getitem_no_rows d mask) in Hclass, Hpol, Hsub; try exact Hmask.
  unfold get_sentiment_summary.
  rewrite bool_decide_eq_true_2
    by (apply getitem_column_names; by exists []).
  rewrite Hclass, Hpol, Hsub. cbn [mbind result_bind].
  unfold len. cbn [select_rows index]. rewrite select_nothing by done.
  cbn [length Z.of_nat Z.gtb Z.compare].
  unfold value_counts_normalized, value_counts. cbn [foldr].
  rewrite !fmap_empty. reflexivity.
Qed.

(** C8. On a frame of scored records with at least one row, the counts
    are the exact tallies of the records per class, a class without
    records being in neither mapping; the percentage of a class that is
    present is 100 times its count over the total; and the percentages
    add up to 100 (exactly, in the rational arithmetic of the model). *)
Theorem get_sentiment_summary_counts (d : DataFrame)
    (texts classes polarities subjectivities : list pyobj) :
  scored_frame d texts classes polarities subjectivities →
  index d ≠ [] →
  ∃ s,
    summarize d = Ok s
    ∧ total_texts s = Z.of_nat (length classes)
    ∧ (∀ name,
         sentiment_counts s !! PyStr name
         = match tally name classes with
           | O => None
           | n => Some (Z.of_nat n)
           end)
    ∧ (∀ key, ¬ is_str key → sentiment_counts s !! key = None)
    ∧ (∀ key,
         match sentiment_counts s !! key with
         | None => sentiment_percentages s !! key = None
         | Some n =>
             ∃ p, sentiment_percentages s !! key = Some p
               ∧ (p == 100 * inject_Z n / inject_Z (total_texts s))%Q
         end)
    ∧ (sum_values (sentiment_percentages s) == 100)%Q.
Proof.
  intros Hscored Hne.
  destruct (summary_of_scored_frame d _ _ _ _ Hscored Hne)
    as (i & k & ti & tk & _ & _ & _ & _ & Hs).
  destruct Hscored as (_ & _ & _ & _ & _ & _ & _ & Hlc & _ & _ & Hstr & _).
  eexists. split; [exact Hs|].
  cbn [total_texts sentiment_counts sentiment_percentages].
  assert (Htotal : sum_counts (value_counts classes) = len d).
  { rewrite sum_counts_classes by done. unfold len. by rewrite Hlc. }
  assert (Hpos : 0 < len d).
  { unfold len. destruct (index d); [done|]. cbn [length]. lia. }
  split; [unfold len; by rewrite Hlc|].
  split.
  { intros name. rewrite value_counts_lookup.
    by rewrite occurrences_of_class. }
  split.
  { intros key Hkey. rewrite value_counts_lookup.
    by rewrite occurrences_not_class. }
  split.
  - intros key. unfold value_counts_normalized.
    rewrite !lookup_fmap, Htotal.
    destruct (value_counts classes !! key) as [n|]; [|reflexivity].
    cbn [fmap option_fmap option_map]. eexists. split; [reflexivity|].
    unfold Qdiv. ring.
  - unfold value_counts_normalized.
    rewrite sum_values_percentages, Htotal.
    field. intros H. unfold Qeq in H. cbn in H. lia.
Qed.

(** C9. On a frame of scored records with at least one row, the most
    positive text is the text of the record with the largest polarity and
    the most negative text that of the record with the smallest polarity;
    among records that share that polarity it is the first in the order
    of the rows. *)
Theorem get_sentiment_summary_extremes (d : DataFrame)
    (texts classes polarities subjectivities : list pyobj) :
  scored_frame d texts classes polarities subjectivities →
  index d ≠ [] →
  ∃ s i k ti tk,
    summarize d = Ok s
    ∧ first_maximum polarities i ∧ texts !! i = Some ti
    ∧ most_positive_text s = Scalar ti
    ∧ first_minimum polarities k ∧ texts !! k = Some tk
    ∧ most_negative_text s = Scalar tk.
Proof.
  intros Hscored Hne.
  destruct (summary_of_scored_frame d _ _ _ _ Hscored Hne)
    as (i & k & ti & tk & Hmax & Hti & Hmin & Htk & Hs).
  eexists _, i, k, ti, tk. split; [exact Hs|]. done.
Qed.

End SummaryFacts.

(** *** Concrete summaries *)

Ltac by_computation :=
  match goal with
  | |- ?P => apply (bool_decide_unpack P); vm_compute; exact I
  end.

Lemma scored_sample_is_scored :
  scored_frame scored_sample
    [PyStr (py "Produto bom!"); PyStr (py "Produto ótimo!");
     PyStr (py "Produto ruim!")]
    [PyStr (py "positivo"); PyStr (py "positivo"); PyStr (py "negativo")]
    [PyFloat 0.3; PyFloat 0.3; PyFloat (-0.3)]
    [PyFloat 0.5; PyFloat 0.5; PyFloat 0.5].
Proof.
  split; [by_computation|]. split; [by_computation|].
  do 8 (split; [reflexivity|]).
  repeat split; repeat constructor; eexists; reflexivity.
Defined.

Lemma get_sentiment_summary_empty_witness :
  get_sentiment_summary sqrt_stub
    (select_rows scored_sample [false; false; false])
  = Ok {| total_texts := 0;
          sentiment_counts := ∅;
          sentiment_percentages := ∅;
          polarity_stats := undefined_stats;
          subjectivity_stats := undefined_stats;
          most_positive_text := Scalar PyNone;
          most_negative_text := Scalar PyNone |}.
Proof.
  apply (get_sentiment_summary_empty sqrt_stub scored_sample _ _ _ _
           [false; false; false] scored_sample_is_scored).
  - discriminate.
  - reflexivity.
  - repeat constructor.
Defined.

(** No row of [scored_sample]: the frame [scored_empty]. *)
Example select_rows_of_scored_sample :
  select_rows scored_sample [false; false; false] = scored_empty.
Proof. reflexivity. Qed.

(** The frame that pandas builds from an empty list of records has no
    column, and [get_sentiment_summary] refuses it by its guard. *)
Lemma get_sentiment_summary_of_no_records :
  get_sentiment_summary sqrt_stub (DataFrame_of_records [])
  = Raise ValueError.
Proof. reflexivity. Qed.

Lemma get_sentiment_summary_counts_witness :
  ∃ s,
    get_sentiment_summary sqrt_stub scored_sample = Ok s
    ∧ total_texts s = 3
    ∧ sentiment_counts s !! PyStr (py "positivo") = Some 2
    ∧ sentiment_counts s !! PyStr (py "neutro") = None
    ∧ sentiment_percentages s !! PyStr (py "neutro") = None
    ∧ (sum_values (sentiment_percentages s) == 100)%Q.
Proof.
  destruct (get_sentiment_summary_counts sqrt_stub scored_sample _ _ _ _
              scored_sample_is_scored)
    as (s & Hs & Htotal & Hcounts & _ & Hpct & Hsum);
    [discriminate|].
  exists s. split; [exact Hs|]. split; [exact Htotal|].
  split; [exact (Hcounts (py "positivo"))|].
  split; [exact (Hcounts (py "neutro"))|].
  split; [|exact Hsum].
  specialize (Hpct (PyStr (py "neutro"))).
  rewrite (Hcounts (py "neutro")) in Hpct. exact Hpct.
Defined.

Lemma get_sentiment_summary_extremes_witness :
  ∃ s i k ti tk,
    get_sentiment_summary sqrt_stub scored_sample = Ok s
    ∧ first_maximum [PyFloat 0.3; PyFloat 0.3; PyFloat (-0.3)] i
    ∧ [PyStr (py "Produto bom!"); PyStr (py "Produto ótimo!");
       PyStr (py "Produto ruim!")] !! i = Some ti
    ∧ most_positive_text s = Scalar ti
    ∧ first_minimum [PyFloat 0.3; PyFloat 0.3; PyFloat (-0.3)] k
    ∧ [PyStr (py "Produto bom!"); PyStr (py "Produto ótimo!");
       PyStr (py "Produto ruim!")] !! k = Some tk
    ∧ most_negative_text s = Scalar tk.
Proof.
  apply (get_sentiment_summary_extremes sqrt_stub scored_sample _ _ _ _
           scored_sample_is_scored).
  discriminate.
Defined.

(** Of the two records of [scored_sample] with the largest polarity, the
    summary names the first. *)
Example summary_of_scored_sample :
  match get_sentiment_summary sqrt_stub scored_sample with
  | Ok s =>
      most_positive_text s = Scalar (PyStr (py "Produto bom!"))
      ∧ most_negative_text s = Scalar (PyStr (py "Produto ruim!"))
      ∧ sentiment_counts s !! PyStr (py "positivo") = Some 2
      ∧ sentiment_counts s !! PyStr (py "negativo") = Some 1
      ∧ sentiment_percentages s !! PyStr (py "negativo")
        = Some (1 / 3 * 100)%Q
  | Raise _ => False
  end.
Proof. vm_compute. repeat split. Qed.

(** * Further properties of the analyzer *)

(** ** The classifier at any threshold *)

Lemma mirrored_classes :
  mirrored (py "positivo") = py "negativo"
  ∧ mirrored (py "negativo") = py "positivo"
  ∧ mirrored (py "neutro") = py "neutro".
Proof. repeat split; vm_compute; reflexivity. Qed.

Lemma class_ranks :
  class_rank (py "negativo") = -1
  ∧ class_rank (py "neutro") = 0
  ∧ class_rank (py "positivo") = 1.
Proof. repeat split; vm_compute; reflexivity. Qed.

(** X1. With a threshold that is not negative the classifier is
    symmetric: the opposite polarity gets the mirrored class (positive
    and negative exchanged, neutral kept). *)
Theorem classify_sentiment_opposite (p t : Q) :
  (0 <= t)%Q →
  classify_sentiment (- p) t = mirrored (classify_sentiment p t).
Proof.
  intros Ht. destruct mirrored_classes as (Hp & Hn & Hz).
  destruct (classify_sentiment_cases p t)
    as [[H1 ->]|[(H1 & H2 & ->)|(H1 & H2 & ->)]];
    destruct (classify_sentiment_cases (- p) t)
      as [[H3 ->]|[(H3 & H4 & ->)|(H3 & H4 & ->)]];
    rewrite ?Hp, ?Hn, ?Hz; try reflexivity; exfalso; lra.
Qed.

Lemma classify_sentiment_opposite_witness :
  classify_sentiment (Qopp 0.5) 0.1 = mirrored (classify_sentiment 0.5 0.1).
Proof.
  apply (classify_sentiment_opposite 0.5 0.1). vm_compute. discriminate.
Defined.

(** X2. At any threshold the class never goes down when the polarity
    goes up. *)
Theorem classify_sentiment_monotone (p q t : Q) :
  (p <= q)%Q →
  class_rank (classify_sentiment p t) <= class_rank (classify_sentiment q t).
Proof.
  intros Hpq. destruct class_ranks as (Hn & Hz & Hp).
  destruct (classify_sentiment_cases p t)
    as [[H1 ->]|[(H1 & H2 & ->)|(H1 & H2 & ->)]];
    destruct (classify_sentiment_cases q t)
      as [[H3 ->]|[(H3 & H4 & ->)|(H3 & H4 & ->)]];
    rewrite ?Hp, ?Hn, ?Hz; try lia; exfalso; lra.
Qed.

Lemma classify_sentiment_monotone_witness :
  class_rank (classify_sentiment (-0.3) 0.1)
  <= class_rank (classify_sentiment 0.05 0.1).
Proof. apply classify_sentiment_monotone. vm_compute. discriminate. Defined.

(** X3. A negative threshold leaves no neutral band: every polarity is
    classified positive when it is above the threshold and negative
    otherwise. *)
Theorem classify_sentiment_negative_threshold (p t : Q) :
  (t < 0)%Q →
  classify_sentiment p t ≠ py "neutro"
  ∧ (classify_sentiment p t = py "positivo" ↔ (t < p)%Q)
  ∧ (classify_sentiment p t = py "negativo" ↔ (p <= t)%Q).
Proof.
  intros Ht. destruct class_names_distinct as (Hpn & Hpz & Hnz).
  destruct (classify_sentiment_cases p t)
    as [[H1 ->]|[(H1 & H2 & ->)|(H1 & H2 & ->)]].
  - split; [congruence|]. split; settle_class.
  - split; [congruence|]. split; settle_class.
  - exfalso. lra.
Qed.

Lemma classify_sentiment_negative_threshold_witness :
  classify_sentiment 0 (-0.1) ≠ py "neutro"
  ∧ (classify_sentiment 0 (-0.1) = py "positivo" ↔ (-0.1 < 0)%Q)
  ∧ (classify_sentiment 0 (-0.1) = py "negativo" ↔ (0 <= -0.1)%Q).
Proof.
  apply classify_sentiment_negative_threshold. vm_compute. reflexivity.
Defined.

(** ** The scorers on strings, missing texts and other objects *)

Lemma classify_default_positive (p : Q) :
  classify_sentiment p default_threshold = py "positivo" ↔ (0.1 < p)%Q.
Proof.
  destruct class_names_distinct as (Hpn & Hpz & Hnz).
  unfold default_threshold.
  destruct (classify_sentiment_cases p 0.1)
    as [[H1 ->]|[(H1 & H2 & ->)|(H1 & H2 & ->)]]; settle_class.
Qed.

Lemma classify_default_negative (p : Q) :
  classify_sentiment p default_threshold = py "negativo" ↔ (p < -0.1)%Q.
Proof.
  destruct class_names_distinct as (Hpn & Hpz & Hnz).
  unfold default_threshold.
  destruct (classify_sentiment_cases p 0.1)
    as [[H1 ->]|[(H1 & H2 & ->)|(H1 & H2 & ->)]]; settle_class.
Qed.

Section ScorerExtras.

Variable str_lower : pystr → pystr.
Variable blob_polarity : pystr → Q.
Variable blob_subjectivity : pystr → Q.

Local Abbreviation score :=
  (analyze_with_textblob str_lower blob_polarity blob_subjectivity).
Local Abbreviation analyze :=
  (analyze_text str_lower blob_polarity blob_subjectivity).

(** The polarity of a string that is not empty, by the hits. *)
Lemma polarity_by_hits (c : N) (s : pystr) :
  score (PyStr (c :: s))
  = Ok {| tb_polarity :=
            adjusted_polarity (blob_polarity (c :: s))
              (lexicon_hits positive_words (split (str_lower (c :: s))))
              (lexicon_hits negative_words (split (str_lower (c :: s))));
          tb_subjectivity := blob_subjectivity (c :: s) |}.
Proof.
  rewrite analyze_with_textblob_on_str. cbv zeta.
  unfold positive_count, negative_count, adjusted_polarity.
  rewrite !count_is_lexicon_hits, py_min_Qmin, py_max_Qmax.
  set (np := lexicon_hits positive_words _).
  set (nn := lexicon_hits negative_words _).
  do 2 f_equal.
  destruct (Z.gtb_spec (Z.of_nat np) (Z.of_nat nn));
    destruct (decide (nn < np)%nat); try lia; [reflexivity|].
  destruct (Z.gtb_spec (Z.of_nat nn) (Z.of_nat np));
    destruct (decide (np < nn)%nat); try lia; reflexivity.
Qed.

(** X4. On a string that is not empty, whose baseline polarity is in
    [-1, 1], the lexicon moves the polarity only in its own direction: not
    below the baseline when the positive hits are more, and above it
    unless the baseline is 1 already; not above the baseline when the
    negative hits are more, and below it unless the baseline is -1
    already; not at all when the hits are as many. *)
Theorem analyze_with_textblob_adjustment (s : pystr) :
  s ≠ [] →
  (-1 <= blob_polarity s <= 1)%Q →
  ∃ scores,
    score (PyStr s) = Ok scores
    ∧ let positive := lexicon_hits positive_words (split (str_lower s)) in
      let negative := lexicon_hits negative_words (split (str_lower s)) in
      ((negative < positive)%nat →
       (blob_polarity s <= tb_polarity scores)%Q
       ∧ ((blob_polarity s < 1)%Q →
          (blob_polarity s < tb_polarity scores)%Q))
      ∧ ((positive < negative)%nat →
         (tb_polarity scores <= blob_polarity s)%Q
         ∧ ((-1 < blob_polarity s)%Q →
            (tb_polarity scores < blob_polarity s)%Q))
      ∧ (positive = negative → tb_polarity scores = blob_polarity s).
Proof.
  intros Hs Hbase. destruct s as [|c s]; [done|].
  eexists. split; [apply polarity_by_hits|].
  cbv zeta. cbn [tb_polarity]. unfold adjusted_polarity.
  set (np := lexicon_hits positive_words _).
  set (nn := lexicon_hits negative_words _).
  set (b := blob_polarity (c :: s)) in *.
  destruct (Q.min_spec 1 (b + 0.3)) as [[? Hmin]|[? Hmin]];
    destruct (Q.max_spec (-1) (b - 0.3)) as [[? Hmax]|[? Hmax]];
    repeat case_decide; repeat split; intros; try lia; lra.
Qed.

(** X5. The lexicon does not decide the class alone.  On a string with
    more positive than negative hits the class is positive when the
    baseline polarity is -0.1 or more, and is not positive when the
    baseline is -0.3 or less; with more negative than positive hits it is
    negative when the baseline is 0.1 or less, and is not negative when
    the baseline is 0.3 or more; with as many of each it is the class of
    the baseline.  (Between these bounds the class turns on the last
    digit of a rounded sum, and nothing is stated.) *)
Theorem analyze_text_class_by_hits
    (vader : option (pystr → vader_scores)) (s : pystr) :
  s ≠ [] →
  ∃ r,
    analyze vader (PyStr s) = Ok r
    ∧ let positive := lexicon_hits positive_words (split (str_lower s)) in
      let negative := lexicon_hits negative_words (split (str_lower s)) in
      ((negative < positive)%nat →
       ((-0.1 <= blob_polarity s)%Q → sentiment_class r = py "positivo")
       ∧ ((blob_polarity s <= -0.3)%Q → sentiment_class r ≠ py "positivo"))
      ∧ ((positive < negative)%nat →
         ((blob_polarity s <= 0.1)%Q → sentiment_class r = py "negativo")
         ∧ ((0.3 <= blob_polarity s)%Q →
            sentiment_class r ≠ py "negativo"))
      ∧ (positive = negative →
         sentiment_class r
         = classify_sentiment (blob_polarity s) default_threshold).
Proof.
  intros Hs. destruct s as [|c s]; [done|].
  destruct (analyze_with_vader_returns vader (PyStr (c :: s)) (text_str _))
    as [w Hw].
  eexists. split.
  { apply (analyze_text_record _ _ _ vader _ _ w (polarity_by_hits c s) Hw). }
  cbv zeta. cbn [sentiment_class tb_polarity]. unfold adjusted_polarity.
  set (np := lexicon_hits positive_words _).
  set (nn := lexicon_hits negative_words _).
  set (b := blob_polarity (c :: s)).
  split; [|split]; intros Hlt.
  - rewrite decide_True by done. rewrite classify_default_positive.
    rewrite Q.min_glb_lt_iff. split; [intros H; split; lra|].
    intros H [_ H']. lra.
  - rewrite decide_False by lia. rewrite decide_True by done.
    rewrite classify_default_negative.
    rewrite Q.max_lub_lt_iff. split; [intros H; split; lra|].
    intros H [_ H']. lra.
  - rewrite decide_False by lia. by rewrite decide_False by lia.
Qed.

(** X6. On a text that is empty or missing, [analyze_text] returns the
    neutral record: class ['neutro'], polarity and subjectivity 0.0 and
    the fallback scores of VADER, also when the VADER analyzer is
    present. *)
Theorem analyze_text_missing
    (vader : option (pystr → vader_scores)) (text : pyobj) :
  empty_or_missing text →
  analyze vader text
  = Ok {| text := text; sentiment_class := py "neutro";
          polarity := 0; subjectivity := 0;
          vader_compound := 0; vader_pos := 0; vader_neu := 1;
          vader_neg := 0 |}.
Proof.
  intros Hm.
  rewrite (analyze_text_record _ _ _ vader text
             {| tb_polarity := 0; tb_subjectivity := 0 |} vader_fallback).
  - reflexivity.
  - by apply analyze_with_textblob_missing.
  - destruct Hm as [->|[->| ->]]; reflexivity.
Qed.

(** X7. [analyze_text] raises exactly on a number other than zero, and
    what it raises is the [TypeError] of TextBlob; on every other object
    (a string, [None], [NaN], a zero) it returns a record. *)
Theorem analyze_text_raises
    (vader : option (pystr → vader_scores)) (text : pyobj) :
  (analyze vader text = Raise TypeError ↔ nonzero_number text)
  ∧ (∀ e, analyze vader text = Raise e → e = TypeError).
Proof.
  assert (Hok : ∀ t, is_text t → ∃ r, analyze vader t = Ok r).
  { intros t Ht.
    destruct (analyze_with_textblob_returns str_lower blob_polarity
                blob_subjectivity t Ht) as [p Hp].
    destruct (analyze_with_vader_returns vader t Ht) as [w Hw].
    eexists. exact (analyze_text_record _ _ _ vader t p w Hp Hw). }
  assert (Hnot : ∀ t, is_text t → ¬ nonzero_number t).
  { intros t Ht [(n & -> & _)|(x & -> & _)]; inversion Ht. }
  destruct text as [|s|x| |n].
  - destruct (Hok PyNone text_none) as [r Hr]. rewrite Hr.
    split; [split; [discriminate|intros H; by apply Hnot in H; [|constructor]]|].
    intros e [=].
  - destruct (Hok (PyStr s) (text_str s)) as [r Hr]. rewrite Hr.
    split; [split; [discriminate|intros H; by apply Hnot in H; [|constructor]]|].
    intros e [=].
  - unfold analyze_text, analyze_with_textblob, analyze_with_vader.
    cbn [truthy isna orb]. destruct (Qeq_bool x 0) eqn:Hx; cbn [negb orb].
    + cbn [mbind result_bind]. split; [|intros e [=]].
      split; [discriminate|].
      intros [(n & [=] & _)|(y & [= <-] & Hy)].
      apply Qeq_bool_iff in Hx. done.
    + cbn [mbind result_bind]. split; [|by intros e [= <-]].
      split; [|reflexivity]. intros _. right. exists x. split; [done|].
      intros H. apply Qeq_bool_iff in H. congruence.
  - destruct (Hok PyNaN text_nan) as [r Hr]. rewrite Hr.
    split; [split; [discriminate|intros H; by apply Hnot in H; [|constructor]]|].
    intros e [=].
  - unfold analyze_text, analyze_with_textblob, analyze_with_vader.
    cbn [truthy isna orb]. destruct (Z.eqb_spec n 0) as [->|Hn]; cbn [negb orb].
    + cbn [mbind result_bind]. split; [|intros e [=]].
      split; [discriminate|].
      intros [(m & [= <-] & Hm)|(y & [=] & _)]. done.
    + cbn [mbind result_bind]. split; [|by intros e [= <-]].
      split; [|reflexivity]. intros _. left. by exists n.
Qed.

End ScorerExtras.

Lemma analyze_with_textblob_adjustment_witness :
  ∃ scores,
    analyze_with_textblob lower_latin1 baseline_polarity baseline_subjectivity
      (PyStr (py "gosto muito")) = Ok scores
    ∧ (0 < tb_polarity scores)%Q.
Proof.
  destruct (analyze_with_textblob_adjustment lower_latin1 baseline_polarity
              baseline_subjectivity (py "gosto muito"))
    as (scores & Hscores & Hup & _ & _).
  - vm_compute. discriminate.
  - split; vm_compute; discriminate.
  - exists scores. split; [exact Hscores|].
    assert (Hhits : (lexicon_hits negative_words
                       (split (lower_latin1 (py "gosto muito")))
                     < lexicon_hits positive_words
                         (split (lower_latin1 (py "gosto muito"))))%nat)
      by (vm_compute; lia).
    destruct (Hup Hhits) as [_ Hstrict]. apply Hstrict.
    vm_compute. reflexivity.
Defined.

Lemma analyze_text_class_by_hits_witness :
  ∃ r,
    analyze_text lower_latin1 baseline_polarity baseline_subjectivity None
      (PyStr (py "odeio isso")) = Ok r
    ∧ sentiment_class r = py "negativo".
Proof.
  destruct (analyze_text_class_by_hits lower_latin1 baseline_polarity
              baseline_subjectivity None (py "odeio isso"))
    as (r & Hr & _ & Hdown & _).
  - vm_compute. discriminate.
  - exists r. split; [exact Hr|]. apply Hdown.
    + vm_compute. lia.
    + vm_compute. discriminate.
Defined.

Lemma analyze_text_missing_witness :
  analyze_text lower_latin1 baseline_polarity baseline_subjectivity
    (Some sample_vader) PyNaN
  = Ok {| text := PyNaN; sentiment_class := py "neutro";
          polarity := 0; subjectivity := 0;
          vader_compound := 0; vader_pos := 0; vader_neu := 1;
          vader_neg := 0 |}.
Proof. apply analyze_text_missing. right. right. reflexivity. Defined.

Lemma analyze_text_raises_witness :
  analyze_text lower_latin1 baseline_polarity baseline_subjectivity None
    (PyInt 5) = Raise TypeError.
Proof.
  apply (analyze_text_raises lower_latin1 baseline_polarity
           baseline_subjectivity None (PyInt 5)).
  left. exists 5. split; [reflexivity|discriminate].
Defined.

(** ** Joining the analysis to the frame by row label *)

Lemma position_lt (label : Z) (labels : list Z) (i : nat) :
  position label labels = Some i → labels !! i = Some label.
Proof.
  revert i. induction labels as [|l labels IH]; intros i; [discriminate|].
  cbn [position]. case_bool_decide as Hl.
  - intros [= <-]. by subst.
  - destruct (position label labels) as [k|]; [|discriminate].
    intros [= <-]. by apply IH.
Qed.

Lemma position_absent (label : Z) (labels : list Z) :
  label ∉ labels → position label labels = None.
Proof.
  induction labels as [|l labels IH]; intros Hout; [reflexivity|].
  cbn [position]. rewrite bool_decide_eq_false_2
    by (intros ->; apply Hout; left).
  rewrite IH; [reflexivity|]. intros H. apply Hout. by right.
Qed.

Lemma position_first (labels : list Z) (i : nat) (label : Z) :
  NoDup labels → labels !! i = Some label → position label labels = Some i.
Proof.
  revert i. induction labels as [|l labels IH]; intros i Hnd Hi;
    [discriminate|].
  apply NoDup_cons in Hnd as [Hout Hnd]. cbn [position].
  destruct i as [|i].
  - injection Hi as ->. by rewrite bool_decide_eq_true_2.
  - cbn in Hi. rewrite bool_decide_eq_false_2.
    + by rewrite (IH i Hnd Hi).
    + intros ->. apply Hout. by apply list_elem_of_lookup_2 in Hi.
Qed.

Lemma range_index_lookup (n i : nat) :
  (i < n)%nat → range_index n !! i = Some (Z.of_nat i).
Proof.
  intros Hi. unfold range_index. rewrite list_lookup_fmap.
  rewrite lookup_seq_lt by done. reflexivity.
Qed.

Lemma elem_of_range_index (n : nat) (label : Z) :
  label ∈ range_index n ↔ 0 <= label < Z.of_nat n.
Proof.
  unfold range_index. rewrite list_elem_of_fmap. split.
  - intros (i & -> & Hi). apply elem_of_seq in Hi. lia.
  - intros H. exists (Z.to_nat label). split; [lia|].
    apply elem_of_seq. lia.
Qed.

(** The place of a label among the fresh labels 0, 1, ... *)
Lemma position_range_index (n : nat) (label : Z) :
  position label (range_index n)
  = if decide (0 <= label < Z.of_nat n) then Some (Z.to_nat label) else None.
Proof.
  case_decide as Hl.
  - apply position_first; [apply NoDup_range_index|].
    rewrite range_index_lookup by lia. f_equal. lia.
  - apply position_absent. by rewrite elem_of_range_index.
Qed.

Lemma length_range_index (n : nat) : length (range_index n) = n.
Proof. unfold range_index. by rewrite length_fmap, length_seq. Qed.

Lemma reindex_lookup (old : list Z) (cells : list pyobj) (new : list Z)
    (i : nat) (label : Z) :
  new !! i = Some label →
  reindex old cells new !! i
  = Some match position label old with
         | Some k => default PyNaN (cells !! k)
         | None => PyNaN
         end.
Proof.
  intros Hi. unfold reindex.
  change (map ?f new) with (f <$> new).
  by rewrite list_lookup_fmap, Hi.
Qed.

Lemma length_reindex (old : list Z) (cells : list pyobj) (new : list Z) :
  length (reindex old cells new) = length new.
Proof. unfold reindex. apply length_map. Qed.

(** Moving a column to the labels it has changes nothing. *)
Lemma reindex_same (labels : list Z) (cells : list pyobj) :
  NoDup labels → length cells = length labels →
  reindex labels cells labels = cells.
Proof.
  intros Hnd Hlen. apply list_eq. intros i.
  destruct (labels !! i) as [l|] eqn:Hl.
  - rewrite (reindex_lookup _ _ _ _ _ Hl), (position_first _ _ _ Hnd Hl).
    destruct (lookup_lt_is_Some_2 cells i) as [c Hc].
    { rewrite Hlen. by apply lookup_lt_Some in Hl. }
    by rewrite Hc.
  - apply lookup_ge_None in Hl.
    rewrite (proj2 (lookup_ge_None _ _)) by (rewrite length_reindex; lia).
    symmetry. apply lookup_ge_None. lia.
Qed.

Lemma lookup_item_fmap {A B} (g : A → B) (k : string)
    (items : list (string * A)) :
  lookup_item k (map (λ c, (c.1, g c.2)) items) = g <$> lookup_item k items.
Proof.
  induction items as [|[k' v] items IH]; [reflexivity|].
  cbn [map lookup_item fst snd]. by case_bool_decide.
Qed.

Lemma lookup_item_app {A} (k : string) (items items' : list (string * A)) :
  lookup_item k (items ++ items')
  = match lookup_item k items with
    | Some v => Some v
    | None => lookup_item k items'
    end.
Proof.
  induction items as [|[k' v] items IH]; [reflexivity|].
  cbn [app lookup_item]. by case_bool_decide.
Qed.

Lemma lookup_item_absent {A} (k : string) (items : list (string * A)) :
  k ∉ items.*1 → lookup_item k items = None.
Proof.
  induction items as [|[k' v] items IH]; intros Hout; [reflexivity|].
  cbn [lookup_item]. rewrite bool_decide_eq_false_2.
  - apply IH. intros H. apply Hout. cbn. by right.
  - intros ->. apply Hout. cbn. left.
Qed.

Lemma filter_none {A} (P : A → Prop) `{∀ x, Decision (P x)} (l : list A) :
  (∀ x, x ∈ l → ¬ P x) ↔ filter P l = [].
Proof.
  induction l as [|x l IH].
  - split; [done|]. intros _ x Hx. by apply elem_of_nil in Hx.
  - rewrite filter_cons. split.
    + intros Hall. rewrite decide_False by (apply Hall; left).
      apply IH. intros y Hy. apply Hall. by right.
    + case_decide as Hx; [discriminate|].
      intros Hl y [->|Hy]%elem_of_cons; [done|]. by apply IH.
Qed.

Lemma well_formed_sentiment_frame (records : list analysis) :
  well_formed (sentiment_frame records).
Proof.
  unfold well_formed, sentiment_frame. cbn [columns index].
  rewrite length_range_index.
  repeat constructor; cbn [snd]; apply length_map.
Qed.

(** [pd.concat] of two frames with distinct row labels, whichever branch
    it takes: both are moved to the union of the labels. *)
Lemma concat_axis1_by_label (a b : DataFrame) :
  NoDup (index a) → NoDup (index b) → well_formed a → well_formed b →
  concat_axis1 a b
  = Ok {| index := index_union (index a) (index b);
          columns :=
            map (λ c, (c.1, reindex (index a) c.2
                              (index_union (index a) (index b))))
                (columns a)
            ++ map (λ c, (c.1, reindex (index b) c.2
                                 (index_union (index a) (index b))))
                   (columns b) |}.
Proof.
  intros Ha Hb Hwa Hwb. unfold concat_axis1. case_bool_decide as Heq.
  - assert (Hu : index_union (index a) (index b) = index a).
    { unfold index_union. rewrite <- Heq.
      rewrite (proj1 (filter_none _ _)); [apply app_nil_r|].
      intros l Hl Hout. done. }
    rewrite Hu. do 2 f_equal. f_equal.
    + symmetry. rewrite <- (map_id (columns a)) at 2.
      apply map_ext_Forall. eapply Forall_impl; [exact Hwa|].
      intros [k cells] Hlen. cbn in *. by rewrite reindex_same.
    + symmetry. rewrite <- (map_id (columns b)) at 2.
      apply map_ext_Forall. eapply Forall_impl; [exact Hwb|].
      intros [k cells] Hlen. cbn in *. rewrite Heq.
      by rewrite reindex_same.
  - rewrite !bool_decide_eq_true_2 by done. reflexivity.
Qed.

Section FrameExtras.

Variable str_lower : pystr → pystr.
Variable blob_polarity : pystr → Q.
Variable blob_subjectivity : pystr → Q.
Variable vader_analyzer : option (pystr → vader_scores).

Local Abbreviation analyze :=
  (analyze_text str_lower blob_polarity blob_subjectivity vader_analyzer).
Local Abbreviation each :=
  (analyze_each str_lower blob_polarity blob_subjectivity vader_analyzer).
Local Abbreviation frame :=
  (analyze_frame str_lower blob_polarity blob_subjectivity vader_analyzer).
Local Abbreviation run :=
  (analyze_dataframe str_lower blob_polarity blob_subjectivity vader_analyzer).

Lemma analyze_dataframe_returns (h : heap) (df : loc) (d d' : DataFrame)
    (text_column : string) :
  h !! df = Some d → frame d text_column = Ok d' →
  ∃ out, (run df text_column h).1 = Ok out
         ∧ (run df text_column h).2 !! out = Some d'.
Proof.
  intros Hd Hframe.
  pose proof (analyze_dataframe_run str_lower blob_polarity blob_subjectivity
                vader_analyzer h df d text_column Hd) as Hrun.
  rewrite Hframe in Hrun. destruct Hrun as (sdf & wt & ->).
  exists (length h + 3)%nat. split; [reflexivity|]. cbn [snd].
  change (h ++ [d; sdf; wt; d']) with (h ++ [d; sdf; wt] ++ [d']).
  rewrite app_assoc. apply list_lookup_middle.
  rewrite length_app. cbn [length]. lia.
Qed.

Lemma analyze_dataframe_raises (h : heap) (df : loc) (d : DataFrame)
    (text_column : string) (e : pyexc) :
  h !! df = Some d → frame d text_column = Raise e →
  (run df text_column h).1 = Raise e.
Proof.
  intros Hd Hframe.
  pose proof (analyze_dataframe_run str_lower blob_polarity blob_subjectivity
                vader_analyzer h df d text_column Hd) as Hrun.
  rewrite Hframe in Hrun. by destruct Hrun as (objects & ->).
Qed.

(** The analysis of a frame with distinct row labels and at least one
    row, every cell of the text column being a text. *)
Lemma analyze_frame_by_label (d : DataFrame) (text_column : string)
    (texts : list pyobj) :
  getitem d text_column = Ok texts → texts ≠ [] → Forall is_text texts →
  NoDup (index d) → well_formed d →
  ∃ records,
    Forall2 (λ t r, analyze t = Ok r) texts records
    ∧ frame d text_column
      = Ok {| index := index_union (index d) (range_index (length records));
              columns :=
                map (λ c, (c.1, reindex (index d) c.2
                    (index_union (index d) (range_index (length records)))))
                  (columns d)
                ++ map (λ c, (c.1, reindex (range_index (length records)) c.2
                    (index_union (index d) (range_index (length records)))))
                  (columns (sentiment_frame records)) |}.
Proof.
  intros Hget Hne Htexts Hnd Hwf.
  destruct (analyze_each_texts str_lower blob_polarity blob_subjectivity
              vader_analyzer texts Htexts) as [records Hrecords].
  exists records.
  pose proof (proj1 (analyze_each_returns _ _ _ _ _ _) Hrecords) as Hall.
  split; [exact Hall|].
  unfold analyze_frame. rewrite Hget. cbn [mbind result_bind].
  rewrite Hrecords. cbn [mbind result_bind].
  apply Forall2_length in Hall.
  rewrite drop_text_of_analyses
    by (intros ->; destruct texts; [done|discriminate]).
  cbn [mbind result_bind].
  rewrite concat_axis1_by_label; [reflexivity|done| |done|].
  - apply NoDup_range_index.
  - apply well_formed_sentiment_frame.
Qed.

(** X8. [analyze_dataframe] raises [KeyError] when the frame has no
    column of the given name. *)
Theorem analyze_dataframe_missing_column (h : heap) (df : loc)
    (d : DataFrame) (text_column : string) :
  h !! df = Some d →
  text_column ∉ column_names d →
  (run df text_column h).1 = Raise KeyError.
Proof.
  intros Hd Hcol. apply (analyze_dataframe_raises h df d); [done|].
  unfold analyze_frame, getitem.
  by rewrite lookup_item_absent.
Qed.

(** X9. [analyze_dataframe] raises [KeyError] on a frame without rows:
    the frame of no record has no ['text'] column to drop. *)
Theorem analyze_dataframe_no_rows (h : heap) (df : loc)
    (d : DataFrame) (text_column : string) :
  h !! df = Some d →
  index d = [] →
  well_formed d →
  text_column ∈ column_names d →
  (run df text_column h).1 = Raise KeyError.
Proof.
  intros Hd Hidx Hwf [cells Hcells]%getitem_column_names.
  apply (analyze_dataframe_raises h df d); [done|].
  apply analyze_frame_no_rows. rewrite Hcells. f_equal.
  apply getitem_in_columns in Hcells.
  pose proof (proj1 (Forall_forall _ _) Hwf _ Hcells) as Hlen.
  cbn in Hlen. rewrite Hidx in Hlen. by destruct cells.
Qed.

(** X10. On a frame with the fresh row labels 0, 1, ... and at least one
    row, whose texts are strings or missing, [analyze_dataframe] returns a
    frame with the same row labels and, after the columns of the input,
    the seven sentiment columns holding in each row the analysis of the
    text of that row. *)
Theorem analyze_dataframe_fresh_labels (h : heap) (df : loc)
    (d : DataFrame) (text_column : string) (texts : list pyobj) :
  h !! df = Some d →
  getitem d text_column = Ok texts →
  index d = range_index (length texts) →
  texts ≠ [] →
  Forall is_text texts →
  ∃ records out d',
    Forall2 (λ t r, analyze t = Ok r) texts records
    ∧ (run df text_column h).1 = Ok out
    ∧ (run df text_column h).2 !! out = Some d'
    ∧ index d' = index d
    ∧ columns d' = columns d ++ columns (sentiment_frame records).
Proof.
  intros Hd Hget Hidx Hne Htexts.
  destruct (analyze_frame_range_index str_lower blob_polarity
              blob_subjectivity vader_analyzer d text_column texts
              Hget Hidx Hne Htexts) as (records & Hall & Hframe).
  destruct (analyze_dataframe_returns h df d _ text_column Hd Hframe)
    as (out & Hout & Hd').
  exists records, out. eexists. done.
Qed.

(** X11. On a frame with distinct row labels and at least one row of
    texts, [analyze_dataframe] returns one row per label of the input and
    one more for each of the numbers 0, ..., n-1 that is not a label: it
    returns as many rows as it was given exactly when every such number
    is a label of the input. *)
Theorem analyze_dataframe_row_count (h : heap) (df : loc)
    (d : DataFrame) (text_column : string) (texts : list pyobj) :
  h !! df = Some d →
  getitem d text_column = Ok texts →
  texts ≠ [] →
  Forall is_text texts →
  NoDup (index d) →
  well_formed d →
  ∃ out d',
    (run df text_column h).1 = Ok out
    ∧ (run df text_column h).2 !! out = Some d'
    ∧ len d' = len d + Z.of_nat (length
        (filter (λ j, j ∉ index d) (range_index (length texts))))
    ∧ (len d' = len d ↔ ∀ j, 0 <= j < len d → j ∈ index d).
Proof.
  intros Hd Hget Hne Htexts Hnd Hwf.
  destruct (analyze_frame_by_label d text_column texts
              Hget Hne Htexts Hnd Hwf) as (records & Hall & Hframe).
  destruct (analyze_dataframe_returns h df d _ text_column Hd Hframe)
    as (out & Hout & Hd').
  exists out. eexists. split; [exact Hout|]. split; [exact Hd'|].
  apply Forall2_length in Hall. rewrite <- Hall.
  assert (Hlen : length texts = length (index d)).
  { apply getitem_in_columns in Hget.
    exact (proj1 (Forall_forall _ _) Hwf _ Hget). }
  unfold len. cbn [index]. unfold index_union. rewrite length_app.
  split; [lia|]. split.
  - intros H j Hj.
    assert (Hnil : filter (λ j, j ∉ index d) (range_index (length texts)) = []).
    { apply length_zero_iff_nil. lia. }
    apply filter_none with (x := j) in Hnil.
    + by apply dec_stable.
    + apply elem_of_range_index. lia.
  - intros H.
    rewrite (proj1 (filter_none _ _)); [cbn [length]; lia|].
    intros j Hj Hj'. apply Hj', H.
    apply elem_of_range_index in Hj. lia.
Qed.

(** X12. On a frame of texts in which a row label is repeated,
    [analyze_dataframe] raises the [InvalidIndexError] of [pd.concat]. *)
Theorem analyze_dataframe_repeated_label (h : heap) (df : loc)
    (d : DataFrame) (text_column : string) (texts : list pyobj) :
  h !! df = Some d →
  getitem d text_column = Ok texts →
  texts ≠ [] →
  Forall is_text texts →
  ¬ NoDup (index d) →
  (run df text_column h).1 = Raise InvalidIndexError.
Proof.
  intros Hd Hget Hne Htexts Hdup.
  apply (analyze_dataframe_raises h df d); [done|].
  destruct (analyze_each_texts str_lower blob_polarity blob_subjectivity
              vader_analyzer texts Htexts) as [records Hrecords].
  unfold analyze_frame. rewrite Hget. cbn [mbind result_bind].
  rewrite Hrecords. cbn [mbind result_bind].
  pose proof (proj1 (analyze_each_returns _ _ _ _ _ _) Hrecords) as Hall.
  apply Forall2_length in Hall.
  rewrite drop_text_of_analyses
    by (intros ->; destruct texts; [done|discriminate]).
  cbn [mbind result_bind]. unfold concat_axis1.
  rewrite bool_decide_eq_false_2.
  - by rewrite (bool_decide_eq_false_2 (NoDup (index d))).
  - intros Heq. apply Hdup. rewrite Heq. apply NoDup_range_index.
Qed.

(** X13. On a frame with distinct row labels and at least one row of
    texts, [analyze_dataframe] attaches the analysis by row label, not by
    position: each row of the input keeps its own text, and its class is
    that of the text whose position is the label of the row ([NaN] when
    the label is not a position). *)
Theorem analyze_dataframe_joins_by_label (h : heap) (df : loc)
    (d : DataFrame) (text_column : string) (texts : list pyobj) :
  h !! df = Some d →
  getitem d text_column = Ok texts →
  texts ≠ [] →
  Forall is_text texts →
  NoDup (index d) →
  well_formed d →
  "sentiment_class"%string ∉ column_names d →
  ∃ records out d' texts' classes',
    Forall2 (λ t r, analyze t = Ok r) texts records
    ∧ (run df text_column h).1 = Ok out
    ∧ (run df text_column h).2 !! out = Some d'
    ∧ getitem d' text_column = Ok texts'
    ∧ getitem d' "sentiment_class" = Ok classes'
    ∧ ∀ i label, index d !! i = Some label →
        index d' !! i = Some label
        ∧ texts' !! i = texts !! i
        ∧ classes' !! i = Some (class_at_label records label).
Proof.
  intros Hd Hget Hne Htexts Hnd Hwf Hclass.
  destruct (analyze_frame_by_label d text_column texts
              Hget Hne Htexts Hnd Hwf) as (records & Hall & Hframe).
  destruct (analyze_dataframe_returns h df d _ text_column Hd Hframe)
    as (out & Hout & Hd').
  set (labels := index_union (index d) (range_index (length records))) in *.
  exists records, out. eexists. eexists (reindex (index d) texts labels).
  eexists (reindex (range_index (length records))
             (map (λ r, PyStr (sentiment_class r)) records) labels).
  split; [exact Hall|]. split; [exact Hout|]. split; [exact Hd'|].
  assert (Htext : lookup_item text_column (columns d) = Some texts).
  { unfold getitem in Hget.
    destruct (lookup_item text_column (columns d)); by inversion Hget. }
  split.
  { unfold getitem. cbn [columns].
    rewrite lookup_item_app.
    rewrite (lookup_item_fmap (λ cells, reindex (index d) cells labels)).
    by rewrite Htext. }
  split.
  { unfold getitem. cbn [columns].
    rewrite lookup_item_app.
    rewrite (lookup_item_fmap (λ cells, reindex (index d) cells labels)).
    by rewrite (lookup_item_absent _ _ Hclass). }
  intros i label Hi. cbn [index].
  assert (Hlabel : labels !! i = Some label).
  { unfold labels, index_union. by apply lookup_app_l_Some. }
  split; [exact Hlabel|]. split.
  - rewrite (reindex_lookup _ _ _ _ _ Hlabel), (position_first _ _ _ Hnd Hi).
    assert (Hlen : length texts = length (index d)).
    { apply getitem_in_columns in Hget.
      exact (proj1 (Forall_forall _ _) Hwf _ Hget). }
    destruct (lookup_lt_is_Some_2 texts i) as [t Ht].
    { rewrite Hlen. by apply lookup_lt_Some in Hi. }
    by rewrite Ht.
  - rewrite (reindex_lookup _ _ _ _ _ Hlabel), position_range_index.
    f_equal. unfold class_at_label.
    change (map ?f records) with (f <$> records).
    case_decide as Hin.
    + rewrite decide_True by lia. rewrite list_lookup_fmap.
      destruct (lookup_lt_is_Some_2 records (Z.to_nat label)) as [r Hr];
        [lia|]. by rewrite Hr.
    + case_decide as Hpos; [|reflexivity].
      rewrite (proj2 (lookup_ge_None _ _)); [reflexivity|lia].
Qed.

End FrameExtras.

(** *** Concrete runs of [analyze_dataframe] *)

Lemma analyze_dataframe_missing_column_witness :
  (analyze_dataframe lower_latin1 baseline_polarity baseline_subjectivity
     None 0%nat "cleaned" [sample_frame]).1 = Raise KeyError.
Proof.
  apply (analyze_dataframe_missing_column lower_latin1 baseline_polarity
           baseline_subjectivity None [sample_frame] 0%nat sample_frame).
  - reflexivity.
  - by_computation.
Defined.

Lemma analyze_dataframe_no_rows_witness :
  (analyze_dataframe lower_latin1 baseline_polarity baseline_subjectivity
     None 0%nat "processed_text" [emptied_frame]).1 = Raise KeyError.
Proof.
  apply (analyze_dataframe_no_rows lower_latin1 baseline_polarity
           baseline_subjectivity None [emptied_frame] 0%nat emptied_frame).
  - reflexivity.
  - reflexivity.
  - repeat constructor.
  - by_computation.
Defined.

Lemma analyze_dataframe_fresh_labels_witness :
  ∃ records out d',
    Forall2 (λ t r, analyze_text lower_latin1 baseline_polarity
                      baseline_subjectivity None t = Ok r)
      [PyStr (py "produto bom"); PyStr (py "chegou prazo");
       PyStr (py "produto ruim")] records
    ∧ (analyze_dataframe lower_latin1 baseline_polarity baseline_subjectivity
         None 0%nat "processed_text" [sample_frame]).1 = Ok out
    ∧ (analyze_dataframe lower_latin1 baseline_polarity baseline_subjectivity
         None 0%nat "processed_text" [sample_frame]).2 !! out = Some d'
    ∧ index d' = index sample_frame
    ∧ columns d' = columns sample_frame ++ columns (sentiment_frame records).
Proof.
  apply (analyze_dataframe_fresh_labels lower_latin1 baseline_polarity
           baseline_subjectivity None [sample_frame] 0%nat sample_frame
           "processed_text").
  - reflexivity.
  - reflexivity.
  - reflexivity.
  - discriminate.
  - repeat constructor.
Defined.

Lemma analyze_dataframe_row_count_witness :
  ∃ out d',
    (analyze_dataframe lower_latin1 baseline_polarity baseline_subjectivity
       None 0%nat "processed_text" [filtered_frame]).1 = Ok out
    ∧ (analyze_dataframe lower_latin1 baseline_polarity baseline_subjectivity
         None 0%nat "processed_text" [filtered_frame]).2 !! out = Some d'
    ∧ len d' = 3.
Proof.
  destruct (analyze_dataframe_row_count lower_latin1 baseline_polarity
              baseline_subjectivity None [filtered_frame] 0%nat filtered_frame
              "processed_text"
              [PyStr (py "produto bom"); PyStr (py "produto ruim")])
    as (out & d' & Hout & Hd' & Hlen & _).
  - reflexivity.
  - reflexivity.
  - discriminate.
  - repeat constructor.
  - by_computation.
  - repeat constructor.
  - exists out, d'. split; [exact Hout|]. split; [exact Hd'|].
    rewrite Hlen. vm_compute. reflexivity.
Defined.

Lemma analyze_dataframe_repeated_label_witness :
  (analyze_dataframe lower_latin1 baseline_polarity baseline_subjectivity
     None 0%nat "processed_text" [repeated_frame]).1
  = Raise InvalidIndexError.
Proof.
  apply (analyze_dataframe_repeated_label lower_latin1 baseline_polarity
           baseline_subjectivity None [repeated_frame] 0%nat repeated_frame
           "processed_text"
           [PyStr (py "produto bom"); PyStr (py "produto ruim")]).
  - reflexivity.
  - reflexivity.
  - discriminate.
  - repeat constructor.
  - by_computation.
Defined.

Lemma analyze_dataframe_joins_by_label_witness :
  ∃ records out d' texts' classes',
    Forall2 (λ t r, analyze_text lower_latin1 baseline_polarity
                      baseline_subjectivity None t = Ok r)
      [PyStr (py "produto bom"); PyStr (py "produto ruim")] records
    ∧ (analyze_dataframe lower_latin1 baseline_polarity baseline_subjectivity
         None 0%nat "processed_text" [reordered_frame]).1 = Ok out
    ∧ (analyze_dataframe lower_latin1 baseline_polarity baseline_subjectivity
         None 0%nat "processed_text" [reordered_frame]).2 !! out = Some d'
    ∧ getitem d' "processed_text" = Ok texts'
    ∧ getitem d' "sentiment_class" = Ok classes'
    ∧ ∀ i label, index reordered_frame !! i = Some label →
        index d' !! i = Some label
        ∧ texts' !! i
          = [PyStr (py "produto bom"); PyStr (py "produto ruim")] !! i
        ∧ classes' !! i = Some (class_at_label records label).
Proof.
  apply (analyze_dataframe_joins_by_label lower_latin1 baseline_polarity
           baseline_subjectivity None [reordered_frame] 0%nat reordered_frame
           "processed_text").
  - reflexivity.
  - reflexivity.
  - discriminate.
  - repeat constructor.
  - by_computation.
  - repeat constructor.
  - by_computation.
Defined.

(** In [reordered_frame] the text 'produto bom' is in the row labelled 1
    and gets the class of the second text. *)
Example analyze_dataframe_of_reordered_frame :
  let r := analyze_dataframe lower_latin1 baseline_polarity
             baseline_subjectivity None 0%nat "processed_text"
             [reordered_frame] in
  match r.1 with
  | Ok out =>
      match r.2 !! out with
      | Some d' =>
          index d' = [1; 0]
          ∧ getitem d' "processed_text"
            = Ok [PyStr (py "produto bom"); PyStr (py "produto ruim")]
          ∧ getitem d' "sentiment_class"
            = Ok [PyStr (py "negativo"); PyStr (py "positivo")]
      | None => False
      end
  | Raise _ => False
  end.
Proof. vm_compute. repeat split. Qed.

(** ** What the summary raises, and what it counts *)

Lemma loc_getitem_missing_column (d : DataFrame) (label : Z)
    (col : string) :
  col ∉ column_names d → loc_getitem d (Some label) col = Raise KeyError.
Proof.
  intros Hcol. unfold loc_getitem, getitem.
  by rewrite lookup_item_absent.
Qed.

Section SummaryExtras.

Variable np_sqrt : Q → Q.

Local Abbreviation summarize := (get_sentiment_summary np_sqrt).

(** The total, the counts and the percentages of a summary. *)
Lemma summary_fields (d : DataFrame) (classes : list pyobj) (s : summary) :
  getitem d "sentiment_class" = Ok classes →
  summarize d = Ok s →
  total_texts s = len d
  ∧ sentiment_counts s = value_counts classes
  ∧ sentiment_percentages s
    = (λ x, x * 100)%Q <$> value_counts_normalized classes.
Proof.
  intros Hclasses. unfold get_sentiment_summary.
  case_bool_decide; [|discriminate].
  rewrite Hclasses. cbn [mbind result_bind].
  destruct (getitem d "polarity") as [polarities|e];
    cbn [mbind result_bind]; [|discriminate].
  destruct (getitem d "subjectivity") as [subjectivities|e];
    cbn [mbind result_bind]; [|discriminate].
  destruct (len d >? 0).
  - destruct (loc_getitem d (idxmax (index d) polarities) "text");
      cbn [mbind result_bind]; [|discriminate].
    destruct (loc_getitem d (idxmin (index d) polarities) "text");
      cbn [mbind result_bind]; [|discriminate].
    intros [= <-]. done.
  - cbn [mbind result_bind]. intros [= <-]. done.
Qed.

(** X14. What [get_sentiment_summary] raises for a missing column.
    Without a ['sentiment_class'] column it raises [ValueError], whatever
    else the frame has or lacks; with that column, a missing ['polarity']
    or ['subjectivity'] column makes it raise [KeyError]; and with these
    three columns, at least one row and a number for every polarity, a
    missing ['text'] column makes it raise [KeyError]. *)
Theorem get_sentiment_summary_errors (d : DataFrame) :
  (("sentiment_class"%string ∉ column_names d) →
   summarize d = Raise ValueError)
  ∧ ("sentiment_class"%string ∈ column_names d →
     ("polarity"%string ∉ column_names d)
     ∨ ("subjectivity"%string ∉ column_names d) →
     summarize d = Raise KeyError)
  ∧ (∀ polarities,
       "sentiment_class"%string ∈ column_names d →
       "subjectivity"%string ∈ column_names d →
       getitem d "polarity" = Ok polarities →
       index d ≠ [] →
       length polarities = length (index d) →
       Forall is_number polarities →
       ("text"%string ∉ column_names d) →
       summarize d = Raise KeyError).
Proof.
  split; [|split].
  - intros Hclass. unfold get_sentiment_summary.
    by rewrite bool_decide_eq_false_2.
  - intros Hclass Hmissing. unfold get_sentiment_summary.
    rewrite bool_decide_eq_true_2 by done.
    destruct (proj1 (getitem_column_names _ _) Hclass) as [classes ->].
    cbn [mbind result_bind].
    destruct (getitem d "polarity") as [polarities|e] eqn:Hpol;
      cbn [mbind result_bind].
    2:{ unfold getitem in Hpol.
        destruct (lookup_item "polarity" (columns d)); [done|].
        by injection Hpol as <-. }
    destruct Hmissing as [Hmissing|Hmissing].
    { exfalso. apply Hmissing, getitem_column_names. by exists polarities. }
    unfold getitem at 1. by rewrite lookup_item_absent.
  - intros polarities Hclass Hsub Hpol Hrows Hlen Hnum Htext.
    unfold get_sentiment_summary.
    rewrite bool_decide_eq_true_2 by done.
    destruct (proj1 (getitem_column_names _ _) Hclass) as [classes ->].
    destruct (proj1 (getitem_column_names _ _) Hsub) as [subjectivities ->].
    rewrite Hpol. cbn [mbind result_bind].
    assert (Hpos : (len d >? 0) = true).
    { unfold len. destruct (index d); [done|]. cbn [length].
      rewrite Z.gtb_ltb. apply Z.ltb_lt. lia. }
    rewrite Hpos.
    destruct (idxmax_first_maximum (index d) polarities)
      as (i & label & -> & _); [done| |done|].
    { intros ->. destruct (index d); [done|discriminate]. }
    by rewrite loc_getitem_missing_column.
Qed.

(** X15. Whenever [get_sentiment_summary] returns, the total is the
    number of rows, while the counts leave out the rows whose class is
    missing and the percentages are shares of the rows that have a class:
    the counts add up to the number of such rows, each percentage is 100
    times the count over that number, and the percentages add up to 100
    as soon as one row has a class. *)
Theorem get_sentiment_summary_classified_rows (d : DataFrame)
    (classes : list pyobj) (s : summary) :
  getitem d "sentiment_class" = Ok classes →
  summarize d = Ok s →
  let classified := Z.of_nat (length (filter (λ c, isna c = false) classes)) in
  total_texts s = len d
  ∧ sum_counts (sentiment_counts s) = classified
  ∧ (∀ key n, sentiment_counts s !! key = Some n →
       ∃ p, sentiment_percentages s !! key = Some p
            ∧ (p == 100 * inject_Z n / inject_Z classified)%Q)
  ∧ (0 < classified → (sum_values (sentiment_percentages s) == 100)%Q).
Proof.
  intros Hclasses Hs classified.
  destruct (summary_fields d classes s Hclasses Hs) as (-> & -> & ->).
  assert (Hsum : sum_counts (value_counts classes) = classified)
    by apply sum_counts_value_counts.
  split; [reflexivity|]. split; [exact Hsum|]. split.
  - intros key n Hkey. unfold value_counts_normalized.
    rewrite !lookup_fmap, Hkey, Hsum.
    cbn [fmap option_fmap option_map]. eexists. split; [reflexivity|].
    unfold Qdiv. ring.
  - intros Hpos. unfold value_counts_normalized.
    rewrite sum_values_percentages, Hsum.
    field. intros H. unfold Qeq in H. cbn in H. lia.
Qed.

End SummaryExtras.

Lemma get_sentiment_summary_errors_witness :
  get_sentiment_summary sqrt_stub sample_frame = Raise ValueError.
Proof.
  apply (proj1 (get_sentiment_summary_errors sqrt_stub sample_frame)).
  by_computation.
Defined.

Lemma get_sentiment_summary_classified_rows_witness :
  ∃ s,
    get_sentiment_summary sqrt_stub misaligned_frame = Ok s
    ∧ total_texts s = 3
    ∧ sum_counts (sentiment_counts s) = 2
    ∧ (sum_values (sentiment_percentages s) == 100)%Q.
Proof.
  destruct (get_sentiment_summary sqrt_stub misaligned_frame) as [s|e] eqn:Hs;
    [|vm_compute in Hs; discriminate].
  exists s. split; [reflexivity|].
  destruct (get_sentiment_summary_classified_rows sqrt_stub misaligned_frame
              [PyStr (py "positivo"); PyNaN; PyStr (py "negativo")] s
              eq_refl Hs) as (Htotal & Hsum & _ & Hpct).
  split; [exact Htotal|]. split; [exact Hsum|].
  apply Hpct. vm_compute. reflexivity.
Defined.

(** * The text preprocessor *)

(** ** What the substitutions delete *)

Lemma Forall_of_sublist {A} (P : A → Prop) (l k : list A) :
  sublist l k → Forall P k → Forall P l.
Proof.
  induction 1 as [|x l k _ IH|x l k _ IH]; intros Hk; [done| |].
  - apply Forall_cons in Hk as [Hx Hk]. constructor; auto.
  - apply Forall_cons in Hk as [_ Hk]. auto.
Qed.

Lemma sub_urls_sublist (skip : nat) (run : bool) (s : pystr) :
  sublist (sub_urls skip run s) s.
Proof.
  revert skip run. induction s as [|c r IH]; intros skip run; [constructor|].
  cbn [sub_urls]. destruct skip as [|k]; [|by constructor].
  destruct (run && url_char c); [by constructor|].
  destruct (match_url (c :: r)); by constructor.
Qed.

Lemma lstrip_sublist (s : pystr) : sublist (lstrip s) s.
Proof.
  induction s as [|c r IH]; [constructor|]. cbn [lstrip].
  destruct (isspace c); [by constructor|reflexivity].
Qed.

Lemma sublist_of_rev {A} (l k : list A) : sublist l k → sublist (rev l) (rev k).
Proof.
  induction 1 as [|x l k _ IH|x l k _ IH]; cbn [rev]; [constructor| |].
  - apply sublist_app; [exact IH|reflexivity].
  - by apply sublist_inserts_r.
Qed.

Lemma strip_sublist (s : pystr) : sublist (strip s) s.
Proof.
  unfold strip. transitivity (lstrip s); [|apply lstrip_sublist].
  rewrite <- (rev_involutive (lstrip s)) at 2.
  apply sublist_of_rev, lstrip_sublist.
Qed.

Lemma list_filter_sublist {A} (f : A → bool) (l : list A) :
  sublist (List.filter f l) l.
Proof.
  induction l as [|x l IH]; [constructor|]. cbn [List.filter].
  destruct (f x); by constructor.
Qed.

(** The characters of a string that are not white space. *)
Lemma sub_spaces_not_space (run : bool) (s : pystr) :
  filter (λ c, isspace c = false) (sub_spaces run s)
  = filter (λ c, isspace c = false) s.
Proof.
  revert run. induction s as [|c r IH]; intros run; [reflexivity|].
  cbn [sub_spaces]. unfold pystr in *. destruct (isspace c) eqn:Hc.
  - rewrite (filter_cons _ c), decide_False by congruence.
    destruct run; cbv iota; [apply IH|].
    rewrite filter_cons, decide_False by (by vm_compute). apply IH.
  - rewrite !filter_cons, !decide_True by done. f_equal. apply IH.
Qed.

Lemma filter_of_sublist {A} (P : A → Prop) `{∀ x, Decision (P x)}
    (l k : list A) :
  sublist l k → sublist (filter P l) (filter P k).
Proof.
  induction 1 as [|x l k _ IH|x l k _ IH]; [constructor| |].
  - rewrite !filter_cons. case_decide; [by constructor|done].
  - rewrite filter_cons. case_decide; [by constructor|done].
Qed.

Section CleanText.

Variable str_lower : pystr → pystr.
Variable is_word : N → bool.
Variable is_digit : N → bool.

Local Abbreviation clean := (clean_text str_lower is_word is_digit).

Lemma sub_tags_sublist (marker : N) (run : bool) (s : pystr) :
  sublist (sub_tags is_word marker run s) s.
Proof.
  revert run. induction s as [|c r IH]; intros run; [constructor|].
  cbn [sub_tags]. destruct (run && is_word c); [by constructor|].
  destruct ((c =? marker)%N && _); by constructor.
Qed.

Lemma sub_numbers_sublist (prev : option N) (skip : nat) (s : pystr) :
  sublist (sub_numbers is_word is_digit prev skip s) s.
Proof.
  revert prev skip. induction s as [|c r IH]; intros prev skip;
    [constructor|].
  cbn [sub_numbers]. destruct skip as [|k]; [|by constructor].
  destruct (match_number is_word is_digit prev (c :: r)); by constructor.
Qed.

Lemma sub_spaces_clean (run : bool) (s : pystr) :
  Forall (λ c, keep_char c = true) s →
  Forall (λ c, clean_char c = true) (sub_spaces run s).
Proof.
  intros Hs. revert run. induction Hs as [|c r Hc _ IH]; intros run;
    [constructor|].
  cbn [sub_spaces]. destruct (isspace c) eqn:Hsp.
  - destruct run; [apply IH|]. constructor; [reflexivity|apply IH].
  - constructor; [|apply IH].
    unfold keep_char in Hc. rewrite Hsp, orb_false_r in Hc.
    unfold clean_char. by rewrite Hc.
Qed.

(** X16. Whatever it is given, [clean_text] returns only letters of
    [a-z], [A-Z] and of the range from U+00C0 to U+00FF, digits of [0-9]
    and spaces; in particular no punctuation, no [@] or [#] and no white
    space other than the space. *)
Theorem clean_text_alphabet (text : pyobj) :
  Forall (λ c, clean_char c = true) (clean text).
Proof.
  destruct text as [|s| | |]; try constructor.
  unfold clean_text. cbv zeta.
  eapply Forall_of_sublist; [apply strip_sublist|].
  apply sub_spaces_clean.
  eapply Forall_of_sublist; [apply sub_numbers_sublist|].
  apply Forall_forall. intros c Hc.
  apply list_elem_of_In, filter_In in Hc as [_ Hc]. exact Hc.
Qed.

(** X17. [clean_text] only deletes characters and turns white space into
    spaces: what it returns, white space aside, is a subsequence of the
    lower-cased text. *)
Theorem clean_text_deletes_only (s : pystr) :
  sublist (filter (λ c, isspace c = false) (clean (PyStr s))) (str_lower s).
Proof.
  unfold clean_text. cbv zeta.
  etransitivity; [apply filter_of_sublist, strip_sublist|].
  rewrite sub_spaces_not_space.
  etransitivity; [apply sublist_filter|].
  etransitivity; [apply sub_numbers_sublist|].
  etransitivity; [apply list_filter_sublist|].
  etransitivity; [apply sub_tags_sublist|].
  etransitivity; [apply sub_tags_sublist|].
  apply sub_urls_sublist.
Qed.

(** *** White space after cleaning *)

Lemma sub_spaces_runs (run : bool) (s : pystr) :
  (run = true → ∀ c r, sub_spaces run s = c :: r → isspace c = false)
  ∧ (∀ pre c1 c2 post, sub_spaces run s = pre ++ c1 :: c2 :: post →
       isspace c1 = true → isspace c2 = false).
Proof.
  revert run. induction s as [|c r IH]; intros run; cbn [sub_spaces].
  - split; [discriminate|]. intros pre c1 c2 post H. by destruct pre.
  - destruct (isspace c) eqn:Hc; [destruct run|].
    + apply IH.
    + split; [discriminate|].
      intros [|p pre] c1 c2 post Heq Hc1; cbn [app] in Heq;
        injection Heq as <- Heq.
      * exact (proj1 (IH true) eq_refl c2 post Heq).
      * exact (proj2 (IH true) pre c1 c2 post Heq Hc1).
    + split.
      * intros _ c' r' [= <- _]. exact Hc.
      * intros [|p pre] c1 c2 post Heq Hc1; cbn [app] in Heq;
          injection Heq as <- Heq.
        -- congruence.
        -- exact (proj2 (IH false) pre c1 c2 post Heq Hc1).
Qed.

Lemma lstrip_head (s : pystr) (c : N) (r : pystr) :
  lstrip s = c :: r → isspace c = false.
Proof.
  induction s as [|c' s IH]; [discriminate|]. cbn [lstrip].
  destruct (isspace c') eqn:Hc; [exact IH|]. by intros [= <- _].
Qed.

Lemma lstrip_suffix (s : pystr) : ∃ k, s = k ++ lstrip s.
Proof.
  induction s as [|c s [k IH]]; [by exists []|]. cbn [lstrip].
  destruct (isspace c); [|by exists []].
  exists (c :: k). cbn [app]. by f_equal.
Qed.

Lemma strip_prefix (s : pystr) : ∃ k, lstrip s = strip s ++ k.
Proof.
  destruct (lstrip_suffix (rev (lstrip s))) as [k Hk].
  exists (rev k). unfold strip.
  by rewrite <- rev_app_distr, <- Hk, rev_involutive.
Qed.

(** [strip] leaves no white space at either end and adds no run of white
    space. *)
Lemma strip_spacing (u : pystr) :
  (∀ pre c1 c2 post, u = pre ++ c1 :: c2 :: post →
     isspace c1 = true → isspace c2 = false) →
  (∀ c r, strip u = c :: r → isspace c = false)
  ∧ (∀ r c, strip u = r ++ [c] → isspace c = false)
  ∧ (∀ pre c1 c2 post, strip u = pre ++ c1 :: c2 :: post →
       isspace c1 = true → isspace c2 = false).
Proof.
  intros Hu.
  destruct (lstrip_suffix u) as [a Ha]. destruct (strip_prefix u) as [b Hb].
  split; [|split].
  - intros c r Hc. rewrite Hc in Hb. exact (lstrip_head u c (r ++ b) Hb).
  - intros r c Hc. unfold strip in Hc. apply (f_equal (@rev N)) in Hc.
    rewrite rev_involutive, rev_app_distr in Hc.
    exact (lstrip_head _ _ _ Hc).
  - intros pre c1 c2 post Hc. apply (Hu (a ++ pre) c1 c2 (post ++ b)).
    transitivity (a ++ lstrip u); [exact Ha|].
    rewrite Hb, Hc. by rewrite <- !app_assoc.
Qed.

(** X18. What [clean_text] returns neither starts nor ends with white
    space, and no white space in it is followed by white space. *)
Theorem clean_text_spacing (text : pyobj) :
  (∀ c r, clean text = c :: r → isspace c = false)
  ∧ (∀ r c, clean text = r ++ [c] → isspace c = false)
  ∧ (∀ pre c1 c2 post, clean text = pre ++ c1 :: c2 :: post →
       isspace c1 = true → isspace c2 = false).
Proof.
  destruct text as [|s| | |].
  2:{ unfold clean_text. cbv zeta. apply strip_spacing, sub_spaces_runs. }
  all: apply (strip_spacing []); intros pre c1 c2 post H; by destruct pre.
Qed.

End CleanText.

(** ** The steps after cleaning *)

Section PreprocessText.

Variable str_lower : pystr → pystr.
Variable is_word : N → bool.
Variable is_digit : N → bool.
Variable word_tokenize : pystr → list pystr.
Variable stop_words : gset pystr.
Variable stem : pystr → pystr.

Local Abbreviation clean := (clean_text str_lower is_word is_digit).
Local Abbreviation pre :=
  (preprocess_text str_lower is_word is_digit word_tokenize stop_words stem).

(** X19. When nothing is left of a text after cleaning, as of a text
    that is missing or is not a string, [preprocess_text] returns the
    empty string whatever its two flags, the tokenizer, the stop words and
    the stemmer. *)
Theorem preprocess_text_nothing_left (text : pyobj)
    (remove_stopwords_flag apply_stemming : bool) :
  clean text = [] →
  pre text remove_stopwords_flag apply_stemming = [].
Proof.
  intros Hclean. unfold preprocess_text. rewrite Hclean.
  by destruct remove_stopwords_flag, apply_stemming.
Qed.

End PreprocessText.

Lemma preprocess_text_nothing_left_witness :
  preprocess_text lower_latin1 word_latin1 ascii_digit sample_tokenize
    sample_stop_words sample_stem (PyStr (py "@loja 2024 :)")) true true = [].
Proof.
  apply (preprocess_text_nothing_left lower_latin1 word_latin1 ascii_digit
           sample_tokenize sample_stop_words sample_stem).
  vm_compute. reflexivity.
Defined.

(** ** The frame that [preprocess_dataframe] returns *)

Lemma lookup_item_set_column (d : DataFrame) (label : string)
    (cells : list pyobj) :
  lookup_item label (columns (set_column d label cells)) = Some cells.
Proof.
  unfold set_column, column_names. cbn [columns]. case_bool_decide as Hin.
  - induction (columns d) as [|[k v] cols IH];
      [by apply elem_of_nil in Hin|].
    cbn [map fst]. case_bool_decide as Hk; cbn [lookup_item].
    + by rewrite bool_decide_eq_true_2.
    + rewrite bool_decide_eq_false_2 by done. apply IH.
      cbn in Hin. by apply elem_of_cons in Hin as [->|Hin].
  - rewrite lookup_item_app, lookup_item_absent by done.
    cbn [lookup_item]. by rewrite bool_decide_eq_true_2.
Qed.

Lemma lookup_item_set_column_ne (d : DataFrame) (label k : string)
    (cells : list pyobj) :
  k ≠ label →
  lookup_item k (columns (set_column d label cells))
  = lookup_item k (columns d).
Proof.
  intros Hk. unfold set_column. cbn [columns]. case_bool_decide as Hin.
  - clear Hin. induction (columns d) as [|[k' v] cols IH]; [reflexivity|].
    cbn [map fst]. case_bool_decide as Hk'; cbn [lookup_item].
    + subst k'. by rewrite !bool_decide_eq_false_2 by done.
    + by rewrite IH.
  - rewrite lookup_item_app.
    destruct (lookup_item k (columns d)); [reflexivity|].
    cbn [lookup_item]. by rewrite bool_decide_eq_false_2.
Qed.

Lemma select_sublist {A} (mask : list bool) (l : list A) :
  sublist (select mask l) l.
Proof.
  revert l. induction mask as [|b mask IH]; intros [|x l]; cbn [select];
    try apply sublist_nil_l.
  destruct b; by constructor.
Qed.

Lemma length_select {A B} (mask : list bool) (l : list A) (k : list B) :
  length l = length k → length (select mask l) = length (select mask k).
Proof.
  revert l k. induction mask as [|b mask IH]; intros [|x l] [|y k] H;
    try done.
  injection H as H. cbn [select]. destruct b; cbn [length]; auto.
Qed.

Lemma select_map {A B} (f : A → B) (mask : list bool) (l : list A) :
  select mask (map f l) = map f (select mask l).
Proof.
  revert l. induction mask as [|b mask IH]; intros [|x l]; try done.
  cbn [map select]. destruct b; cbn [map]; by rewrite IH.
Qed.

Lemma select_filter {A} (P : A → Prop) `{∀ x, Decision (P x)} (l : list A) :
  select (map (λ x, bool_decide (P x)) l) l = filter P l.
Proof.
  induction l as [|x l IH]; [reflexivity|].
  cbn [map select]. rewrite filter_cons, IH.
  case_bool_decide; [by rewrite decide_True|by rewrite decide_False].
Qed.

Lemma elem_of_select {A} (mask : list bool) (l : list A) (x : A) :
  x ∈ select mask l ↔ ∃ j, mask !! j = Some true ∧ l !! j = Some x.
Proof.
  revert l. induction mask as [|b mask IH]; intros [|y l]; cbn [select].
  1-3: split; [by intros ?%elem_of_nil|by intros (j & ? & ?)].
  assert (Hrec : x ∈ select mask l
                 ↔ ∃ j, (b :: mask) !! S j = Some true ∧ (y :: l) !! S j = Some x)
    by apply IH.
  destruct b.
  - rewrite elem_of_cons, Hrec. split.
    + intros [->|(j & Hj)]; [by exists 0%nat|by exists (S j)].
    + intros ([|j] & Hm & Hl); [left; by injection Hl|right; by exists j].
  - rewrite Hrec. split.
    + intros (j & Hj). by exists (S j).
    + intros ([|j] & Hm & Hl); [discriminate|by exists j].
Qed.

Lemma getitem_select_rows (d : DataFrame) (mask : list bool) (col : string) :
  getitem (select_rows d mask) col
  = match getitem d col with
    | Ok cells => Ok (select mask cells)
    | Raise e => Raise e
    end.
Proof.
  unfold getitem, select_rows. cbn [columns].
  rewrite (lookup_item_fmap (λ cells, select mask cells)).
  by destruct (lookup_item col (columns d)).
Qed.

Lemma well_formed_set_column (d : DataFrame) (label : string)
    (cells : list pyobj) :
  well_formed d → length cells = length (index d) →
  well_formed (set_column d label cells).
Proof.
  unfold well_formed, set_column. cbn [index columns]. intros Hwf Hlen.
  case_bool_decide.
  - apply Forall_forall. intros c Hc.
    apply list_elem_of_In, in_map_iff in Hc as ([k v] & <- & Hin).
    case_bool_decide; [exact Hlen|].
    apply list_elem_of_In in Hin.
    exact (proj1 (Forall_forall _ _) Hwf _ Hin).
  - apply Forall_app. split; [exact Hwf|]. by constructor.
Qed.

Lemma well_formed_select_rows (d : DataFrame) (mask : list bool) :
  well_formed d → well_formed (select_rows d mask).
Proof.
  unfold well_formed, select_rows. cbn [index columns]. intros Hwf.
  apply Forall_forall. intros c Hc.
  apply list_elem_of_In, in_map_iff in Hc as ([k v] & <- & Hin).
  cbn [snd]. apply length_select.
  apply list_elem_of_In in Hin.
  exact (proj1 (Forall_forall _ _) Hwf _ Hin).
Qed.

Lemma insert_last {A} (h : list A) (x y : A) :
  <[length h := y]> (h ++ [x]) = h ++ [y].
Proof. rewrite insert_app_r_alt by lia. by rewrite Nat.sub_diag. Qed.

Lemma setitem_at (h : heap) (l : loc) (d : DataFrame) (label : string)
    (cells : list pyobj) :
  h !! l = Some d →
  setitem l label cells h = (Ok (), <[l := set_column d label cells]> h).
Proof. intros H. unfold setitem. rewrite H. reflexivity. Qed.

Section PreprocessFrame.

Variable str_lower : pystr → pystr.
Variable is_word : N → bool.
Variable is_digit : N → bool.
Variable word_tokenize : pystr → list pystr.
Variable stop_words : gset pystr.
Variable stem : pystr → pystr.

Local Abbreviation pre :=
  (preprocess_text str_lower is_word is_digit word_tokenize stop_words stem).
Local Abbreviation run :=
  (preprocess_dataframe str_lower is_word is_digit word_tokenize stop_words
     stem).

(** The rows that are kept are those whose processed text is not empty. *)
Lemma str_len_positive_processed (texts : list pyobj) (f g : bool) :
  map str_len_positive (map (λ x, PyStr (pre x f g)) texts)
  = map (λ t, bool_decide (pre t f g ≠ [])) texts.
Proof.
  rewrite map_map. apply map_ext. intros t. cbn [str_len_positive].
  destruct (pre t f g) as [|c s].
  - by rewrite bool_decide_eq_false_2 by (by intros ?).
  - by rewrite bool_decide_eq_true_2.
Qed.

(** One run of [preprocess_dataframe]: the heap grows by the copy, which
    gets the new column, and by the frame of the rows that are kept. *)
Lemma preprocess_dataframe_run (h : heap) (df : loc) (d : DataFrame)
    (text_column : string) (f g : bool) :
  h !! df = Some d →
  match getitem d text_column with
  | Ok texts =>
      run df text_column f g h
      = (Ok (S (length h)),
         h ++ [ set_column d "processed_text"
                  (map (λ x, PyStr (pre x f g)) texts);
                select_rows
                  (set_column d "processed_text"
                     (map (λ x, PyStr (pre x f g)) texts))
                  (map (λ t, bool_decide (pre t f g ≠ [])) texts) ])
  | Raise e => run df text_column f g h = (Raise e, h ++ [d])
  end.
Proof.
  intros Hd. unfold preprocess_dataframe.
  assert (Hcopy : copy df h = (Ok (length h), h ++ [d])).
  { unfold copy. rewrite (bind_ok _ _ _ _ _ (load_at _ _ _ Hd)). reflexivity. }
  rewrite (bind_ok _ _ _ _ _ Hcopy). cbv beta.
  assert (Hlast : (h ++ [d]) !! length h = Some d)
    by (by apply list_lookup_middle).
  assert (Htexts : getitem_at (length h) text_column (h ++ [d])
                   = (getitem d text_column, h ++ [d])).
  { unfold getitem_at. rewrite (bind_ok _ _ _ _ _ (load_at _ _ _ Hlast)).
    reflexivity. }
  destruct (getitem d text_column) as [texts|e];
    [|by rewrite (bind_raise _ _ _ _ _ Htexts)].
  rewrite (bind_ok _ _ _ _ _ Htexts). cbv beta.
  rewrite <- str_len_positive_processed.
  set (processed := map (λ x, PyStr (pre x f g)) texts).
  set (d1 := set_column d "processed_text" processed).
  assert (Hset : setitem (length h) "processed_text" processed (h ++ [d])
                 = (Ok (), h ++ [d1])).
  { rewrite (setitem_at _ _ _ _ _ Hlast). f_equal. apply insert_last. }
  rewrite (bind_ok _ _ _ _ _ Hset). cbv beta.
  assert (Hlast1 : (h ++ [d1]) !! length h = Some d1)
    by (by apply list_lookup_middle).
  assert (Hproc : getitem_at (length h) "processed_text" (h ++ [d1])
                  = (Ok processed, h ++ [d1])).
  { unfold getitem_at. rewrite (bind_ok _ _ _ _ _ (load_at _ _ _ Hlast1)).
    unfold lift, getitem, d1. by rewrite lookup_item_set_column. }
  rewrite (bind_ok _ _ _ _ _ Hproc). cbv beta.
  assert (Hmask : getitem_mask (length h) (map str_len_positive processed)
                    (h ++ [d1])
                  = (Ok (length (h ++ [d1])),
                     (h ++ [d1])
                     ++ [select_rows d1 (map str_len_positive processed)])).
  { unfold getitem_mask.
    rewrite (bind_ok _ _ _ _ _ (load_at _ _ _ Hlast1)). reflexivity. }
  rewrite (bind_ok _ _ _ _ _ Hmask). cbv beta. unfold mret, M_ret. f_equal.
  - f_equal. rewrite length_app. cbn [length]. lia.
  - by rewrite <- app_assoc.
Qed.

Lemma preprocess_dataframe_returns (h : heap) (df : loc) (d : DataFrame)
    (text_column : string) (texts : list pyobj) (f g : bool) :
  h !! df = Some d → getitem d text_column = Ok texts →
  run df text_column f g h
  = (Ok (S (length h)),
     h ++ [ set_column d "processed_text"
              (map (λ x, PyStr (pre x f g)) texts);
            select_rows
              (set_column d "processed_text"
                 (map (λ x, PyStr (pre x f g)) texts))
              (map (λ t, bool_decide (pre t f g ≠ [])) texts) ]).
Proof.
  intros Hd Hget.
  pose proof (preprocess_dataframe_run h df d text_column f g Hd) as Hrun.
  by rewrite Hget in Hrun.
Qed.

Lemma lookup_second_new {A} (h : list A) (x y : A) :
  (h ++ [x; y]) !! S (length h) = Some y.
Proof.
  change (h ++ [x; y]) with (h ++ [x] ++ [y]). rewrite app_assoc.
  apply list_lookup_middle. rewrite length_app. cbn [length]. lia.
Qed.

(** X20. [preprocess_dataframe] leaves every frame of the heap as it
    was, its input among them, although it assigns a column: the
    assignment is made on a copy.  When it returns, the frame it returns
    is a new object, at a location that was free. *)
Theorem preprocess_dataframe_keeps_input (h : heap) (df : loc)
    (d : DataFrame) (text_column : string) (f g : bool) :
  h !! df = Some d →
  (∀ l d0, h !! l = Some d0 →
     (run df text_column f g h).2 !! l = Some d0)
  ∧ (∀ out, (run df text_column f g h).1 = Ok out →
       h !! out = None ∧ is_Some ((run df text_column f g h).2 !! out)).
Proof.
  intros Hd.
  pose proof (preprocess_dataframe_run h df d text_column f g Hd) as Hrun.
  destruct (getitem d text_column) as [texts|e]; rewrite Hrun; cbn [fst snd].
  - split.
    + intros l d0 Hl. by apply lookup_app_l_Some.
    + intros out [= <-]. split.
      * apply lookup_ge_None. lia.
      * eexists. apply lookup_second_new.
  - split; [|discriminate].
    intros l d0 Hl. by apply lookup_app_l_Some.
Qed.

(** X21. [preprocess_dataframe] removes rows whole and renumbers
    nothing: on a frame with at least one row it returns the rows whose
    processed text is not empty, each under the label it had and with the
    cells it had in every other column, and the processed texts of those
    rows in the column ['processed_text']. *)
Theorem preprocess_dataframe_rows (h : heap) (df : loc) (d : DataFrame)
    (text_column : string) (texts : list pyobj) (f g : bool) :
  h !! df = Some d →
  getitem d text_column = Ok texts →
  texts ≠ [] →
  ∃ out d',
    (run df text_column f g h).1 = Ok out
    ∧ (run df text_column f g h).2 !! out = Some d'
    ∧ index d'
      = select (map (λ t, bool_decide (pre t f g ≠ [])) texts) (index d)
    ∧ getitem d' "processed_text"
      = Ok (select (map (λ t, bool_decide (pre t f g ≠ [])) texts)
              (map (λ t, PyStr (pre t f g)) texts))
    ∧ ∀ col cells,
        col ≠ "processed_text"%string → getitem d col = Ok cells →
        getitem d' col
        = Ok (select (map (λ t, bool_decide (pre t f g ≠ [])) texts) cells).
Proof.
  intros Hd Hget _.
  rewrite (preprocess_dataframe_returns h df d text_column texts f g Hd Hget).
  cbn [fst snd]. eexists. eexists.
  split; [reflexivity|]. split; [apply lookup_second_new|].
  split; [reflexivity|]. split.
  - rewrite getitem_select_rows. unfold getitem.
    by rewrite lookup_item_set_column.
  - intros col cells Hcol Hcells. rewrite getitem_select_rows.
    unfold getitem in *. rewrite lookup_item_set_column_ne by done.
    destruct (lookup_item col (columns d)); by inversion Hcells.
Qed.

(** X22. In the frame that [preprocess_dataframe] returns for a frame
    with at least one row, every cell of ['processed_text'] is a string
    that is not empty, the row labels are labels of the input in the
    order of the input, and there is one row for each text of the input
    whose processed text is not empty. *)
Theorem preprocess_dataframe_result (h : heap) (df : loc) (d : DataFrame)
    (text_column : string) (texts : list pyobj) (f g : bool) :
  h !! df = Some d →
  getitem d text_column = Ok texts →
  texts ≠ [] →
  well_formed d →
  ∃ out d' processed,
    (run df text_column f g h).1 = Ok out
    ∧ (run df text_column f g h).2 !! out = Some d'
    ∧ getitem d' "processed_text" = Ok processed
    ∧ Forall (λ c, ∃ s, c = PyStr s ∧ s ≠ []) processed
    ∧ sublist (index d') (index d)
    ∧ length processed = length (index d')
    ∧ len d' = Z.of_nat (length (filter (λ t, pre t f g ≠ []) texts)).
Proof.
  intros Hd Hget _ Hwf.
  rewrite (preprocess_dataframe_returns h df d text_column texts f g Hd Hget).
  cbn [fst snd]. eexists. eexists. eexists.
  split; [reflexivity|]. split; [apply lookup_second_new|].
  assert (Hlen : length texts = length (index d)).
  { apply getitem_in_columns in Hget.
    exact (proj1 (Forall_forall _ _) Hwf _ Hget). }
  split.
  { rewrite getitem_select_rows. unfold getitem.
    by rewrite lookup_item_set_column. }
  rewrite select_map, (select_filter (λ t, pre t f g ≠ [])).
  split.
  { apply Forall_forall. intros c Hc.
    apply list_elem_of_In, in_map_iff in Hc as (t & <- & Ht).
    apply list_elem_of_In, list_elem_of_filter in Ht as [Ht _].
    by eexists. }
  unfold len. cbn [select_rows index set_column].
  split; [apply select_sublist|].
  rewrite length_map, <- (select_filter (λ t, pre t f g ≠ [])).
  by rewrite (length_select _ (index d) texts).
Qed.

(** X23. [preprocess_dataframe] raises [KeyError] when the frame has no
    column of the given name. *)
Theorem preprocess_dataframe_missing_column (h : heap) (df : loc)
    (d : DataFrame) (text_column : string) (f g : bool) :
  h !! df = Some d →
  text_column ∉ column_names d →
  (run df text_column f g h).1 = Raise KeyError.
Proof.
  intros Hd Hcol.
  pose proof (preprocess_dataframe_run h df d text_column f g Hd) as Hrun.
  unfold getitem in Hrun. rewrite lookup_item_absent in Hrun by done.
  by rewrite Hrun.
Qed.

End PreprocessFrame.

(** *** Concrete runs of [preprocess_dataframe] *)

Lemma preprocess_dataframe_keeps_input_witness :
  (preprocess_dataframe lower_latin1 word_latin1 ascii_digit sample_tokenize
     sample_stop_words sample_stem 0%nat "text" true false [raw_frame]).2
    !! 0%nat = Some raw_frame.
Proof.
  apply (preprocess_dataframe_keeps_input lower_latin1 word_latin1 ascii_digit
           sample_tokenize sample_stop_words sample_stem [raw_frame] 0%nat
           raw_frame "text" true false); reflexivity.
Defined.

Lemma preprocess_dataframe_rows_witness :
  ∃ out d',
    (preprocess_dataframe lower_latin1 word_latin1 ascii_digit sample_tokenize
       sample_stop_words sample_stem 0%nat "text" true false [raw_frame]).1
    = Ok out
    ∧ (preprocess_dataframe lower_latin1 word_latin1 ascii_digit
         sample_tokenize sample_stop_words sample_stem 0%nat "text" true false
         [raw_frame]).2 !! out = Some d'
    ∧ index d' = [0; 2]
    ∧ getitem d' "text"
      = Ok [PyStr (py "Produto bom!"); PyStr (py "Produto ruim!")].
Proof.
  destruct (preprocess_dataframe_rows lower_latin1 word_latin1 ascii_digit
              sample_tokenize sample_stop_words sample_stem [raw_frame] 0%nat
              raw_frame "text"
              [PyStr (py "Produto bom!"); PyStr (py "https://t.co/abc");
               PyStr (py "Produto ruim!")] true false)
    as (out & d' & Hout & Hd' & Hidx & _ & Hcols).
  - reflexivity.
  - reflexivity.
  - discriminate.
  - exists out, d'. split; [exact Hout|]. split; [exact Hd'|]. split.
    + rewrite Hidx. vm_compute. reflexivity.
    + rewrite (Hcols "text"%string _ ltac:(discriminate) eq_refl).
      vm_compute. reflexivity.
Defined.

Lemma preprocess_dataframe_result_witness :
  ∃ out d',
    (preprocess_dataframe lower_latin1 word_latin1 ascii_digit sample_tokenize
       sample_stop_words sample_stem 0%nat "text" true false [raw_frame]).1
    = Ok out
    ∧ (preprocess_dataframe lower_latin1 word_latin1 ascii_digit
         sample_tokenize sample_stop_words sample_stem 0%nat "text" true false
         [raw_frame]).2 !! out = Some d'
    ∧ len d' = 2.
Proof.
  destruct (preprocess_dataframe_result lower_latin1 word_latin1 ascii_digit
              sample_tokenize sample_stop_words sample_stem [raw_frame] 0%nat
              raw_frame "text"
              [PyStr (py "Produto bom!"); PyStr (py "https://t.co/abc");
               PyStr (py "Produto ruim!")] true false)
    as (out & d' & processed & Hout & Hd' & _ & _ & _ & _ & Hlen).
  - reflexivity.
  - reflexivity.
  - discriminate.
  - repeat constructor.
  - exists out, d'. split; [exact Hout|]. split; [exact Hd'|].
    rewrite Hlen. vm_compute. reflexivity.
Defined.

Lemma preprocess_dataframe_missing_column_witness :
  (preprocess_dataframe lower_latin1 word_latin1 ascii_digit sample_tokenize
     sample_stop_words sample_stem 0%nat "tweet" true false [raw_frame]).1
  = Raise KeyError.
Proof.
  apply (preprocess_dataframe_missing_column lower_latin1 word_latin1
           ascii_digit sample_tokenize sample_stop_words sample_stem
           [raw_frame] 0%nat raw_frame).
  - reflexivity.
  - by_computation.
Defined.

(** Of [raw_frame] the rows labelled 0 and 2 are left: the frame
    [filtered_frame]. *)
Example preprocess_dataframe_of_raw_frame :
  preprocess_dataframe lower_latin1 word_latin1 ascii_digit sample_tokenize
    sample_stop_words sample_stem 0%nat "text" true false [raw_frame]
  = (Ok 2%nat,
     [ raw_frame;
       set_column raw_frame "processed_text"
         [PyStr (py "produto bom"); PyStr []; PyStr (py "produto ruim")];
       filtered_frame ]).
Proof. vm_compute. reflexivity. Qed.

(** ** From the collected texts to the analysis *)

Lemma range_index_lookup_inv (n i : nat) (label : Z) :
  range_index n !! i = Some label → label = Z.of_nat i ∧ (i < n)%nat.
Proof.
  intros Hi. pose proof (lookup_lt_Some _ _ _ Hi) as Hlt.
  rewrite length_range_index in Hlt.
  rewrite range_index_lookup in Hi by done. by injection Hi as <-.
Qed.

Section PipelineFacts.

Variable str_lower : pystr → pystr.
Variable is_word : N → bool.
Variable is_digit : N → bool.
Variable word_tokenize : pystr → list pystr.
Variable stop_words : gset pystr.
Variable stem : pystr → pystr.
Variable blob_polarity : pystr → Q.
Variable blob_subjectivity : pystr → Q.
Variable vader_analyzer : option (pystr → vader_scores).

Local Abbreviation pre :=
  (preprocess_text str_lower is_word is_digit word_tokenize stop_words stem).
Local Abbreviation pipeline :=
  (preprocess_and_analyze str_lower is_word is_digit word_tokenize stop_words
     stem blob_polarity blob_subjectivity vader_analyzer).
Local Abbreviation frame :=
  (analyze_frame str_lower blob_polarity blob_subjectivity vader_analyzer).

(** The two steps, one after the other: the analysis of the frame of the
    rows that are kept. *)
Lemma preprocess_and_analyze_run (h : heap) (df : loc) (d : DataFrame)
    (texts : list pyobj) :
  h !! df = Some d → getitem d "text" = Ok texts →
  let d1 := set_column d "processed_text"
              (map (λ x, PyStr (pre x true false)) texts) in
  let dp := select_rows d1
              (map (λ t, bool_decide (pre t true false ≠ [])) texts) in
  getitem dp "processed_text"
  = Ok (map (λ t, PyStr (pre t true false))
          (filter (λ t, pre t true false ≠ []) texts))
  ∧ match frame dp "processed_text" with
    | Ok d' =>
        ∃ out, (pipeline df h).1 = Ok out
               ∧ (pipeline df h).2 !! out = Some d'
    | Raise e => (pipeline df h).1 = Raise e
    end.
Proof.
  intros Hd Hget d1 dp. split.
  { unfold dp, d1. rewrite getitem_select_rows. unfold getitem.
    rewrite lookup_item_set_column.
    by rewrite select_map, (select_filter (λ t, pre t true false ≠ [])). }
  pose proof (preprocess_dataframe_returns str_lower is_word is_digit
                word_tokenize stop_words stem h df d "text" texts true false
                Hd Hget) as Hrun.
  fold d1 in Hrun. fold dp in Hrun.
  unfold preprocess_and_analyze, preprocess_data, analyze_sentiment.
  rewrite (bind_ok _ _ _ _ _ Hrun).
  assert (Hdp : (h ++ [d1; dp]) !! S (length h) = Some dp)
    by apply lookup_second_new.
  destruct (frame dp "processed_text") as [d'|e] eqn:Hframe.
  - exact (analyze_dataframe_returns str_lower blob_polarity blob_subjectivity
             vader_analyzer _ _ dp d' "processed_text" Hdp Hframe).
  - exact (analyze_dataframe_raises str_lower blob_polarity blob_subjectivity
             vader_analyzer _ _ dp "processed_text" e Hdp Hframe).
Qed.

(** X24. The two steps of [main.py] on collected texts under the fresh
    row labels 0, 1, ..., some text being left by the preprocessing: the
    analysis has at least one row for each text that is left, and exactly
    that many when and only when the texts that are left are the first
    rows of the input.  As soon as a row that is removed comes before a
    row that is kept, the analysis has more rows than there are texts. *)
Theorem preprocess_and_analyze_row_count (h : heap) (df : loc)
    (d : DataFrame) (texts : list pyobj) :
  h !! df = Some d →
  getitem d "text" = Ok texts →
  index d = range_index (length texts) →
  well_formed d →
  filter (λ t, pre t true false ≠ []) texts ≠ [] →
  ∃ out d',
    (pipeline df h).1 = Ok out
    ∧ (pipeline df h).2 !! out = Some d'
    ∧ Z.of_nat (length (filter (λ t, pre t true false ≠ []) texts)) <= len d'
    ∧ (len d' = Z.of_nat (length (filter (λ t, pre t true false ≠ []) texts))
       ↔ ∀ j t,
           (j < length (filter (λ t, pre t true false ≠ []) texts))%nat →
           texts !! j = Some t → pre t true false ≠ []).
Proof.
  intros Hd Hget Hidx Hwf Hleft.
  destruct (preprocess_and_analyze_run h df d texts Hd Hget) as [Hptexts Hrun].
  set (kept := filter (λ t, pre t true false ≠ []) texts) in *.
  set (mask := map (λ t, bool_decide (pre t true false ≠ [])) texts) in *.
  set (d1 := set_column d "processed_text"
               (map (λ x, PyStr (pre x true false)) texts)) in *.
  set (dp := select_rows d1 mask) in *.
  assert (Hlen : length texts = length (index d)).
  { apply getitem_in_columns in Hget.
    exact (proj1 (Forall_forall _ _) Hwf _ Hget). }
  assert (Hlabels : index dp = select mask (range_index (length texts))).
  { unfold dp, d1. cbn [select_rows index set_column]. by rewrite Hidx. }
  assert (Hrows : length (index dp) = length kept).
  { rewrite Hlabels. unfold mask, kept.
    rewrite <- (select_filter (λ t, pre t true false ≠ [])).
    apply length_select. apply length_range_index. }
  assert (Hmask : ∀ j t, texts !! j = Some t →
            mask !! j = Some (bool_decide (pre t true false ≠ []))).
  { intros j t Ht. unfold mask.
    change (map ?f texts) with (f <$> texts).
    by rewrite list_lookup_fmap, Ht. }
  assert (Hin : ∀ j, Z.of_nat j ∈ index dp
            ↔ ∃ t, texts !! j = Some t ∧ pre t true false ≠ []).
  { intros j. rewrite Hlabels, elem_of_select. split.
    - intros (i & Hi & Hl).
      apply range_index_lookup_inv in Hl as [Hl Hlt].
      apply Nat2Z.inj in Hl. subst i.
      destruct (lookup_lt_is_Some_2 texts j Hlt) as [t Ht].
      exists t. split; [exact Ht|].
      rewrite (Hmask j t Ht) in Hi. injection Hi as Hi.
      by apply bool_decide_eq_true in Hi.
    - intros (t & Ht & Hp). exists j. split.
      + rewrite (Hmask j t Ht). f_equal. by apply bool_decide_eq_true.
      + apply range_index_lookup. by apply lookup_lt_Some in Ht. }
  destruct (analyze_frame_by_label str_lower blob_polarity blob_subjectivity
              vader_analyzer dp "processed_text" _ Hptexts)
    as (records & Hall & Hframe).
  { intros Hnil. apply Hleft. by apply map_eq_nil in Hnil. }
  { apply Forall_forall. intros c Hc.
    apply list_elem_of_In, in_map_iff in Hc as (t & <- & _). constructor. }
  { rewrite Hlabels. eapply sublist_NoDup; [apply NoDup_range_index|].
    apply select_sublist. }
  { apply well_formed_select_rows, well_formed_set_column; [exact Hwf|].
    by rewrite length_map. }
  rewrite Hframe in Hrun. destruct Hrun as (out & Hout & Hd').
  exists out. eexists. split; [exact Hout|]. split; [exact Hd'|].
  apply Forall2_length in Hall. rewrite length_map in Hall.
  fold kept in Hall. rewrite <- Hall.
  unfold len. cbn [index]. unfold index_union. rewrite length_app, Hrows.
  split; [lia|]. split.
  - intros H j t Hj Ht.
    assert (Hnil : filter (λ j, j ∉ index dp) (range_index (length kept)) = []).
    { apply length_zero_iff_nil. lia. }
    apply filter_none with (x := Z.of_nat j) in Hnil.
    + apply dec_stable in Hnil. apply Hin in Hnil as (t' & Ht' & Hp).
      congruence.
    + apply elem_of_range_index. lia.
  - intros H.
    rewrite (proj1 (filter_none _ _)); [cbn [length]; lia|].
    intros z Hz Hout'. apply Hout'.
    apply elem_of_range_index in Hz.
    replace z with (Z.of_nat (Z.to_nat z)) by lia.
    assert (Hlt : (Z.to_nat z < length texts)%nat).
    { pose proof (length_filter (λ t, pre t true false ≠ []) texts) as Hle.
      fold kept in Hle. lia. }
    destruct (lookup_lt_is_Some_2 texts _ Hlt) as [t Ht].
    apply Hin. exists t. split; [exact Ht|].
    apply (H (Z.to_nat z) t); [lia|exact Ht].
Qed.

(** X25. When the preprocessing leaves nothing of any of the collected
    texts, the two steps of [main.py] end in the [KeyError] that
    [analyze_dataframe] raises on a frame without rows. *)
Theorem preprocess_and_analyze_nothing_left (h : heap) (df : loc)
    (d : DataFrame) (texts : list pyobj) :
  h !! df = Some d →
  getitem d "text" = Ok texts →
  texts ≠ [] →
  Forall (λ t, pre t true false = []) texts →
  (pipeline df h).1 = Raise KeyError.
Proof.
  intros Hd Hget _ Hall.
  destruct (preprocess_and_analyze_run h df d texts Hd Hget) as [Hptexts Hrun].
  rewrite (proj1 (filter_none _ _)) in Hptexts.
  - rewrite (analyze_frame_no_rows str_lower blob_polarity blob_subjectivity
               vader_analyzer _ _ Hptexts) in Hrun.
    exact Hrun.
  - intros t Ht Hp. apply Hp.
    exact (proj1 (Forall_forall _ _) Hall t Ht).
Qed.

End PipelineFacts.

(** *** Concrete runs of the two steps *)

Lemma preprocess_and_analyze_row_count_witness :
  ∃ out d',
    (preprocess_and_analyze lower_latin1 word_latin1 ascii_digit
       sample_tokenize sample_stop_words sample_stem baseline_polarity
       baseline_subjectivity None 0%nat [raw_frame]).1 = Ok out
    ∧ (preprocess_and_analyze lower_latin1 word_latin1 ascii_digit
         sample_tokenize sample_stop_words sample_stem baseline_polarity
         baseline_subjectivity None 0%nat [raw_frame]).2 !! out = Some d'
    ∧ 2 <= len d'.
Proof.
  destruct (preprocess_and_analyze_row_count lower_latin1 word_latin1
              ascii_digit sample_tokenize sample_stop_words sample_stem
              baseline_polarity baseline_subjectivity None [raw_frame] 0%nat
              raw_frame
              [PyStr (py "Produto bom!"); PyStr (py "https://t.co/abc");
               PyStr (py "Produto ruim!")])
    as (out & d' & Hout & Hd' & Hlen & _).
  - reflexivity.
  - reflexivity.
  - reflexivity.
  - repeat constructor.
  - vm_compute. discriminate.
  - exists out, d'. split; [exact Hout|]. split; [exact Hd'|].
    etransitivity; [|exact Hlen]. vm_compute. discriminate.
Defined.

Lemma preprocess_and_analyze_nothing_left_witness :
  (preprocess_and_analyze lower_latin1 word_latin1 ascii_digit sample_tokenize
     sample_stop_words sample_stem baseline_polarity baseline_subjectivity
     None 0%nat [noise_frame]).1 = Raise KeyError.
Proof.
  apply (preprocess_and_analyze_nothing_left lower_latin1 word_latin1
           ascii_digit sample_tokenize sample_stop_words sample_stem
           baseline_polarity baseline_subjectivity None [noise_frame] 0%nat
           noise_frame [PyStr (py "@loja"); PyStr (py "2024")]).
  - reflexivity.
  - reflexivity.
  - discriminate.
  - repeat constructor.
Defined.

(** Of the three texts of [raw_frame] two are left, and the analysis has
    three rows: [misaligned_frame]. *)
Example preprocess_and_analyze_of_raw_frame :
  let r := preprocess_and_analyze lower_latin1 word_latin1 ascii_digit
             sample_tokenize sample_stop_words sample_stem baseline_polarity
             baseline_subjectivity None 0%nat [raw_frame] in
  r.1 = Ok 6%nat ∧ r.2 !! 6%nat = Some misaligned_frame.
Proof. vm_compute. split; reflexivity. Qed.
